(** * Clinical research assistant: rank fusion, orchestration, persistence

    A shallow embedding of the parts of the repository that carry the design:
    - [Fusion]: [RetrieverSummarizerAgent.hybrid_fusion]
      (src/agents/retriever_summarizer_agent.py);
    - [ResearchWorkflow]: [ResearchWorkflow.run]
      (src/orchestration/workflows.py), run by the runtime of [Temporal];
    - [ResultSink]: [save_research_result_activity]
      (src/orchestration/activities.py);
    - [Agents]: the [run] methods of the three agents (src/agents/);
    - [Vetting]: [QueryFilterAgent.vet_results]
      (src/agents/query_filter_agent.py);
    - [Activities], [ActivityCalls]: how the agent activities call the
      agents (src/orchestration/activities.py).

    Python floats are modelled as exact rationals ([Q]), and the arithmetic
    the properties lean on is checked again in binary64 ([Binary64]);
    counts and ranks are [nat] or [Z]; dictionaries whose iteration order
    matters are association lists in insertion order.  The calls that leave
    the repository (language model, search engines, database, clock) are
    given by an environment that decides how each of them ends. *)

From Stdlib Require Import List String Ascii Bool Arith ZArith QArith Lia.
From Stdlib Require Import Qminmax Sorted Permutation Floats.
Import ListNotations.

Local Open Scope string_scope.
Local Open Scope list_scope.
Local Open Scope Q_scope.

(* ===================================================================== *)
(** ** Python dictionaries in insertion order *)
(* ===================================================================== *)

Module Dict.

Section WithValue.
Context {V : Type}.

Definition t := list (string * V).

(** [d.get(k)] / [k in d] *)
Fixpoint get (k : string) (d : t) : option V :=
  match d with
  | [] => None
  | (k', v) :: d' => if String.eqb k k' then Some v else get k d'
  end.

(** [d[k] = v]: an existing key keeps its position, a new key goes last. *)
Fixpoint set (k : string) (v : V) (d : t) : t :=
  match d with
  | [] => [(k, v)]
  | (k', v') :: d' =>
      if String.eqb k k' then (k', v) :: d' else (k', v') :: set k v d'
  end.

(** [d.keys()] in iteration order *)
Definition keys (d : t) : list string := map fst d.

End WithValue.

Arguments t : clear implicits.

End Dict.

(* ===================================================================== *)
(** ** Reciprocal rank fusion: [RetrieverSummarizerAgent.hybrid_fusion] *)
(* ===================================================================== *)

Module Fusion.

(** The [_source] document carried by a hit: an opaque payload for fusion. *)
Definition Source := list (string * string).

(** One entry of [bm25_results] / [vector_results]. *)
Record SearchResult := {
  doc_id : string;
  score : Q;
  source : Source;
  retrieval_method : string
}.

(** The inner dictionary kept per document in [doc_scores]: the key
    ["source"] is always present, the two score keys only once written. *)
Record DocData := {
  data_source : Source;
  data_bm25_score : option Q;
  data_vector_score : option Q
}.

(** One entry of the returned list [fused]. *)
Record FusedDoc := {
  fused_doc_id : string;
  fused_source : Source;
  hybrid_score : Q;
  bm25_score : Q;
  vector_score : Q
}.

(** [1.0 / (60 + rank)] *)
Definition rrf (rank : nat) : Q := 1 / inject_Z (60 + Z.of_nat rank).

(** Body of the first loop:
    [doc_scores[doc_id] = doc_scores.get(doc_id, {"source": result["source"]})]
    [doc_scores[doc_id]["bm25_score"] = 1.0 / (60 + rank)] *)
Definition bm25_step (rank : nat) (result : SearchResult)
    (doc_scores : Dict.t DocData) : Dict.t DocData :=
  let data :=
    match Dict.get (doc_id result) doc_scores with
    | Some data => data
    | None => {| data_source := source result;
                 data_bm25_score := None; data_vector_score := None |}
    end in
  Dict.set (doc_id result)
    {| data_source := data_source data;
       data_bm25_score := Some (rrf rank);
       data_vector_score := data_vector_score data |} doc_scores.

(** Body of the second loop:
    [if doc_id not in doc_scores: doc_scores[doc_id] = {"source": ...}]
    [doc_scores[doc_id]["vector_score"] = 1.0 / (60 + rank)] *)
Definition vector_step (rank : nat) (result : SearchResult)
    (doc_scores : Dict.t DocData) : Dict.t DocData :=
  let data :=
    match Dict.get (doc_id result) doc_scores with
    | Some data => data
    | None => {| data_source := source result;
                 data_bm25_score := None; data_vector_score := None |}
    end in
  Dict.set (doc_id result)
    {| data_source := data_source data;
       data_bm25_score := data_bm25_score data;
       data_vector_score := Some (rrf rank) |} doc_scores.

(** [for rank, result in enumerate(results, start=rank): step] *)
Fixpoint enumerate_loop
    (step : nat -> SearchResult -> Dict.t DocData -> Dict.t DocData)
    (rank : nat) (results : list SearchResult)
    (doc_scores : Dict.t DocData) : Dict.t DocData :=
  match results with
  | [] => doc_scores
  | result :: rest => enumerate_loop step (S rank) rest (step rank result doc_scores)
  end.

(** [data.get("bm25_score", 0)] *)
Definition get_score (s : option Q) : Q :=
  match s with Some q => q | None => 0 end.

(** Body of the third loop: one output entry per item of [doc_scores]. *)
Definition fuse_entry (alpha : Q) (item : string * DocData) : FusedDoc :=
  let (doc_id, data) := item in
  let bm25 := get_score (data_bm25_score data) in
  let vector := get_score (data_vector_score data) in
  {| fused_doc_id := doc_id;
     fused_source := data_source data;
     hybrid_score := alpha * bm25 + (1 - alpha) * vector;
     bm25_score := bm25;
     vector_score := vector |}.

(** [fused.sort(key=lambda x: x["hybrid_score"], reverse=True)]: Python's
    sort is stable, also under [reverse=True]; entries with equal keys keep
    their original relative order.  Inserting from the right, the element
    inserted precedes every element of the list it is inserted into, so it
    goes in front of the first element whose key is not larger. *)
Fixpoint insert_desc (x : FusedDoc) (l : list FusedDoc) : list FusedDoc :=
  match l with
  | [] => [x]
  | y :: l' =>
      if Qle_bool (hybrid_score y) (hybrid_score x)
      then x :: y :: l'
      else y :: insert_desc x l'
  end.

Definition sort_desc (l : list FusedDoc) : list FusedDoc :=
  fold_right insert_desc [] l.

(** [doc_scores] after the two scoring loops. *)
Definition doc_scores_of (bm25_results vector_results : list SearchResult)
    : Dict.t DocData :=
  enumerate_loop vector_step 1 vector_results
    (enumerate_loop bm25_step 1 bm25_results []).

(** [fused] before the final sort. *)
Definition fused_unsorted (bm25_results vector_results : list SearchResult)
    (alpha : Q) : list FusedDoc :=
  map (fuse_entry alpha) (doc_scores_of bm25_results vector_results).

Definition hybrid_fusion (bm25_results vector_results : list SearchResult)
    (alpha : Q) : list FusedDoc :=
  sort_desc (fused_unsorted bm25_results vector_results alpha).

(** What [doc_scores] holds for an identifier under the key ["bm25_score"],
    and under ["vector_score"]; [None] while the key is not written. *)
Definition bm25_of (id : string) (ds : Dict.t DocData) : option Q :=
  match Dict.get id ds with Some d => data_bm25_score d | None => None end.
Definition vector_of (id : string) (ds : Dict.t DocData) : option Q :=
  match Dict.get id ds with Some d => data_vector_score d | None => None end.

(** The identifiers of a ranked list, in rank order. *)
Definition ids (results : list SearchResult) : list string := map doc_id results.

(** A hit with only the fields fusion reads. *)
Definition hit (id : string) : SearchResult :=
  {| doc_id := id; score := 0; source := [("title", id)]; retrieval_method := EmptyString |}.

End Fusion.


(* ===================================================================== *)
(** ** The score arithmetic in binary64, as Python computes it *)
(* ===================================================================== *)

Module Binary64.

(** [1.0 / (60 + rank)] *)
Definition rrf (rank : float) : float := (1 / (60 + rank))%float.

(** [alpha * bm25 + (1 - alpha) * vector] *)
Definition hybrid (alpha bm25 vector : float) : float :=
  (alpha * bm25 + (1 - alpha) * vector)%float.

End Binary64.

(* ===================================================================== *)
(** ** Ranks and order of first appearance (vocabulary of the properties) *)
(* ===================================================================== *)

Module Ranking.

(** Boolean membership, as [x in l]. *)
Definition mem (x : string) (l : list string) : bool := existsb (String.eqb x) l.

(** The distinct identifiers of a list, in order of first appearance. *)
Fixpoint first_seen (l : list string) : list string :=
  match l with
  | [] => []
  | x :: l' => x :: filter (fun y => negb (String.eqb y x)) (first_seen l')
  end.

(** 0-based position of the first occurrence (the length when absent). *)
Fixpoint index_of (x : string) (l : list string) : nat :=
  match l with
  | [] => 0
  | y :: l' => if String.eqb x y then 0 else S (index_of x l')
  end.

(** Rank of the first occurrence of [x], counting from [rank]. *)
Fixpoint first_rank_from (rank : nat) (x : string) (l : list string) : option nat :=
  match l with
  | [] => None
  | y :: l' => if String.eqb x y then Some rank else first_rank_from (S rank) x l'
  end.

(** Rank of the last occurrence of [x], counting from [rank]. *)
Fixpoint last_rank_from (rank : nat) (x : string) (l : list string) : option nat :=
  match l with
  | [] => None
  | y :: l' =>
      match last_rank_from (S rank) x l' with
      | Some k => Some k
      | None => if String.eqb x y then Some rank else None
      end
  end.

(** 1-based ranks, as [enumerate(..., start=1)] counts them. *)
Definition first_rank (x : string) (l : list string) : option nat := first_rank_from 1 x l.
Definition last_rank (x : string) (l : list string) : option nat := last_rank_from 1 x l.

(** The reciprocal-rank contribution [1/(60 + r)] of a rank, [0] when absent. *)
Definition contribution (r : option nat) : Q :=
  match r with
  | Some k => 1 # Pos.of_nat (60 + k)
  | None => 0
  end.

(** [x] occurs in [l] at a position in front of an occurrence of [y]. *)
Inductive before {A : Type} (x y : A) : list A -> Prop :=
| before_here : forall l, In y l -> before x y (x :: l)
| before_later : forall z l, before x y l -> before x y (z :: l).

End Ranking.

(* ===================================================================== *)
(** ** Vocabulary of the fusion properties *)
(* ===================================================================== *)

Module FusionSpec.
Import Ranking Fusion.

(** Descending order of combined score. *)
Definition desc (x y : FusedDoc) : Prop := hybrid_score y <= hybrid_score x.

(** Entries of equal combined score stand in the order in which their
    identifiers first appear in [all]. *)
Definition tie_order (all : list string) (out : list FusedDoc) : Prop :=
  forall i j e1 e2,
    (i < j)%nat -> nth_error out i = Some e1 -> nth_error out j = Some e2 ->
    hybrid_score e1 == hybrid_score e2 ->
    (index_of (fused_doc_id e1) all < index_of (fused_doc_id e2) all)%nat.

(** Every entry's per-source scores are the contributions of the ranks that
    [pick] selects for its identifier in the two lists. *)
Definition scored_by (pick : string -> list string -> option nat)
    (A B : list SearchResult) (out : list FusedDoc) : Prop :=
  forall e, In e out ->
    bm25_score e == contribution (pick (fused_doc_id e) (ids A)) /\
    vector_score e == contribution (pick (fused_doc_id e) (ids B)).

End FusionSpec.

(* ===================================================================== *)
(** ** Python values carried in dictionaries ([Dict[str, Any]]) *)
(* ===================================================================== *)

Module Py.

#[warnings="-register-all"]
Inductive Value : Type :=
| VNone
| VBool (b : bool)
| VInt (z : Z)
| VFloat (q : Q)
| VStr (s : string)
| VList (l : list Value)
| VDict (d : list (string * Value)).

(** [d.get(k, default)] on a dictionary. *)
Definition get (k : string) (default : Value) (d : Dict.t Value) : Value :=
  match Dict.get k d with Some v => v | None => default end.

(** Truth value of an object in a condition ([if x:]). *)
Definition truthy (v : Value) : bool :=
  match v with
  | VNone => false
  | VBool b => b
  | VInt z => negb (Z.eqb z 0)
  | VFloat q => negb (Qeq_bool q 0)
  | VStr s => negb (String.eqb s EmptyString)
  | VList l => match l with [] => false | _ => true end
  | VDict d => match d with [] => false | _ => true end
  end.

(** [type(v).__name__] *)
Definition type_name (v : Value) : string :=
  match v with
  | VNone => "NoneType"
  | VBool _ => "bool"
  | VInt _ => "int"
  | VFloat _ => "float"
  | VStr _ => "str"
  | VList _ => "list"
  | VDict _ => "dict"
  end.

Definition backslash : ascii := ascii_of_nat 92.
Definition single_quote : ascii := ascii_of_nat 39.
Definition double_quote : ascii := ascii_of_nat 34.

Fixpoint contains (c : ascii) (s : string) : bool :=
  match s with
  | EmptyString => false
  | String c' s' => Ascii.eqb c c' || contains c s'
  end.

Definition hex_digit (n : nat) : ascii :=
  ascii_of_nat (if (n <? 10)%nat then 48 + n else 87 + n).

(** One character of [repr(s)] for a [str]: the quote in use and the
    backslash are escaped, control characters are written [\t], [\n], [\r]
    or [\xNN]; printable characters (and the bytes of encoded non-ASCII
    text) stand for themselves. *)
Definition repr_char (quote c : ascii) : string :=
  let n := nat_of_ascii c in
  if Ascii.eqb c quote || Ascii.eqb c backslash then String backslash (String c EmptyString)
  else if (n =? 9)%nat then String backslash "t"
  else if (n =? 10)%nat then String backslash "n"
  else if (n =? 13)%nat then String backslash "r"
  else if (n <? 32)%nat || (n =? 127)%nat then
    String backslash (String "x" (String (hex_digit (n / 16)) (String (hex_digit (n mod 16)) EmptyString)))
  else String c EmptyString.

Fixpoint repr_chars (quote : ascii) (s : string) : string :=
  match s with
  | EmptyString => EmptyString
  | String c s' => (repr_char quote c ++ repr_chars quote s')%string
  end.

(** [repr(s)]: single quotes, unless [s] holds a single quote and no
    double quote. *)
Definition repr_str (s : string) : string :=
  let quote :=
    if contains single_quote s && negb (contains double_quote s)
    then double_quote else single_quote in
  String quote (repr_chars quote s ++ String quote EmptyString)%string.

(** [str(l)] for a list of [str], as an f-string renders [{l}]. *)
Definition str_of_list (l : list string) : string :=
  ("[" ++ String.concat ", " (map repr_str l) ++ "]")%string.

End Py.

(* ===================================================================== *)
(** ** Text: a [str] as its UTF-8 encoding *)
(* ===================================================================== *)

(** A [VStr] holds the UTF-8 encoding of a Python [str]: a character is a
    lead byte followed by its continuation bytes ([10xxxxxx]). *)

Module Text.

Definition continuation (c : ascii) : bool :=
  let n := nat_of_ascii c in ((128 <=? n) && (n <? 192))%nat.

(** The characters of a text, each as its own encoding. *)
Fixpoint chars (s : string) : list string :=
  match s with
  | EmptyString => []
  | String c s' =>
      match chars s' with
      | String c' g :: gs =>
          if continuation c' then String c (String c' g) :: gs
          else String c EmptyString :: String c' g :: gs
      | gs => String c EmptyString :: gs
      end
  end.

(** The bits a byte contributes to its character's code point: all seven
    of [0xxxxxxx], the low six of [10xxxxxx], the low five, four and three
    of the lead bytes [110xxxxx], [1110xxxx] and [11110xxx]. *)
Definition payload (c : ascii) : N :=
  let n := N_of_ascii c in
  (if n <? 128 then n
   else if n <? 192 then n - 128
   else if n <? 224 then n - 192
   else if n <? 240 then n - 224
   else n - 240)%N.

Fixpoint code_point_from (acc : N) (s : string) : N :=
  match s with
  | EmptyString => acc
  | String c s' => code_point_from (acc * 64 + payload c)%N s'
  end.

(** [ord(ch)] *)
Definition code_point (ch : string) : N :=
  match ch with
  | EmptyString => 0%N
  | String c s' => code_point_from (payload c) s'
  end.

(** The code points of a text, in order. *)
Definition code_points (s : string) : list N := map code_point (chars s).

End Text.

(* ===================================================================== *)
(** ** The agents' common result: [data.models.AgentOutput] *)
(* ===================================================================== *)

Module Models.
Import Py.

(** [AgentOutput.model_dump()]: the five fields with their validated types. *)
Record AgentOutput := {
  agent_name : string;
  output_data : Dict.t Value;
  metrics : Dict.t Q;
  errors : list string;
  execution_time_ms : Q
}.

(** [ResearchStatus.<X>.value] *)
Definition PENDING : string := "pending".
Definition PROCESSING : string := "processing".
Definition COMPLETED : string := "completed".
Definition FAILED : string := "failed".

(** A row of [research_requests] ([ResearchRequestDB]); a column holds the
    Python value last assigned to it, [VNone] for SQL NULL. *)
Record ResearchRequestDB := {
  id : string;
  topic : string;
  status : Value;
  created_at : option Q;
  completed_at : option Q;
  processing_time_seconds : option Q;
  brief_data : Value;
  error : Value
}.

End Models.

(* ===================================================================== *)
(** ** Persistence: [save_research_result_activity] *)
(* ===================================================================== *)

Module ResultSink.
Import Py Models.

(** The table [research_requests], in storage order. *)
Definition Table := list ResearchRequestDB.

(** What the activity meets when it runs: the two readings of
    [datetime.utcnow()] (seconds), and whether the database raises during
    the query or the commit, with the exception's text: a connection that is
    lost, or an identifier that the database cannot read as a UUID, the type
    of the column [id]. *)
Record Run := {
  utcnow_completed : Q;
  utcnow_processing : Q;
  db_fault : option string
}.

(** [db.query(ResearchRequestDB).filter(ResearchRequestDB.id == request_id).first()];
    identifiers are held in the text form of [str(uuid)], which is how the
    API writes them and hands them to the workflow. *)
Definition matches (request_id : Value) (row : ResearchRequestDB) : bool :=
  match request_id with
  | VStr s => String.eqb (id row) s
  | _ => false
  end.

Definition first (request_id : Value) (db : Table) : option ResearchRequestDB :=
  find (matches request_id) db.

(** The assignments made to the row found. *)
Definition updated (run : Run) (result : Dict.t Value) (row : ResearchRequestDB)
    : ResearchRequestDB :=
  {| id := id row;
     topic := topic row;
     status := Py.get "status" (VStr COMPLETED) result;
     created_at := created_at row;
     completed_at := Some (utcnow_completed run);
     processing_time_seconds :=
       match created_at row with
       | Some t => Some (utcnow_processing run - t)
       | None => processing_time_seconds row
       end;
     brief_data := Py.get "brief" VNone result;
     error := error row |}.

(** [db.commit()]: the row found is written back in place. *)
Fixpoint commit (request_id : Value) (new_row : ResearchRequestDB) (db : Table) : Table :=
  match db with
  | [] => []
  | row :: db' =>
      if matches request_id row then new_row :: db'
      else row :: commit request_id new_row db'
  end.

(** [data.get("result", {})] is a dictionary whenever the workflow built
    [data]; any other value makes [result.get] raise inside the [try]. *)
Definition result_of (data : Dict.t Value) : option (Dict.t Value) :=
  match Py.get "result" (VDict []) data with
  | VDict d => Some d
  | _ => None
  end.

Definition ack_success : Dict.t Value := [("success", VBool true)].
Definition ack_failure (msg : string) : Dict.t Value :=
  [("success", VBool false); ("error", VStr msg)].

(** The activity: returns the table as persisted and its acknowledgement.
    A raise inside the [try] rolls back and leaves the table as it was. *)
Definition save_research_result_activity (run : Run) (data : Dict.t Value)
    (db : Table) : Table * Dict.t Value :=
  match db_fault run with
  | Some msg => (db, ack_failure msg)
  | None =>
      let request_id := Py.get "request_id" VNone data in
      match first request_id db with
      | Some db_request =>
          match result_of data with
          | Some result =>
              (commit request_id (updated run result db_request) db, ack_success)
          | None =>
              (db, ack_failure
                     ("'" ++ type_name (Py.get "result" (VDict []) data)
                          ++ "' object has no attribute 'get'")%string)
          end
      | None => (db, ack_success)
      end
  end.


End ResultSink.

(* ===================================================================== *)
(** ** The workflow runtime: activities, attempts, retries *)
(* ===================================================================== *)

(** The runtime is the [temporalio] library, not code of the repository.
    What [workflow.execute_activity] does with a retry policy is taken from
    the library's documented behaviour: an attempt of the activity that
    raises, times out or loses its worker has failed and is followed, after
    a wait, by another attempt while the policy allows one; an attempt that
    returns completes the call with the value returned; when the attempts
    are used up the call raises in the workflow, which fails. *)

Module Temporal.
Import Py Models.

(** [temporalio.common.RetryPolicy]; intervals in seconds.  The workflow
    sets three fields, [backoff_coefficient] keeps the library's default. *)
Record RetryPolicy := {
  initial_interval : Q;
  backoff_coefficient : Q;
  maximum_interval : Q;
  maximum_attempts : nat
}.

Definition default_backoff_coefficient : Q := 2.

(** The four activities registered with the worker. *)
Inductive Activity : Type :=
| run_query_filter_activity
| run_retriever_summarizer_activity
| run_fact_check_writer_activity
| save_research_result_activity.

Definition Activity_eqb (a b : Activity) : bool :=
  match a, b with
  | run_query_filter_activity, run_query_filter_activity
  | run_retriever_summarizer_activity, run_retriever_summarizer_activity
  | run_fact_check_writer_activity, run_fact_check_writer_activity
  | save_research_result_activity, save_research_result_activity => true
  | _, _ => false
  end.

(** How one attempt of an activity ends: the activity function raises (or
    times out, or its worker is lost), or it returns a value. *)
Inductive Attempt (A : Type) : Type :=
| Raised (msg : string)
| Returned (a : A).
Arguments Raised {A} msg.
Arguments Returned {A} a.

(** What an activity call yields: an agent's output, or the save
    activity's acknowledgement. *)
Definition Result : Type := AgentOutput + Dict.t Value.

(** One attempt, as the run's history records it. *)
Record Event := {
  ev_activity : Activity;
  ev_input : Dict.t Value;
  ev_timeout : Q;
  ev_policy : RetryPolicy;
  ev_attempt : nat;
  ev_backoff : Q;
  ev_result : Attempt Result
}.

(** The environment of one workflow run: what each attempt of each stage
    activity does on a given input, what each attempt of the save activity
    meets, and how many attempts are observed of an activity whose policy
    sets no maximum ([maximum_attempts = 0]). *)
Record World := {
  stage_attempt : Activity -> Dict.t Value -> nat -> Attempt AgentOutput;
  save_attempt : nat -> Attempt ResultSink.Run;
  unlimited : nat
}.

(** The state a run acts on: the database and the history so far. *)
Record State := {
  db : ResultSink.Table;
  history : list Event
}.

(** Workflow code: reads the world, acts on the state, and either yields a
    value or fails with the activity error that ended it. *)
Definition W (A : Type) : Type := World -> State -> option A * State.

Definition ret {A} (a : A) : W A := fun _ st => (Some a, st).

Definition bind {A B} (m : W A) (k : A -> W B) : W B :=
  fun w st =>
    match m w st with
    | (Some a, st') => k a w st'
    | (None, st') => (None, st')
    end.

(** Wait before attempt [n + 1], after [n] failed attempts:
    [min(initial_interval * backoff_coefficient ^ (n - 1), maximum_interval)]. *)
Definition backoff (rp : RetryPolicy) (n : nat) : Q :=
  match n with
  | O => 0
  | S m => Qmin (initial_interval rp * backoff_coefficient rp ^ Z.of_nat m)
                (maximum_interval rp)
  end.

Definition attempts_allowed (rp : RetryPolicy) (w : World) : nat :=
  match maximum_attempts rp with
  | O => unlimited w
  | n => n
  end.

Definition record (e : Event) (st : State) : State :=
  {| db := db st; history := history st ++ [e] |}.

(** Attempts [n + 1], [n + 2], ... of one activity call: an attempt that
    returns ends the call with its value, whatever the value says; an
    attempt that raises is followed by the next one while the policy allows. *)
Fixpoint attempts {A : Type}
    (attempt : nat -> State -> Attempt A * State)
    (event : nat -> Attempt A -> Event)
    (n remaining : nat) (st : State) : option A * State :=
  match remaining with
  | O => (None, st)
  | S remaining' =>
      match attempt (S n) st with
      | (Returned a, st') => (Some a, record (event (S n) (Returned a)) st')
      | (Raised msg, st') =>
          attempts attempt event (S n) remaining'
                   (record (event (S n) (Raised msg)) st')
      end
  end.

Definition event_of (a : Activity) (input : Dict.t Value) (timeout : Q)
    (rp : RetryPolicy) (n : nat) (result : Attempt Result) : Event :=
  {| ev_activity := a; ev_input := input; ev_timeout := timeout;
     ev_policy := rp; ev_attempt := n; ev_backoff := backoff rp (n - 1);
     ev_result := result |}.

Definition attempt_map {A B} (f : A -> B) (o : Attempt A) : Attempt B :=
  match o with
  | Raised msg => Raised msg
  | Returned a => Returned (f a)
  end.

(** [await workflow.execute_activity(a, input, start_to_close_timeout=..,
    retry_policy=..)] for one of the three agent activities. *)
Definition execute_activity (a : Activity) (input : Dict.t Value)
    (start_to_close_timeout : Q) (retry_policy : RetryPolicy) : W AgentOutput :=
  fun w st =>
    attempts (fun n st => (stage_attempt w a input n, st))
             (fun n o => event_of a input start_to_close_timeout retry_policy n
                                  (attempt_map inl o))
             0 (attempts_allowed retry_policy w) st.

(** The same for [save_research_result_activity], which acts on the
    database when an attempt runs. *)
Definition execute_save (input : Dict.t Value)
    (start_to_close_timeout : Q) (retry_policy : RetryPolicy) : W (Dict.t Value) :=
  fun w st =>
    attempts (fun n st =>
                match save_attempt w n with
                | Raised msg => (Raised msg, st)
                | Returned run =>
                    let (db', ack) :=
                      ResultSink.save_research_result_activity run input (db st) in
                    (Returned ack, {| db := db'; history := history st |})
                end)
             (fun n o => event_of save_research_result_activity input
                                  start_to_close_timeout retry_policy n
                                  (attempt_map inr o))
             0 (attempts_allowed retry_policy w) st.

(** A run starts on a database with an empty history. *)
Definition start (db : ResultSink.Table) : State := {| db := db; history := [] |}.

End Temporal.

(* ===================================================================== *)
(** ** The orchestrator: [ResearchWorkflow.run] *)
(* ===================================================================== *)

Module ResearchWorkflow.
Import Py Models Temporal.

Notation "x <- m ;; k" := (bind m (fun x => k))
  (at level 61, m at next level, right associativity).

Definition retry_policy : RetryPolicy :=
  {| initial_interval := 1;
     backoff_coefficient := default_backoff_coefficient;
     maximum_interval := 10;
     maximum_attempts := 3 |}.

(** The result returned when a stage reports errors:
    [{"status": "failed", "error": f"<agent> failed: {errors}"}] *)
Definition failed (agent : string) (errs : list string) : Dict.t Value :=
  [("status", VStr FAILED);
   ("error", VStr (agent ++ " failed: " ++ str_of_list errs)%string)].

Definition agent2_input (request : Dict.t Value) (agent1_output : AgentOutput)
    : Dict.t Value :=
  [("topic", Py.get "topic" VNone request);
   ("expansion", Py.get "expansion" (VDict []) (output_data agent1_output));
   ("top_k", Py.get "max_sources" (VInt 15) request)].

Definition agent3_input (request : Dict.t Value) (agent2_output : AgentOutput)
    : Dict.t Value :=
  [("topic", Py.get "topic" VNone request);
   ("retrieved_docs", Py.get "retrieved_documents" (VList []) (output_data agent2_output));
   ("summary_data", Py.get "summary" (VDict []) (output_data agent2_output))].

Definition completed (agent1_output agent2_output agent3_output : AgentOutput)
    : Dict.t Value :=
  [("status", VStr COMPLETED);
   ("brief", Py.get "research_brief" VNone (output_data agent3_output));
   ("metrics", VDict
      [("agent1_time_ms", VFloat (execution_time_ms agent1_output));
       ("agent2_time_ms", VFloat (execution_time_ms agent2_output));
       ("agent3_time_ms", VFloat (execution_time_ms agent3_output));
       ("total_time_ms", VFloat (execution_time_ms agent1_output +
                                 execution_time_ms agent2_output +
                                 execution_time_ms agent3_output))])].

Definition save_input (request result : Dict.t Value) : Dict.t Value :=
  [("request_id", Py.get "request_id" VNone request); ("result", VDict result)].

(** [if agent_output.get("errors"):] a list is true when it is not empty. *)
Definition has_errors (out : AgentOutput) : bool :=
  match errors out with [] => false | _ => true end.

Definition run (request : Dict.t Value) : W (Dict.t Value) :=
  (* Agent 1: Query+Filter *)
  agent1_output <- execute_activity run_query_filter_activity request 60 retry_policy ;;
  if has_errors agent1_output then
    ret (failed "Query+Filter Agent" (errors agent1_output))
  else
  (* Agent 2: Retriever+Summarizer *)
  agent2_output <- execute_activity run_retriever_summarizer_activity
                     (agent2_input request agent1_output) 120 retry_policy ;;
  if has_errors agent2_output then
    ret (failed "Retriever+Summarizer Agent" (errors agent2_output))
  else
  (* Agent 3: Fact-Check+Writer *)
  agent3_output <- execute_activity run_fact_check_writer_activity
                     (agent3_input request agent2_output) 120 retry_policy ;;
  if has_errors agent3_output then
    ret (failed "Fact-Check+Writer Agent" (errors agent3_output))
  else
  (* Save results *)
  let result := completed agent1_output agent2_output agent3_output in
  _ <- execute_save (save_input request result) 30 retry_policy ;;
  ret result.

End ResearchWorkflow.

(* ===================================================================== *)
(** ** Vocabulary of the orchestration properties *)
(* ===================================================================== *)

Module WorkflowSpec.
Import Py Models Temporal ResearchWorkflow.

(** Position of an activity in the pipeline. *)
Definition stage_index (a : Activity) : nat :=
  match a with
  | run_query_filter_activity => 1
  | run_retriever_summarizer_activity => 2
  | run_fact_check_writer_activity => 3
  | save_research_result_activity => 4
  end.

(** The name under which the workflow cites a stage in an error. *)
Definition agent_label (a : Activity) : string :=
  match a with
  | run_query_filter_activity => "Query+Filter Agent"
  | run_retriever_summarizer_activity => "Retriever+Summarizer Agent"
  | run_fact_check_writer_activity => "Fact-Check+Writer Agent"
  | save_research_result_activity => EmptyString
  end.

(** The attempt [e] returned the agent output [out], which declares errors:
    the stage completed and judged its own result a failure. *)
Definition stage_failure (e : Event) (out : AgentOutput) : Prop :=
  ev_result e = Returned (inl out) /\ errors out <> [].

(** Some attempt of activity [a] is on record. *)
Definition invoked (a : Activity) (h : list Event) : Prop :=
  exists e, In e h /\ ev_activity e = a.

(** The persistence activity was handed an outcome of the given status. *)
Definition persisted_with_status (status : string) (h : list Event) : Prop :=
  exists e result,
    In e h /\ ev_activity e = save_research_result_activity /\
    Py.get "result" VNone (ev_input e) = VDict result /\
    Py.get "status" VNone result = VStr status.

(** The events of one activity call, attempts [n + 1] onwards, and what the
    call yields: every attempt before the last raised; the call yields a
    value exactly when its last attempt returned it. *)
Inductive segment (a : Activity) (input : Dict.t Value) (timeout : Q)
    (rp : RetryPolicy) : nat -> list Event -> option Result -> Prop :=
| seg_exhausted : forall n, segment a input timeout rp n [] None
| seg_returned : forall n v,
    segment a input timeout rp n
            [event_of a input timeout rp (S n) (Returned v)] (Some v)
| seg_raised : forall n msg evs r,
    segment a input timeout rp (S n) evs r ->
    segment a input timeout rp n
            (event_of a input timeout rp (S n) (Raised msg) :: evs) r.

(** The shapes a run of [ResearchWorkflow.run] can take: its result (none
    when an activity call exhausted its attempts), its history, and the
    database it leaves, from the database [db0] it started on. *)
Inductive run_shape (request : Dict.t Value) (db0 : ResultSink.Table)
    : option (Dict.t Value) -> list Event -> ResultSink.Table -> Prop :=
| shape_stage1_exhausted : forall evs1,
    segment run_query_filter_activity request 60 retry_policy 0 evs1 None ->
    (List.length evs1 <= 3)%nat ->
    run_shape request db0 None evs1 db0
| shape_stage1_failed : forall evs1 out1,
    segment run_query_filter_activity request 60 retry_policy 0 evs1 (Some (inl out1)) ->
    (List.length evs1 <= 3)%nat ->
    has_errors out1 = true ->
    run_shape request db0
      (Some (failed "Query+Filter Agent" (errors out1))) evs1 db0
| shape_stage2_exhausted : forall evs1 out1 evs2,
    segment run_query_filter_activity request 60 retry_policy 0 evs1 (Some (inl out1)) ->
    (List.length evs1 <= 3)%nat ->
    has_errors out1 = false ->
    segment run_retriever_summarizer_activity (agent2_input request out1) 120
            retry_policy 0 evs2 None ->
    (List.length evs2 <= 3)%nat ->
    run_shape request db0 None (evs1 ++ evs2) db0
| shape_stage2_failed : forall evs1 out1 evs2 out2,
    segment run_query_filter_activity request 60 retry_policy 0 evs1 (Some (inl out1)) ->
    (List.length evs1 <= 3)%nat ->
    has_errors out1 = false ->
    segment run_retriever_summarizer_activity (agent2_input request out1) 120
            retry_policy 0 evs2 (Some (inl out2)) ->
    (List.length evs2 <= 3)%nat ->
    has_errors out2 = true ->
    run_shape request db0
      (Some (failed "Retriever+Summarizer Agent" (errors out2))) (evs1 ++ evs2) db0
| shape_stage3_exhausted : forall evs1 out1 evs2 out2 evs3,
    segment run_query_filter_activity request 60 retry_policy 0 evs1 (Some (inl out1)) ->
    (List.length evs1 <= 3)%nat ->
    has_errors out1 = false ->
    segment run_retriever_summarizer_activity (agent2_input request out1) 120
            retry_policy 0 evs2 (Some (inl out2)) ->
    (List.length evs2 <= 3)%nat ->
    has_errors out2 = false ->
    segment run_fact_check_writer_activity (agent3_input request out2) 120
            retry_policy 0 evs3 None ->
    (List.length evs3 <= 3)%nat ->
    run_shape request db0 None (evs1 ++ evs2 ++ evs3) db0
| shape_stage3_failed : forall evs1 out1 evs2 out2 evs3 out3,
    segment run_query_filter_activity request 60 retry_policy 0 evs1 (Some (inl out1)) ->
    (List.length evs1 <= 3)%nat ->
    has_errors out1 = false ->
    segment run_retriever_summarizer_activity (agent2_input request out1) 120
            retry_policy 0 evs2 (Some (inl out2)) ->
    (List.length evs2 <= 3)%nat ->
    has_errors out2 = false ->
    segment run_fact_check_writer_activity (agent3_input request out2) 120
            retry_policy 0 evs3 (Some (inl out3)) ->
    (List.length evs3 <= 3)%nat ->
    has_errors out3 = true ->
    run_shape request db0
      (Some (failed "Fact-Check+Writer Agent" (errors out3)))
      (evs1 ++ evs2 ++ evs3) db0
| shape_saved : forall evs1 out1 evs2 out2 evs3 out3 evs4 ack db1,
    segment run_query_filter_activity request 60 retry_policy 0 evs1 (Some (inl out1)) ->
    (List.length evs1 <= 3)%nat ->
    has_errors out1 = false ->
    segment run_retriever_summarizer_activity (agent2_input request out1) 120
            retry_policy 0 evs2 (Some (inl out2)) ->
    (List.length evs2 <= 3)%nat ->
    has_errors out2 = false ->
    segment run_fact_check_writer_activity (agent3_input request out2) 120
            retry_policy 0 evs3 (Some (inl out3)) ->
    (List.length evs3 <= 3)%nat ->
    has_errors out3 = false ->
    segment save_research_result_activity
            (save_input request (completed out1 out2 out3)) 30
            retry_policy 0 evs4 (option_map inr ack) ->
    (List.length evs4 <= 3)%nat ->
    run_shape request db0
      (match ack with Some _ => Some (completed out1 out2 out3) | None => None end)
      (evs1 ++ evs2 ++ evs3 ++ evs4) db1.




(** The reading of "a failed outcome is routed to the sink, as a completed
    one is": whenever a stage returns errors, the persistence activity is
    handed an outcome of status FAILED. *)
Definition failure_routed_to_sink (h : list Event) : Prop :=
  forall e out, In e h -> stage_failure e out -> persisted_with_status FAILED h.

End WorkflowSpec.

(* ===================================================================== *)
(** ** Scenarios used to exercise the properties *)
(* ===================================================================== *)

Module Scenarios.
Import Py Models Temporal ResearchWorkflow.

Definition request1 : Dict.t Value :=
  [("request_id", VStr "r1"); ("topic", VStr "diabetes management in elderly patients");
   ("max_sources", VInt 15)].

Definition row1 : ResearchRequestDB :=
  {| id := "r1"; topic := "diabetes management in elderly patients";
     status := VStr PROCESSING; created_at := Some 100; completed_at := None;
     processing_time_seconds := None; brief_data := VNone; error := VNone |}.

Definition row2 : ResearchRequestDB :=
  {| id := "r2"; topic := "hypertension in elderly";
     status := VStr PROCESSING; created_at := Some 90; completed_at := None;
     processing_time_seconds := None; brief_data := VNone; error := VNone |}.

Definition db1 : ResultSink.Table := [row2; row1].

(** An agent output that declares an error, as the agents build it. *)
Definition failing (name msg : string) : AgentOutput :=
  {| agent_name := name; output_data := [("error", VStr msg)]; metrics := [];
     errors := [msg]; execution_time_ms := 5 |}.

Definition succeeding (name : string) (data : Dict.t Value) : AgentOutput :=
  {| agent_name := name; output_data := data; metrics := [];
     errors := []; execution_time_ms := 5 |}.

Definition clock : ResultSink.Run :=
  {| ResultSink.utcnow_completed := 160; ResultSink.utcnow_processing := 160;
     ResultSink.db_fault := None |}.

(** Stage 1 returns an error on its first attempt. *)
Definition stage1_fails : World :=
  {| stage_attempt := fun _ _ _ => Returned (failing "QueryFilterAgent" "boom");
     save_attempt := fun _ => Returned clock;
     unlimited := 0 |}.

(** Stage 1 succeeds; stage 2 times out once, then returns an error. *)
Definition stage2_fails : World :=
  {| stage_attempt := fun a _ n =>
       match a with
       | run_query_filter_activity =>
           Returned (succeeding "QueryFilterAgent" [("expansion", VDict [])])
       | run_retriever_summarizer_activity =>
           if (n =? 1)%nat then Raised "activity timed out"
           else Returned (failing "RetrieverSummarizerAgent" "no documents")
       | _ => Returned (succeeding "FactCheckWriterAgent" [])
       end;
     save_attempt := fun _ => Returned clock;
     unlimited := 0 |}.

(** All three stages succeed; the save activity fails once, then runs. *)
Definition all_succeed : World :=
  {| stage_attempt := fun a _ _ =>
       match a with
       | run_fact_check_writer_activity =>
           Returned (succeeding "FactCheckWriterAgent"
                       [("research_brief", VDict [("executive_brief", VStr "brief")])])
       | _ => Returned (succeeding "agent" [])
       end;
     save_attempt := fun n => if (n =? 1)%nat then Raised "connection lost"
                              else Returned clock;
     unlimited := 0 |}.

End Scenarios.

(* ===================================================================== *)
(** ** Scenarios of the persistence activity *)
(* ===================================================================== *)

Module SinkScenarios.
Import Py Models ResultSink.

(** Identifiers as the API issues them, [uuid.uuid4()], in the text form
    the workflow passes on. *)
Definition request_id : string := "3f2b8c1e-5d4a-4b6f-9c0e-7a1d2e3f4a5b".
Definition other_id : string := "9a7c2d10-6e5f-4c3b-8a21-0f9e8d7c6b5a".

Definition request : Dict.t Value :=
  [("request_id", VStr request_id);
   ("topic", VStr "diabetes management in elderly patients");
   ("max_sources", VInt 15)].

Definition row : ResearchRequestDB :=
  {| id := request_id; topic := "diabetes management in elderly patients";
     status := VStr PROCESSING; created_at := Some 100; completed_at := None;
     processing_time_seconds := None; brief_data := VNone; error := VNone |}.

Definition other_row : ResearchRequestDB :=
  {| id := other_id; topic := "hypertension in elderly";
     status := VStr PROCESSING; created_at := Some 90; completed_at := None;
     processing_time_seconds := None; brief_data := VNone; error := VNone |}.

Definition table : Table := [other_row; row].

(** What the workflow hands to the activity after a completed run. *)
Definition data : Dict.t Value :=
  ResearchWorkflow.save_input request
    [("status", VStr COMPLETED); ("brief", VStr "brief")].


End SinkScenarios.



(* ===================================================================== *)
(** ** The agents' [run] methods *)
(* ===================================================================== *)

Module Agents.
Import Py Models Fusion.

(** How a call ends: it returns a value, or it raises an exception (an
    instance of [Exception]) whose [str] is the message. *)
Inductive Outcome (A : Type) : Type :=
| Ok (a : A)
| Raise (msg : string).
Arguments Ok {A} a.
Arguments Raise {A} msg.

(** The body of a [try] block: it runs on the [metrics] dictionary, which
    it updates in place, so what was written before a raise stays written. *)
Definition Body (A : Type) : Type := Dict.t Value -> Outcome A * Dict.t Value.

Definition ret {A} (a : A) : Body A := fun m => (Ok a, m).

Definition bind {A B} (b : Body A) (k : A -> Body B) : Body B :=
  fun m =>
    match b m with
    | (Ok a, m') => k a m'
    | (Raise msg, m') => (Raise msg, m')
    end.

(** A call whose outcome the surroundings decide. *)
Definition call {A} (o : Outcome A) : Body A := fun m => (o, m).

(** [metrics[k] = v] *)
Definition set_metric (k : string) (v : Value) : Body unit :=
  fun m => (Ok tt, Dict.set k v m).

Notation "x <- b ;; k" := (bind b (fun x => k))
  (at level 61, b at next level, right associativity).
Notation "b ;; k" := (bind b (fun _ => k))
  (at level 61, right associativity).

(** [v.get(k, default)]: only a dictionary has [get]. *)
Definition py_get (v : Value) (k : string) (default : Value) : Outcome Value :=
  match v with
  | VDict d => Ok (Py.get k default d)
  | _ => Raise ("'" ++ type_name v ++ "' object has no attribute 'get'")%string
  end.

(** [len(v)] *)
Definition py_len (v : Value) : Outcome Z :=
  match v with
  | VStr s => Ok (Z.of_nat (List.length (Text.chars s)))
  | VList l => Ok (Z.of_nat (List.length l))
  | VDict d => Ok (Z.of_nat (List.length d))
  | _ => Raise ("object of type '" ++ type_name v ++ "' has no len()")%string
  end.

(** [l[:n]] *)
Definition slice_to {A} (n : Z) (l : list A) : list A :=
  if (0 <=? n)%Z then firstn (Z.to_nat n) l
  else firstn (List.length l - Z.to_nat (- n)) l.

Definition len {A} (l : list A) : Z := Z.of_nat (List.length l).

(** White space, as [str.split()] sees it: the characters for which
    [str.isspace()] holds, by code point (U+0009..U+000D, U+001C..U+0020,
    U+0085, U+00A0, U+1680, U+2000..U+200A, U+2028, U+2029, U+202F, U+205F,
    U+3000). *)
Definition is_space (c : N) : bool :=
  ((9 <=? c) && (c <=? 13) || (28 <=? c) && (c <=? 32) ||
   (c =? 133) || (c =? 160) || (c =? 5760) ||
   (8192 <=? c) && (c <=? 8202) ||
   (c =? 8232) || (c =? 8233) || (c =? 8239) || (c =? 8287) ||
   (c =? 12288))%N.

(** Number of words of a text given by its code points; [in_word] tells
    whether the character before was part of a word. *)
Fixpoint count_words (in_word : bool) (text : list N) : Z :=
  match text with
  | [] => 0
  | c :: text' =>
      if is_space c then count_words false text'
      else ((if in_word then 0 else 1) + count_words true text')%Z
  end.

(** [len(v.split())]: only a string has [split]. *)
Definition py_split_len (v : Value) : Outcome Z :=
  match v with
  | VStr s => Ok (count_words false (Text.code_points s))
  | _ => Raise ("'" ++ type_name v ++ "' object has no attribute 'split'")%string
  end.

(** What the agents' validated models refuse: the text of the error
    pydantic raises is not modelled. *)
Definition validation_error : string := "validation error for AgentOutput".

Section Validation.

(** pydantic's coercion of a [bool] or a [str] to [float] in its default
    (lax) mode. *)
Variable lax_float : Value -> option Q.

(** A value given for a field of type [float]: numbers are taken, [None],
    lists and dictionaries are refused. *)
Definition as_float (v : Value) : option Q :=
  match v with
  | VInt z => Some (inject_Z z)
  | VFloat q => Some q
  | VBool _ | VStr _ => lax_float v
  | VNone | VList _ | VDict _ => None
  end.

(** [metrics: Dict[str, float]] *)
Fixpoint validate_metrics (m : Dict.t Value) : option (Dict.t Q) :=
  match m with
  | [] => Some []
  | (k, v) :: m' =>
      match as_float v, validate_metrics m' with
      | Some q, Some r => Some ((k, q) :: r)
      | _, _ => None
      end
  end.

(** [AgentOutput(agent_name=.., output_data=.., metrics=.., errors=..,
    execution_time_ms=..)]: the constructor validates its arguments and
    raises when one does not fit its field. *)
Definition new_AgentOutput (name : string) (data : Dict.t Value)
    (m : Dict.t Value) (errs : list string) (time_ms : Q) : Outcome AgentOutput :=
  match validate_metrics m with
  | Some m' =>
      Ok {| agent_name := name; output_data := data; metrics := m';
            errors := errs; execution_time_ms := time_ms |}
  | None => Raise validation_error
  end.

(** The frame shared by the three [run] methods:
    [errors = []; metrics = {}]
    [try: <body> except Exception as e: errors.append(str(e)); output_data = {"error": str(e)}]
    [return AgentOutput(...)]
    The constructor call stands after the [try] statement, outside it. *)
Definition run_frame (name : string) (body : Body (Dict.t Value)) (time_ms : Q)
    : Outcome AgentOutput :=
  let (r, m) := body [] in
  match r with
  | Ok output_data => new_AgentOutput name output_data m [] time_ms
  | Raise msg => new_AgentOutput name [("error", VStr msg)] m [msg] time_ms
  end.

End Validation.

(** *** Agent 1: [QueryFilterAgent] *)

Record QueryFilterEnv := {
  expand_query : string -> option (Value * Value) -> bool -> Outcome Value;
  vet_results : string -> list Value -> Q -> Outcome (list Value);
  query_filter_time_ms : Q
}.

Definition query_filter_body (env : QueryFilterEnv)
    (topic : string) (max_sources : Z) (quality_threshold : Q)
    (include_gray_literature : bool) (date_range : option (Value * Value))
    (mock_search_results : option (list Value)) : Body (Dict.t Value) :=
  (* Step 1: Expand query *)
  expansion <- call (expand_query env topic date_range include_gray_literature) ;;
  queries <- call (py_get expansion "expanded_queries" (VList [])) ;;
  n <- call (py_len queries) ;;
  set_metric "expanded_queries_count" (VInt n) ;;
  terms <- call (py_get expansion "mesh_terms" (VList [])) ;;
  n <- call (py_len terms) ;;
  set_metric "mesh_terms_count" (VInt n) ;;
  (* Step 2: Vet results *)
  vetted <-
    match mock_search_results with
    | Some (r :: rs) =>
        let mock := r :: rs in
        vetted <- call (vet_results env topic mock quality_threshold) ;;
        set_metric "results_before_vetting" (VInt (len mock)) ;;
        set_metric "results_after_vetting" (VInt (len vetted)) ;;
        set_metric "vetting_filter_rate"
          (VFloat (1 - inject_Z (len vetted) / inject_Z (Z.max (len mock) 1))) ;;
        ret vetted
    | _ => ret []
    end ;;
  ret [("expansion", expansion);
       ("vetted_results", VList (slice_to max_sources vetted));
       ("topic", VStr topic)].

(** *** Agent 2: [RetrieverSummarizerAgent] *)

Record RetrieverSummarizerEnv := {
  bm25_search : Value -> Z -> Outcome (list SearchResult);
  vector_search : Value -> Z -> Outcome (list SearchResult);
  hierarchical_summarize : string -> list FusedDoc -> Outcome Value;
  retriever_time_ms : Q
}.

(** [results[:top_k]] *)
Definition rerank (results : list FusedDoc) (topic : string) (top_k : Z)
    : list FusedDoc :=
  slice_to top_k results.

(** A per-source score as the fused dictionary holds it: the default of
    [data.get(.., 0)] is the integer [0], a score written by a loop is a
    float (and never zero). *)
Definition score_value (q : Q) : Value :=
  if Qeq_bool q 0 then VInt 0 else VFloat q.

Definition fused_value (e : FusedDoc) : Value :=
  VDict [("doc_id", VStr (fused_doc_id e));
         ("source", VDict (map (fun kv => (fst kv, VStr (snd kv))) (fused_source e)));
         ("hybrid_score", VFloat (hybrid_score e));
         ("bm25_score", score_value (bm25_score e));
         ("vector_score", score_value (vector_score e))].

Definition retriever_summarizer_body (env : RetrieverSummarizerEnv)
    (topic : string) (expanded_queries : Value) (top_k rerank_top_k : Z)
    : Body (Dict.t Value) :=
  (* Step 1: BM25 search *)
  bm25_results <- call (bm25_search env expanded_queries top_k) ;;
  set_metric "bm25_results_count" (VInt (len bm25_results)) ;;
  (* Step 2: Vector search *)
  vector_results <- call (vector_search env expanded_queries top_k) ;;
  set_metric "vector_results_count" (VInt (len vector_results)) ;;
  (* Step 3: Hybrid fusion *)
  let fused_results := hybrid_fusion bm25_results vector_results (1 # 2) in
  set_metric "fused_results_count" (VInt (len fused_results)) ;;
  (* Step 4: Rerank *)
  let reranked := rerank fused_results topic rerank_top_k in
  set_metric "final_results_count" (VInt (len reranked)) ;;
  (* Step 5: Hierarchical summarization *)
  summary <- call (hierarchical_summarize env topic reranked) ;;
  ret [("retrieved_documents", VList (map fused_value reranked));
       ("summary", summary);
       ("topic", VStr topic)].

(** *** Agent 3: [FactCheckWriterAgent] *)

(** The calls of [run] whose work lies outside it: the language-model
    calls, and the construction of the validated models. *)
Record FactCheckWriterEnv := {
  write_brief : string -> Value -> Outcome Value;
  sources_metadata : Value -> Outcome (list Value);
  extract_citations_from_brief : Value -> Value -> Outcome (list Value);
  assess_risks : string -> Value -> Value -> Outcome Value;
  risk_flags : Value -> Outcome (list Value);
  build_traceability : Value -> Value -> Outcome (list Value);
  research_brief :
    Value -> Value -> list Value -> list Value -> list Value -> list Value ->
    Dict.t Value -> Outcome Value;
  fact_check_time_ms : Q
}.

Definition fact_check_writer_body (env : FactCheckWriterEnv)
    (topic : string) (retrieved_docs summary_data : Value)
    : Body (Dict.t Value) :=
  (* Step 1: Write brief *)
  brief_data <- call (write_brief env topic summary_data) ;;
  brief_text <- call (py_get brief_data "brief_text" (VStr EmptyString)) ;;
  words <- call (py_split_len brief_text) ;;
  word_count <- call (py_get brief_data "word_count" (VInt words)) ;;
  claims <- call (py_get brief_data "claims" (VList [])) ;;
  set_metric "word_count" word_count ;;
  n <- call (py_len claims) ;;
  set_metric "claims_count" (VInt n) ;;
  (* Step 2: Extract sources metadata *)
  sources <- call (sources_metadata env retrieved_docs) ;;
  (* Step 3: Extract citations *)
  citations <- call (extract_citations_from_brief env brief_text retrieved_docs) ;;
  set_metric "citations_count" (VInt (len citations)) ;;
  (* Step 4: Risk assessment *)
  contradictions <- call (py_get summary_data "contradictions" (VList [])) ;;
  risk_flags_data <- call (assess_risks env topic retrieved_docs contradictions) ;;
  flags <- call (risk_flags env risk_flags_data) ;;
  set_metric "risk_flags_count" (VInt (len flags)) ;;
  (* Step 5: Build traceability *)
  traceability <- call (build_traceability env claims retrieved_docs) ;;
  set_metric "traceability_entries" (VInt (len traceability)) ;;
  (* Step 6: Assemble final brief *)
  quality <- call (py_get summary_data "overall_quality" (VStr "unknown")) ;;
  brief <- call (research_brief env brief_text word_count sources citations
                   flags traceability
                   [("topic", VStr topic); ("contradictions", contradictions);
                    ("overall_quality", quality)]) ;;
  ret [("research_brief", brief); ("topic", VStr topic)].

Section Run.
Variable lax_float : Value -> option Q.

Definition QueryFilterAgent_run (env : QueryFilterEnv)
    (topic : string) (max_sources : Z) (quality_threshold : Q)
    (include_gray_literature : bool) (date_range : option (Value * Value))
    (mock_search_results : option (list Value)) : Outcome AgentOutput :=
  run_frame lax_float "QueryFilterAgent"
    (query_filter_body env topic max_sources quality_threshold
       include_gray_literature date_range mock_search_results)
    (query_filter_time_ms env).

Definition RetrieverSummarizerAgent_run (env : RetrieverSummarizerEnv)
    (topic : string) (expanded_queries : Value) (top_k rerank_top_k : Z)
    : Outcome AgentOutput :=
  run_frame lax_float "RetrieverSummarizerAgent"
    (retriever_summarizer_body env topic expanded_queries top_k rerank_top_k)
    (retriever_time_ms env).

Definition FactCheckWriterAgent_run (env : FactCheckWriterEnv)
    (topic : string) (retrieved_docs summary_data : Value)
    : Outcome AgentOutput :=
  run_frame lax_float "FactCheckWriterAgent"
    (fact_check_writer_body env topic retrieved_docs summary_data)
    (fact_check_time_ms env).

End Run.

(** What exception containment asks of a [run]: it returns an output; the
    output's [errors] is empty when the body ran through, and holds the
    message of the exception, with [output_data = {"error": message}], when
    the body raised. *)
Definition contained (body : Body (Dict.t Value)) (result : Outcome AgentOutput)
    : Prop :=
  exists out, result = Ok out /\
    match fst (body []) with
    | Ok data => output_data out = data /\ errors out = []
    | Raise msg => output_data out = [("error", VStr msg)] /\ errors out = [msg]
    end.


(** Every metric written so far is a number. *)
Definition numeric (m : Dict.t Value) : Prop :=
  Forall (fun kv => match snd kv with VInt _ | VFloat _ => True | _ => False end) m.

(** A body that writes only numbers into [metrics]. *)
Definition writes_numbers {A} (b : Body A) : Prop :=
  forall m, numeric m -> numeric (snd (b m)).

(** A body that leaves [metrics["word_count"]], written first, as it is and
    writes only numbers after it. *)
Definition keeps_word_count {A} (b : Body A) : Prop :=
  forall wc m, numeric m ->
    exists m', snd (b (("word_count", wc) :: m)) = ("word_count", wc) :: m' /\
               numeric m'.

(** A language model whose brief carries no usable word count, with
    collaborators that otherwise succeed on an empty document list; the
    brief model refuses the word count, as its field is an [int]. *)
Definition null_word_count : FactCheckWriterEnv :=
  {| write_brief := fun _ _ =>
       Ok (VDict [("brief_text", VStr "Evidence shows benefits [1].");
                  ("word_count", VNone);
                  ("claims", VList [])]);
     sources_metadata := fun _ => Ok [];
     extract_citations_from_brief := fun _ _ => Ok [];
     assess_risks := fun _ _ _ => Ok (VList []);
     risk_flags := fun _ => Ok [];
     build_traceability := fun _ _ => Ok [];
     research_brief := fun _ word_count _ _ _ _ _ =>
       match word_count with
       | VInt _ => Ok (VDict [])
       | _ => Raise "validation error for ResearchBrief"
       end;
     fact_check_time_ms := 1200 |}.

End Agents.

(* ===================================================================== *)
(** ** Vocabulary of the retrieval properties *)
(* ===================================================================== *)

Module RetrievalSpec.
Import Ranking Fusion.

(** The first entry of a ranked list that carries the identifier. *)
Definition first_hit (id : string) (results : list SearchResult)
    : option SearchResult :=
  find (fun r => String.eqb (doc_id r) id) results.

(** [doc_scores[id]["source"]], when [id] is a key. *)
Definition source_of (id : string) (ds : Dict.t DocData) : option Source :=
  option_map data_source (Dict.get id ds).

(** Length of [l[:n]] for a list of length [len]. *)
Definition slice_length (n : Z) (len : nat) : nat :=
  if (0 <=? n)%Z then Nat.min (Z.to_nat n) len else (len - Z.to_nat (- n))%nat.

End RetrievalSpec.

(* ===================================================================== *)
(** ** Scenarios for the agents *)
(* ===================================================================== *)

Module AgentScenarios.
Import Py Fusion Agents.

(** pydantic's lax coercion left aside: no [bool] or [str] is offered. *)
Definition no_lax : Value -> option Q := fun _ => None.

(** Both searches and the summary succeed. *)
Definition retrieval_succeeds : RetrieverSummarizerEnv :=
  {| bm25_search := fun _ _ => Ok [hit "doc1"; hit "doc2"];
     vector_search := fun _ _ => Ok [hit "doc2"; hit "doc3"];
     hierarchical_summarize := fun _ _ => Ok (VDict [("synthesis", VStr "s")]);
     retriever_time_ms := 10 |}.

End AgentScenarios.

(* ===================================================================== *)
(** ** [QueryFilterAgent.vet_results] *)
(* ===================================================================== *)

Module Vetting.
Import Py Agents.

(** [range(0, stop, step)] for a positive [step] *)
Definition range_step (stop step : nat) : list nat :=
  map (fun k => (k * step)%nat) (seq 0 ((stop + step - 1) / step)).

Definition chunk_size : nat := 10.

(** The chunks [search_results[i:i + chunk_size]] for
    [i in range(0, len(search_results), chunk_size)]. *)
Definition chunks {A} (l : list A) : list (list A) :=
  map (fun i => firstn chunk_size (skipn i l))
      (range_step (List.length l) chunk_size).

(** The elements [list.extend(v)] adds. *)
Definition py_iter (v : Value) : Outcome (list Value) :=
  match v with
  | VList l => Ok l
  | VStr s => Ok (map VStr (Text.chars s))
  | VDict d => Ok (map (fun kv => VStr (fst kv)) d)
  | _ => Raise ("'" ++ type_name v ++ "' object is not iterable")%string
  end.

(** The loop over the chunks: one language-model call per chunk, whose
    answer's ["vetted_results"] extends [vetted_all]. *)
Fixpoint vet_chunks (vet : list Value -> Outcome Value)
    (cs : list (list Value)) (vetted_all : list Value) : Outcome (list Value) :=
  match cs with
  | [] => Ok vetted_all
  | chunk :: cs' =>
      match vet chunk with
      | Raise msg => Raise msg
      | Ok vetted_chunk =>
          match py_get vetted_chunk "vetted_results" (VList []) with
          | Raise msg => Raise msg
          | Ok items =>
              match py_iter items with
              | Raise msg => Raise msg
              | Ok more => vet_chunks vet cs' (vetted_all ++ more)
              end
          end
      end
  end.

(** A value that takes part in arithmetic as a number. *)
Definition number (v : Value) : option Q :=
  match v with
  | VInt z => Some (inject_Z z)
  | VFloat q => Some q
  | VBool b => Some (if b then 1 else 0)
  | _ => None
  end.

Definition quoted (s : string) : string :=
  String double_quote (s ++ String double_quote EmptyString)%string.

(** [(a + b) / 2]: numbers add; two strings or two lists concatenate and
    then cannot be divided; anything else cannot be added. *)
Definition mean_score (a b : Value) : Outcome Q :=
  match number a, number b with
  | Some x, Some y => Ok ((x + y) / 2)
  | _, _ =>
      match a, b with
      | VStr _, VStr _ =>
          Raise "unsupported operand type(s) for /: 'str' and 'int'"
      | VList _, VList _ =>
          Raise "unsupported operand type(s) for /: 'list' and 'int'"
      | VStr _, _ =>
          Raise ("can only concatenate str (not " ++ quoted (type_name b)
                 ++ ") to str")%string
      | VList _, _ =>
          Raise ("can only concatenate list (not " ++ quoted (type_name b)
                 ++ ") to list")%string
      | _, _ =>
          Raise ("unsupported operand type(s) for +: '" ++ type_name a
                 ++ "' and '" ++ type_name b ++ "'")%string
      end
  end.

(** The condition of the final comprehension:
    [r.get("keep", False) and
     (r.get("relevance_score", 0) + r.get("credibility_score", 0)) / 2
       >= quality_threshold] *)
Definition kept (quality_threshold : Q) (r : Value) : Outcome bool :=
  match py_get r "keep" (VBool false) with
  | Raise msg => Raise msg
  | Ok keep =>
      if truthy keep then
        match py_get r "relevance_score" (VInt 0) with
        | Raise msg => Raise msg
        | Ok relevance =>
            match py_get r "credibility_score" (VInt 0) with
            | Raise msg => Raise msg
            | Ok credibility =>
                match mean_score relevance credibility with
                | Raise msg => Raise msg
                | Ok mean => Ok (Qle_bool quality_threshold mean)
                end
            end
        end
      else Ok false
  end.

(** [[r for r in vetted_all if <condition>]] *)
Fixpoint filter_kept (quality_threshold : Q) (vetted_all : list Value)
    : Outcome (list Value) :=
  match vetted_all with
  | [] => Ok []
  | r :: rest =>
      match kept quality_threshold r with
      | Raise msg => Raise msg
      | Ok b =>
          match filter_kept quality_threshold rest with
          | Raise msg => Raise msg
          | Ok filtered => Ok (if b then r :: filtered else filtered)
          end
      end
  end.

(** [vet] stands for the language-model call on one chunk and the parsing
    of its answer. *)
Definition vet_results (vet : string -> list Value -> Outcome Value)
    (topic : string) (search_results : list Value) (quality_threshold : Q)
    : Outcome (list Value) :=
  match vet_chunks (vet topic) (chunks search_results) [] with
  | Raise msg => Raise msg
  | Ok vetted_all => filter_kept quality_threshold vetted_all
  end.

(** What the comprehension asks of an entry it keeps. *)
Definition passes (quality_threshold : Q) (r : Value) : Prop :=
  exists d x y,
    r = VDict d /\
    truthy (Py.get "keep" (VBool false) d) = true /\
    number (Py.get "relevance_score" (VInt 0) d) = Some x /\
    number (Py.get "credibility_score" (VInt 0) d) = Some y /\
    quality_threshold <= (x + y) / 2.

(** An answer of the language model that vets its chunk: every result is
    flagged to keep, with the two scores given. *)
Definition vets_all (relevance credibility : Q) (topic : string)
    (chunk : list Value) : Outcome Value :=
  Ok (VDict [("vetted_results",
              VList (map (fun r => VDict [("result_id", r); ("keep", VBool true);
                                          ("relevance_score", VFloat relevance);
                                          ("credibility_score", VFloat credibility)])
                         chunk))]).

End Vetting.

(* ===================================================================== *)
(** ** The agent activities: how they call the agents *)
(* ===================================================================== *)

Module Activities.
Import Py Agents.

(** The arguments [run_query_filter_activity] passes to
    [QueryFilterAgent.run]: topic, max_sources, quality_threshold,
    include_gray_literature, date_range. *)
Definition query_filter_args (request : Dict.t Value)
    : Value * Value * Value * Value * option (Value * Value) :=
  let date_range :=
    if truthy (Py.get "date_range_start" VNone request)
       && truthy (Py.get "date_range_end" VNone request)
    then Some (Py.get "date_range_start" VNone request,
               Py.get "date_range_end" VNone request)
    else None in
  (Py.get "topic" VNone request,
   Py.get "max_sources" (VInt 15) request,
   Py.get "quality_threshold" (VFloat (7 # 10)) request,
   Py.get "include_gray_literature" (VBool false) request,
   date_range).

(** The arguments [run_retriever_summarizer_activity] passes to
    [RetrieverSummarizerAgent.run], besides the configured
    [rerank_top_k]: topic, expanded_queries, top_k.  Reading the expanded
    queries raises, outside any [try], when the expansion is no dictionary. *)
Definition retriever_summarizer_args (input_data : Dict.t Value)
    : Outcome (Value * Value * Value) :=
  let expansion := Py.get "expansion" (VDict []) input_data in
  match py_get expansion "expanded_queries"
               (VList [Py.get "topic" VNone input_data]) with
  | Raise msg => Raise msg
  | Ok expanded_queries =>
      Ok (Py.get "topic" VNone input_data,
          expanded_queries,
          Py.get "top_k" (VInt 20) input_data)
  end.

(** The arguments [run_fact_check_writer_activity] passes to
    [FactCheckWriterAgent.run]: topic, retrieved_docs, summary_data. *)
Definition fact_check_writer_args (input_data : Dict.t Value)
    : Value * Value * Value :=
  (Py.get "topic" VNone input_data,
   Py.get "retrieved_docs" (VList []) input_data,
   Py.get "summary_data" (VDict []) input_data).

(** An agent whose vetting is [vet_results] of the source, on top of the
    language-model calls [expand] and [vet]. *)
Definition query_filter_env
    (expand : string -> option (Value * Value) -> bool -> Outcome Value)
    (vet : string -> list Value -> Outcome Value) (time_ms : Q)
    : QueryFilterEnv :=
  {| expand_query := expand;
     vet_results := Vetting.vet_results vet;
     query_filter_time_ms := time_ms |}.

(** A language model that expands a topic into two queries. *)
Definition expands (topic : string) (date_range : option (Value * Value))
    (include_gray_literature : bool) : Outcome Value :=
  Ok (VDict [("expanded_queries", VList [VStr (topic ++ " management")%string;
                                         VStr (topic ++ " treatment")%string]);
             ("mesh_terms", VList [VStr "Aged"])]).

End Activities.

(* ===================================================================== *)
(** ** Vocabulary of the pipeline properties *)
(* ===================================================================== *)

Module PipelineSpec.
Import Py Models Temporal ResearchWorkflow WorkflowSpec.

(** Some attempt of activity [a] on record returned the output [out], and
    [out] declares no error. *)
Definition succeeded (a : Activity) (out : AgentOutput) (h : list Event) : Prop :=
  exists e, In e h /\ ev_activity e = a /\
            ev_result e = Returned (inl out) /\ errors out = [].

(** Some attempt of the save activity on [input] returned [ack]. *)
Definition acknowledged (input ack : Dict.t Value) (h : list Event) : Prop :=
  exists e, In e h /\ ev_activity e = save_research_result_activity /\
            ev_input e = input /\ ev_result e = Returned (inr ack).

(** What the attempt [e] was run on: the request for stage 1, and for every
    later activity the input the workflow builds from the error-free
    outputs returned before. *)
Definition fed_by_earlier_stages (request : Dict.t Value) (h : list Event)
    (e : Event) : Prop :=
  match ev_activity e with
  | run_query_filter_activity => ev_input e = request
  | run_retriever_summarizer_activity =>
      exists out1,
        succeeded run_query_filter_activity out1 h /\
        ev_input e = agent2_input request out1
  | run_fact_check_writer_activity =>
      exists out2,
        succeeded run_retriever_summarizer_activity out2 h /\
        ev_input e = agent3_input request out2
  | save_research_result_activity =>
      exists out1 out2 out3,
        succeeded run_query_filter_activity out1 h /\
        succeeded run_retriever_summarizer_activity out2 h /\
        succeeded run_fact_check_writer_activity out3 h /\
        ev_input e = save_input request (completed out1 out2 out3)
  end.

(** The two results a run can return. *)
Definition failed_outcome (h : list Event) (result : Dict.t Value) : Prop :=
  exists e out,
    In e h /\ stage_failure e out /\
    result = failed (agent_label (ev_activity e)) (errors out).

Definition completed_outcome (request : Dict.t Value) (h : list Event)
    (result : Dict.t Value) : Prop :=
  exists out1 out2 out3 ack,
    succeeded run_query_filter_activity out1 h /\
    succeeded run_retriever_summarizer_activity out2 h /\
    succeeded run_fact_check_writer_activity out3 h /\
    result = completed out1 out2 out3 /\
    acknowledged (save_input request result) ack h.

(** The third attempt of an activity call raised: the call is out of
    attempts. *)
Definition out_of_attempts (e : Event) : Prop :=
  ev_attempt e = 3%nat /\ exists msg, ev_result e = Raised msg.

(** The history ends with the three raised attempts of one activity call. *)
Definition ends_exhausted (h : list Event) : Prop :=
  exists a input t m1 m2 m3 before,
    h = before ++ [event_of a input t retry_policy 1 (Raised m1);
                   event_of a input t retry_policy 2 (Raised m2);
                   event_of a input t retry_policy 3 (Raised m3)].

(** What a run may do to a row, for the request identifier it works for:
    the identifying and descriptive columns stay, and a row of another
    request stays as it is. *)
Definition kept (request_id : Value) (row row' : ResearchRequestDB) : Prop :=
  id row' = id row /\ topic row' = topic row /\
  created_at row' = created_at row /\ error row' = error row /\
  (ResultSink.matches request_id row = false -> row' = row).

End PipelineSpec.

Module PipelineScenarios.
Import Py Models Temporal ResearchWorkflow.

(** All three stages succeed; the database fails while the result is saved. *)
Definition save_faults : World :=
  {| stage_attempt := stage_attempt Scenarios.all_succeed;
     save_attempt := fun _ =>
       Returned {| ResultSink.utcnow_completed := 160;
                   ResultSink.utcnow_processing := 160;
                   ResultSink.db_fault := Some "connection refused" |};
     unlimited := 0 |}.

(** Stage 1 succeeds; every attempt of stage 2 times out. *)
Definition stage2_times_out : World :=
  {| stage_attempt := fun a _ _ =>
       match a with
       | run_query_filter_activity =>
           Returned (Scenarios.succeeding "QueryFilterAgent" [("expansion", VDict [])])
       | _ => Raised "activity timed out"
       end;
     save_attempt := fun _ => Returned Scenarios.clock;
     unlimited := 0 |}.

End PipelineScenarios.

(* ===================================================================== *)
(** ** [run_query_filter_activity]: the call of stage 1 *)
(* ===================================================================== *)

Module ActivityCalls.
Import Py Models Agents Activities.

(** The arguments of [QueryFilterAgent.run] as its signature annotates
    them.  A request whose fields have other types (the API validates them
    before it starts the workflow) is outside the model of [run]. *)
Definition typed_query_filter_args
    (args : Value * Value * Value * Value * option (Value * Value))
    : option (string * Z * Q * bool * option (Value * Value)) :=
  match args with
  | (VStr topic, VInt max_sources, VFloat quality_threshold,
     VBool include_gray_literature, date_range) =>
      Some (topic, max_sources, quality_threshold,
            include_gray_literature, date_range)
  | (VStr topic, VInt max_sources, VInt quality_threshold,
     VBool include_gray_literature, date_range) =>
      Some (topic, max_sources, inject_Z quality_threshold,
            include_gray_literature, date_range)
  | _ => None
  end.

Section Call.
Variable lax_float : Value -> option Q.

(** [agent.run(topic=.., max_sources=.., quality_threshold=..,
    include_gray_literature=.., date_range=date_range)]: no
    [mock_search_results] is passed, so the parameter takes its default,
    [None].  [env] stands for the agent the activity constructs. *)
Definition run_query_filter_activity (env : QueryFilterEnv)
    (request : Dict.t Value) : option (Outcome AgentOutput) :=
  match typed_query_filter_args (query_filter_args request) with
  | Some (topic, max_sources, quality_threshold, include_gray_literature,
          date_range) =>
      Some (QueryFilterAgent_run lax_float env topic max_sources
              quality_threshold include_gray_literature date_range None)
  | None => None
  end.

End Call.

(** A request as the API hands it to the workflow. *)
Definition api_request : Dict.t Value :=
  [("request_id", VStr "r1");
   ("topic", VStr "diabetes management in elderly patients");
   ("max_sources", VInt 15);
   ("quality_threshold", VFloat (7 # 10));
   ("include_gray_literature", VBool false);
   ("date_range_start", VNone);
   ("date_range_end", VNone)].

End ActivityCalls.

(* ===================================================================== *)
(** ** Vocabulary of the rank properties of fusion *)
(* ===================================================================== *)

Module RankSpec.
Import Ranking Fusion.

(** Two hits that agree on what fusion reads: identifier and payload. *)
Definition same_hit (a a' : SearchResult) : Prop :=
  doc_id a = doc_id a' /\ source a = source a'.

(** Two ranked lists with the same hits at the same ranks, whatever their
    scores and retrieval methods. *)
Definition same_ranking (A A' : list SearchResult) : Prop :=
  Forall2 same_hit A A'.

(** The hit with another score and retrieval method. *)
Definition rescored (q : Q) (method : string) (a : SearchResult) : SearchResult :=
  {| doc_id := doc_id a; score := q; source := source a;
     retrieval_method := method |}.

End RankSpec.

(* ===================================================================== *)
(** ** A scenario for stage 3 *)
(* ===================================================================== *)

Module StageThreeScenarios.
Import Py Models Agents.

(** A language model and collaborators with which stage 3 succeeds; the
    brief model keeps the text and the word count. *)
Definition brief_succeeds : FactCheckWriterEnv :=
  {| write_brief := fun _ _ =>
       Ok (VDict [("brief_text", VStr "Evidence shows benefits [1].");
                  ("claims", VList [])]);
     sources_metadata := fun _ => Ok [];
     extract_citations_from_brief := fun _ _ => Ok [];
     assess_risks := fun _ _ _ => Ok (VList []);
     risk_flags := fun _ => Ok [];
     build_traceability := fun _ _ => Ok [];
     research_brief := fun text word_count _ _ _ _ _ =>
       match word_count with
       | VInt _ => Ok (VDict [("executive_brief", text); ("word_count", word_count)])
       | _ => Raise "validation error for ResearchBrief"
       end;
     fact_check_time_ms := 1200 |}.

End StageThreeScenarios.

(* ===================================================================== *)
(** ** Order of the attempts on record *)
(* ===================================================================== *)

Module HistorySpec.
Import Temporal WorkflowSpec.

(** [e] stands before [e'] in the order of the pipeline: it belongs to an
    earlier activity, or to the same activity and is an earlier attempt. *)
Definition earlier (e e' : Event) : Prop :=
  (stage_index (ev_activity e) < stage_index (ev_activity e'))%nat \/
  (ev_activity e = ev_activity e' /\ (ev_attempt e < ev_attempt e')%nat).

End HistorySpec.

(* ===================================================================== *)
(** ** [hybrid_fusion] with the scores in binary64, as Python computes them *)
(* ===================================================================== *)

Module Fusion64.

(** [float(n)] for an int [n >= 0]: the binary64 number nearest to [n],
    ties to even.  (Python refuses an int beyond the range of binary64; a
    rank is the position of an element of a list and stays far below.) *)
Definition float_of_nat (n : nat) : float :=
  SF2Prim (SpecFloat.binary_normalize FloatOps.prec FloatOps.emax
             (Z.of_nat n) 0 false).

(** [1.0 / (60 + rank)]: the sum is a sum of ints, the quotient a float. *)
Definition rrf (rank : nat) : float := (1 / float_of_nat (60 + rank))%float.

(** The inner dictionary kept per document in [doc_scores]. *)
Record DocData := {
  data_source : Fusion.Source;
  data_bm25_score : option float;
  data_vector_score : option float
}.

(** One entry of the returned list [fused]. *)
Record FusedDoc := {
  fused_doc_id : string;
  fused_source : Fusion.Source;
  hybrid_score : float;
  bm25_score : float;
  vector_score : float
}.

(** Body of the first loop:
    [doc_scores[doc_id] = doc_scores.get(doc_id, {"source": result["source"]})]
    [doc_scores[doc_id]["bm25_score"] = 1.0 / (60 + rank)] *)
Definition bm25_step (rank : nat) (result : Fusion.SearchResult)
    (doc_scores : Dict.t DocData) : Dict.t DocData :=
  let data :=
    match Dict.get (Fusion.doc_id result) doc_scores with
    | Some data => data
    | None => {| data_source := Fusion.source result;
                 data_bm25_score := None; data_vector_score := None |}
    end in
  Dict.set (Fusion.doc_id result)
    {| data_source := data_source data;
       data_bm25_score := Some (rrf rank);
       data_vector_score := data_vector_score data |} doc_scores.

(** Body of the second loop:
    [if doc_id not in doc_scores: doc_scores[doc_id] = {"source": ...}]
    [doc_scores[doc_id]["vector_score"] = 1.0 / (60 + rank)] *)
Definition vector_step (rank : nat) (result : Fusion.SearchResult)
    (doc_scores : Dict.t DocData) : Dict.t DocData :=
  let data :=
    match Dict.get (Fusion.doc_id result) doc_scores with
    | Some data => data
    | None => {| data_source := Fusion.source result;
                 data_bm25_score := None; data_vector_score := None |}
    end in
  Dict.set (Fusion.doc_id result)
    {| data_source := data_source data;
       data_bm25_score := data_bm25_score data;
       data_vector_score := Some (rrf rank) |} doc_scores.

(** [for rank, result in enumerate(results, start=rank): step] *)
Fixpoint enumerate_loop
    (step : nat -> Fusion.SearchResult -> Dict.t DocData -> Dict.t DocData)
    (rank : nat) (results : list Fusion.SearchResult)
    (doc_scores : Dict.t DocData) : Dict.t DocData :=
  match results with
  | [] => doc_scores
  | result :: rest => enumerate_loop step (S rank) rest (step rank result doc_scores)
  end.

(** [data.get("bm25_score", 0)]: the default [0] counts as [0.0] in the
    products that follow. *)
Definition get_score (s : option float) : float :=
  match s with Some x => x | None => 0%float end.

(** Body of the third loop:
    [hybrid_score = alpha * bm25 + (1 - alpha) * vector] *)
Definition fuse_entry (alpha : float) (item : string * DocData) : FusedDoc :=
  let (doc_id, data) := item in
  let bm25 := get_score (data_bm25_score data) in
  let vector := get_score (data_vector_score data) in
  {| fused_doc_id := doc_id;
     fused_source := data_source data;
     hybrid_score := Binary64.hybrid alpha bm25 vector;
     bm25_score := bm25;
     vector_score := vector |}.

(** [fused.sort(key=lambda x: x["hybrid_score"], reverse=True)]: stable,
    as in [Fusion.insert_desc]; the keys are compared as floats (none of
    them is a NaN when the weight lies in [[0,1]]). *)
Fixpoint insert_desc (x : FusedDoc) (l : list FusedDoc) : list FusedDoc :=
  match l with
  | [] => [x]
  | y :: l' =>
      if PrimFloat.leb (hybrid_score y) (hybrid_score x)
      then x :: y :: l'
      else y :: insert_desc x l'
  end.

Definition sort_desc (l : list FusedDoc) : list FusedDoc :=
  fold_right insert_desc [] l.

Definition doc_scores_of (bm25_results vector_results : list Fusion.SearchResult)
    : Dict.t DocData :=
  enumerate_loop vector_step 1 vector_results
    (enumerate_loop bm25_step 1 bm25_results []).

Definition fused_unsorted (bm25_results vector_results : list Fusion.SearchResult)
    (alpha : float) : list FusedDoc :=
  map (fuse_entry alpha) (doc_scores_of bm25_results vector_results).

Definition hybrid_fusion (bm25_results vector_results : list Fusion.SearchResult)
    (alpha : float) : list FusedDoc :=
  sort_desc (fused_unsorted bm25_results vector_results alpha).

(** The contribution [1.0 / (60 + r)] of a rank, [0] when absent. *)
Definition contribution (r : option nat) : float :=
  match r with
  | Some k => rrf k
  | None => 0%float
  end.




End Fusion64.

(* ===================================================================== *)
(** ** Vocabulary: the entry of an identifier *)
(* ===================================================================== *)

Module EntrySpec.

(** [e] is the one entry of [out] that carries the identifier [id]. *)
Definition sole_entry {E : Type} (key : E -> string) (id : string)
    (out : list E) (e : E) : Prop :=
  In e out /\ key e = id /\
  forall e', In e' out -> key e' = id -> e' = e.

End EntrySpec.

(* ===================================================================== *)
(** ** Vocabulary of the retry properties *)
(* ===================================================================== *)

Module RetrySpec.
Import Py Models Temporal WorkflowSpec.

(** The attempt [e] was followed by a further attempt of its activity. *)
Definition retried (h : list Event) (e : Event) : Prop :=
  exists e', In e' h /\ ev_activity e' = ev_activity e /\
             ev_attempt e' = S (ev_attempt e).


(** The failure kinds of the design: a failure of the infrastructure (a
    remote call that could not be made or did not answer, a timeout), and a
    failure of the logic (the stage ran, and what it produced is not valid). *)
Inductive FailureKind : Type := TRANSIENT | SEMANTIC.

(** The retry rule as the design states it, for a judgement [kind] of the
    attempts that failed: only an attempt that met a TRANSIENT failure is
    followed by another one. *)
Definition retries_only_transient (kind : Event -> option FailureKind)
    (h : list Event) : Prop :=
  forall e, In e h -> retried h e -> kind e = Some TRANSIENT.

End RetrySpec.

(* ===================================================================== *)
(** ** Scenarios: stage 3 run by the agent itself *)
(* ===================================================================== *)

Module RetryScenarios.
Import Py Models Agents Temporal Activities RetrySpec.

(** An activity function has no [try] of its own: what [run] returns is the
    value of the attempt, and an exception that [run] lets out fails the
    attempt. *)
Definition activity_attempt (o : Outcome AgentOutput) : Attempt AgentOutput :=
  match o with
  | Ok out => Returned out
  | Raise msg => Raised msg
  end.

(** The language model cannot be reached: the first remote call of the
    agent raises the client's connection error. *)
Definition connection_lost : FactCheckWriterEnv :=
  {| write_brief := fun _ _ => Raise "Connection error.";
     sources_metadata := fun _ => Ok [];
     extract_citations_from_brief := fun _ _ => Ok [];
     assess_risks := fun _ _ _ => Ok (VList []);
     risk_flags := fun _ => Ok [];
     build_traceability := fun _ _ => Ok [];
     research_brief := fun _ _ _ _ _ _ _ => Ok (VDict []);
     fact_check_time_ms := 30 |}.

(** A run in which nothing fails at the runtime's level (no attempt times
    out or loses its worker), so that every attempt ends as the activity
    function ends.  Stages 1 and 2 succeed; stage 3 is
    [FactCheckWriterAgent.run] with the collaborators [env], called as
    [run_fact_check_writer_activity] calls it. *)
Definition stage3_world (env : FactCheckWriterEnv) : World :=
  {| stage_attempt := fun a input _ =>
       match a with
       | run_fact_check_writer_activity =>
           match fact_check_writer_args input with
           | (VStr topic, retrieved_docs, summary_data) =>
               activity_attempt
                 (FactCheckWriterAgent_run AgentScenarios.no_lax env topic
                    retrieved_docs summary_data)
           | _ => Raised "the topic is not a string"
           end
       | run_retriever_summarizer_activity =>
           Returned (Scenarios.succeeding "RetrieverSummarizerAgent"
                       [("retrieved_documents", VList []); ("summary", VDict [])])
       | _ =>
           Returned (Scenarios.succeeding "QueryFilterAgent"
                       [("expansion", VDict [])])
       end;
     save_attempt := fun _ => Returned Scenarios.clock;
     unlimited := 0 |}.

(** Whether the agent's call of the language model fails on the input of
    an attempt. *)
Definition model_call_fails (env : FactCheckWriterEnv) (input : Dict.t Value)
    : bool :=
  match fact_check_writer_args input with
  | (VStr topic, _, summary_data) =>
      match write_brief env topic summary_data with
      | Raise _ => true
      | Ok _ => false
      end
  | _ => false
  end.

(** The kind of a failed attempt in [stage3_world env], where nothing fails
    at the runtime's level: TRANSIENT when the language model could not be
    reached, SEMANTIC otherwise; an attempt that returned an output without
    errors has not failed. *)
Definition kind_in (env : FactCheckWriterEnv) (e : Event) : option FailureKind :=
  let kind := if model_call_fails env (ev_input e) then TRANSIENT else SEMANTIC in
  match ev_result e with
  | Raised _ => Some kind
  | Returned (inl out) =>
      match errors out with
      | [] => None
      | _ => Some kind
      end
  | Returned (inr _) => None
  end.

End RetryScenarios.

(* ===================================================================== *)
(** * Properties *)
(* ===================================================================== *)

Section DictFacts.
Context {V : Type}.
Import Dict.
Implicit Types (d : Dict.t V) (k : string) (v : V).

Lemma get_set_same k v d : get k (set k v d) = Some v.
Proof.
  induction d as [|[k' v'] d IH]; simpl.
  - now rewrite String.eqb_refl.
  - destruct (String.eqb k k') eqn:E; simpl; rewrite E; auto.
Qed.

Lemma get_set_other k k' v d : k <> k' -> get k' (set k v d) = get k' d.
Proof.
  intros Hne. induction d as [|[k0 v0] d IH]; simpl.
  - destruct (String.eqb k' k) eqn:E; auto.
    apply String.eqb_eq in E. congruence.
  - destruct (String.eqb k k0) eqn:E; simpl.
    + apply String.eqb_eq in E. subst k0.
      destruct (String.eqb k' k) eqn:E'; auto.
      apply String.eqb_eq in E'. congruence.
    + now rewrite IH.
Qed.

Lemma get_None_keys k d : get k d = None <-> ~ In k (keys d).
Proof.
  induction d as [|[k' v'] d IH]; simpl.
  - tauto.
  - destruct (String.eqb k k') eqn:E.
    + apply String.eqb_eq in E. subst. split; [discriminate | tauto].
    + apply String.eqb_neq in E. rewrite IH. split.
      * intros H [H1 | H1]; [congruence | tauto].
      * tauto.
Qed.

Lemma keys_set_present k v d : In k (keys d) -> keys (set k v d) = keys d.
Proof.
  induction d as [|[k' v'] d IH]; simpl; [tauto |].
  intros H. destruct (String.eqb k k') eqn:E; simpl; auto.
  apply String.eqb_neq in E. f_equal. apply IH.
  destruct H; [congruence | assumption].
Qed.

Lemma keys_set_absent k v d : ~ In k (keys d) -> keys (set k v d) = keys d ++ [k].
Proof.
  induction d as [|[k' v'] d IH]; simpl; auto.
  intros H. destruct (String.eqb k k') eqn:E; simpl.
  - apply String.eqb_eq in E. subst. tauto.
  - f_equal. apply IH. tauto.
Qed.

Lemma In_get k v d : NoDup (keys d) -> In (k, v) d -> get k d = Some v.
Proof.
  induction d as [|[k' v'] d IH]; simpl; [tauto |].
  intros Hnd [H | H].
  - inversion H; subst. now rewrite String.eqb_refl.
  - inversion Hnd; subst. destruct (String.eqb k k') eqn:E.
    + apply String.eqb_eq in E. subst. exfalso. apply H2.
      change k' with (fst (k', v)). now apply in_map.
    + now apply IH.
Qed.

End DictFacts.

(* --------------------------------------------------------------------- *)
(** ** Lists: first appearance, ranks, relative order *)
(* --------------------------------------------------------------------- *)

Section RankingFacts.
Import Ranking.

Lemma mem_In x l : mem x l = true <-> In x l.
Proof.
  unfold mem. rewrite existsb_exists. split.
  - intros [y [Hy E]]. apply String.eqb_eq in E. now subst.
  - intros H. exists x. split; [assumption | apply String.eqb_refl].
Qed.

Lemma mem_false x l : mem x l = false <-> ~ In x l.
Proof.
  rewrite <- mem_In. destruct (mem x l); split; congruence.
Qed.

Lemma In_first_seen x l : In x (first_seen l) <-> In x l.
Proof.
  induction l as [|a l IH]; simpl; [tauto |].
  rewrite filter_In, IH, negb_true_iff, String.eqb_neq.
  destruct (string_dec a x); [subst; tauto |].
  split; [tauto |]. intros [H | H]; [tauto | right; split; congruence].
Qed.

Lemma NoDup_filter {A} (p : A -> bool) l : NoDup l -> NoDup (filter p l).
Proof.
  induction 1 as [|a l Hn Hd IH]; simpl; [constructor |].
  destruct (p a); auto. constructor; auto.
  rewrite filter_In. tauto.
Qed.

Lemma NoDup_first_seen l : NoDup (first_seen l).
Proof.
  induction l as [|a l IH]; simpl; constructor.
  - rewrite filter_In, negb_true_iff, String.eqb_neq. tauto.
  - now apply NoDup_filter.
Qed.

Lemma filter_all {A} (p : A -> bool) l :
  (forall x, In x l -> p x = true) -> filter p l = l.
Proof.
  induction l as [|a l IH]; simpl; intros H; auto.
  rewrite (H a) by auto. f_equal. apply IH. auto.
Qed.

Lemma first_seen_NoDup l : NoDup l -> first_seen l = l.
Proof.
  induction 1 as [|a l Hn Hd IH]; simpl; auto.
  rewrite IH. f_equal. apply filter_all.
  intros x Hx. rewrite negb_true_iff, String.eqb_neq. congruence.
Qed.

Lemma filter_filter {A} (p q : A -> bool) l :
  filter p (filter q l) = filter (fun x => q x && p x) l.
Proof.
  induction l as [|a l IH]; simpl; auto.
  destruct (q a); simpl; [destruct (p a) |]; now rewrite IH.
Qed.

(** Scanning [l2] after [l1]: the new identifiers are those of [l2] not
    already seen in [l1]. *)
Lemma first_seen_app l1 l2 :
  first_seen (l1 ++ l2) =
  first_seen l1 ++ filter (fun y => negb (mem y (first_seen l1))) (first_seen l2).
Proof.
  induction l1 as [|a l1 IH]; simpl.
  - symmetry. apply filter_all. reflexivity.
  - f_equal. rewrite IH, filter_app, filter_filter. f_equal.
    apply filter_ext. intros y. unfold mem at 2. simpl.
    fold (mem y (filter (fun y0 => negb (String.eqb y0 a)) (first_seen l1))).
    destruct (String.eqb y a) eqn:E; simpl.
    + now rewrite andb_false_r.
    + rewrite andb_true_r. f_equal.
      destruct (mem y (first_seen l1)) eqn:M.
      * symmetry. apply mem_In. apply mem_In in M.
        rewrite filter_In, E. auto.
      * symmetry. apply mem_false. apply mem_false in M.
        rewrite filter_In. tauto.
Qed.

Lemma before_In {A} (x y : A) l : before x y l -> In x l /\ In y l.
Proof.
  induction 1 as [l H | z l H [IH1 IH2]]; simpl; auto.
Qed.

Lemma before_filter {A} (p : A -> bool) (x y : A) l :
  before x y (filter p l) -> before x y l.
Proof.
  induction l as [|a l IH]; simpl; intros H; [inversion H |].
  destruct (p a).
  - inversion H; subst.
    + apply before_here. apply filter_In in H1. tauto.
    + apply before_later. auto.
  - apply before_later. auto.
Qed.

Lemma before_map {A B} (f : A -> B) (x y : A) l :
  before x y l -> before (f x) (f y) (map f l).
Proof.
  induction 1; simpl.
  - apply before_here. now apply in_map.
  - now apply before_later.
Qed.

Lemma before_nth {A} (l : list A) : forall i j x y,
  (i < j)%nat -> nth_error l i = Some x -> nth_error l j = Some y ->
  before x y l.
Proof.
  induction l as [|a l IH]; intros i j x y Hij Hi Hj.
  - destruct i; discriminate.
  - destruct j as [|j]; [lia |]. simpl in Hj. destruct i as [|i]; simpl in Hi.
    + inversion Hi; subst. apply before_here. eapply nth_error_In; eauto.
    + apply before_later. apply (IH i j); auto. lia.
Qed.

(** Order in [first_seen l] is order of first occurrence in [l]. *)
Lemma before_first_seen x y l :
  before x y (first_seen l) -> (index_of x l < index_of y l)%nat.
Proof.
  induction l as [|a l IH]; simpl; intros H; [inversion H |].
  inversion H; subst.
  - rewrite String.eqb_refl.
    apply filter_In in H1. destruct H1 as [_ H1].
    apply negb_true_iff in H1. rewrite H1. lia.
  - pose proof (before_In _ _ _ H1) as [Hx Hy].
    apply filter_In in Hx, Hy.
    destruct Hx as [_ Hx], Hy as [_ Hy].
    apply negb_true_iff in Hx, Hy. rewrite Hx, Hy.
    apply before_filter in H1. apply IH in H1. lia.
Qed.

Lemma first_rank_from_index x l : forall r,
  In x l -> first_rank_from r x l = Some (r + index_of x l)%nat.
Proof.
  induction l as [|a l IH]; simpl; intros r H; [tauto |].
  destruct (String.eqb x a) eqn:E.
  - f_equal. lia.
  - apply String.eqb_neq in E. destruct H; [congruence |].
    rewrite IH by assumption. f_equal. lia.
Qed.

Lemma last_rank_from_None x l : forall r,
  ~ In x l -> last_rank_from r x l = None.
Proof.
  induction l as [|a l IH]; simpl; intros r H; auto.
  rewrite IH by tauto.
  destruct (String.eqb x a) eqn:E; auto.
  apply String.eqb_eq in E. subst. tauto.
Qed.

Lemma last_rank_from_Some x l : forall r,
  In x l -> exists k, last_rank_from r x l = Some k /\ (r <= k < r + List.length l)%nat.
Proof.
  induction l as [|a l IH]; simpl; intros r H; [tauto |].
  destruct (in_dec string_dec x l) as [Hin | Hnin].
  - destruct (IH (S r) Hin) as [k [Hk Hr]]. rewrite Hk.
    exists k. split; auto. lia.
  - rewrite last_rank_from_None by assumption.
    destruct H as [H | H]; [subst | tauto].
    rewrite String.eqb_refl. exists r. split; auto. lia.
Qed.

(** Without duplicates the last occurrence is the first one. *)
Lemma last_rank_from_NoDup x l : forall r,
  NoDup l -> last_rank_from r x l = first_rank_from r x l.
Proof.
  induction l as [|a l IH]; simpl; intros r Hnd; auto.
  inversion Hnd; subst.
  destruct (String.eqb x a) eqn:E.
  - apply String.eqb_eq in E. subst.
    now rewrite last_rank_from_None.
  - rewrite IH by assumption. now destruct (first_rank_from (S r) x l).
Qed.

Lemma last_rank_NoDup x l : NoDup l -> last_rank x l = first_rank x l.
Proof. apply last_rank_from_NoDup. Qed.

End RankingFacts.

(* --------------------------------------------------------------------- *)
(** ** The two scoring loops of [hybrid_fusion] *)
(* --------------------------------------------------------------------- *)

Section FusionLoops.
Import Ranking Fusion.

Lemma keys_set {V} k (v : V) d :
  Dict.keys (Dict.set k v d) =
  if mem k (Dict.keys d) then Dict.keys d else Dict.keys d ++ [k].
Proof.
  destruct (mem k (Dict.keys d)) eqn:M.
  - apply keys_set_present. now apply mem_In.
  - apply keys_set_absent. now apply mem_false.
Qed.

Lemma mem_app x l1 l2 : mem x (l1 ++ l2) = mem x l1 || mem x l2.
Proof. apply existsb_app. Qed.

Section AnyStep.
Variable step : nat -> SearchResult -> Dict.t DocData -> Dict.t DocData.
Hypothesis step_keys : forall r a ds,
  Dict.keys (step r a ds) =
  if mem (doc_id a) (Dict.keys ds) then Dict.keys ds
  else Dict.keys ds ++ [doc_id a].

(** A loop appends the identifiers it meets for the first time, in the
    order it meets them, and moves no key already present. *)
Lemma keys_enumerate_loop rs : forall r ds,
  Dict.keys (enumerate_loop step r rs ds) =
  Dict.keys ds ++
  filter (fun y => negb (mem y (Dict.keys ds))) (first_seen (ids rs)).
Proof.
  induction rs as [|a rs IH]; intros r ds; simpl.
  - now rewrite app_nil_r.
  - rewrite IH, step_keys.
    destruct (mem (doc_id a) (Dict.keys ds)) eqn:M; simpl.
    + f_equal. rewrite filter_filter. apply filter_ext. intros y.
      destruct (String.eqb y (doc_id a)) eqn:E; simpl; auto.
      apply String.eqb_eq in E. subst. now rewrite M.
    + rewrite <- app_assoc. simpl. f_equal. f_equal.
      rewrite filter_filter. apply filter_ext. intros y.
      rewrite mem_app. unfold mem at 2. simpl.
      rewrite orb_false_r, negb_orb. apply andb_comm.
Qed.
End AnyStep.

Lemma bm25_step_keys r a ds :
  Dict.keys (bm25_step r a ds) =
  if mem (doc_id a) (Dict.keys ds) then Dict.keys ds
  else Dict.keys ds ++ [doc_id a].
Proof. apply keys_set. Qed.

Lemma vector_step_keys r a ds :
  Dict.keys (vector_step r a ds) =
  if mem (doc_id a) (Dict.keys ds) then Dict.keys ds
  else Dict.keys ds ++ [doc_id a].
Proof. apply keys_set. Qed.

(** The keys of [doc_scores], in iteration order: the identifiers of
    [bm25_results] followed by [vector_results], at first appearance. *)
Lemma keys_doc_scores_of A B :
  Dict.keys (doc_scores_of A B) = first_seen (ids A ++ ids B).
Proof.
  unfold doc_scores_of.
  rewrite (keys_enumerate_loop _ vector_step_keys).
  rewrite (keys_enumerate_loop _ bm25_step_keys). simpl.
  rewrite (filter_all _ (first_seen (ids A))) by reflexivity.
  now rewrite first_seen_app.
Qed.

Lemma get_set id k (v : DocData) ds :
  Dict.get id (Dict.set k v ds) = if String.eqb id k then Some v else Dict.get id ds.
Proof.
  destruct (String.eqb id k) eqn:E.
  - apply String.eqb_eq in E. subst. apply get_set_same.
  - apply String.eqb_neq in E. apply get_set_other. congruence.
Qed.

Lemma bm25_of_bm25_step id r a ds :
  bm25_of id (bm25_step r a ds) =
  if String.eqb id (doc_id a) then Some (rrf r) else bm25_of id ds.
Proof.
  unfold bm25_of, bm25_step. rewrite get_set.
  now destruct (String.eqb id (doc_id a)).
Qed.

Lemma vector_of_bm25_step id r a ds :
  vector_of id (bm25_step r a ds) = vector_of id ds.
Proof.
  unfold vector_of, bm25_step. rewrite get_set.
  destruct (String.eqb id (doc_id a)) eqn:E; auto.
  apply String.eqb_eq in E. subst. simpl.
  now destruct (Dict.get (doc_id a) ds).
Qed.

Lemma vector_of_vector_step id r a ds :
  vector_of id (vector_step r a ds) =
  if String.eqb id (doc_id a) then Some (rrf r) else vector_of id ds.
Proof.
  unfold vector_of, vector_step. rewrite get_set.
  now destruct (String.eqb id (doc_id a)).
Qed.

Lemma bm25_of_vector_step id r a ds :
  bm25_of id (vector_step r a ds) = bm25_of id ds.
Proof.
  unfold bm25_of, vector_step. rewrite get_set.
  destruct (String.eqb id (doc_id a)) eqn:E; auto.
  apply String.eqb_eq in E. subst. simpl.
  now destruct (Dict.get (doc_id a) ds).
Qed.

(** After the first loop an identifier carries the score of the LAST rank
    at which it occurs: every occurrence overwrites ["bm25_score"]. *)
Lemma bm25_of_bm25_loop id rs : forall r ds,
  bm25_of id (enumerate_loop bm25_step r rs ds) =
  match last_rank_from r id (ids rs) with
  | Some k => Some (rrf k)
  | None => bm25_of id ds
  end.
Proof.
  induction rs as [|a rs IH]; intros r ds; simpl; auto.
  rewrite IH, bm25_of_bm25_step.
  destruct (last_rank_from (S r) id (ids rs)); auto.
  now destruct (String.eqb id (doc_id a)).
Qed.

Lemma vector_of_bm25_loop id rs : forall r ds,
  vector_of id (enumerate_loop bm25_step r rs ds) = vector_of id ds.
Proof.
  induction rs as [|a rs IH]; intros r ds; simpl; auto.
  now rewrite IH, vector_of_bm25_step.
Qed.

Lemma vector_of_vector_loop id rs : forall r ds,
  vector_of id (enumerate_loop vector_step r rs ds) =
  match last_rank_from r id (ids rs) with
  | Some k => Some (rrf k)
  | None => vector_of id ds
  end.
Proof.
  induction rs as [|a rs IH]; intros r ds; simpl; auto.
  rewrite IH, vector_of_vector_step.
  destruct (last_rank_from (S r) id (ids rs)); auto.
  now destruct (String.eqb id (doc_id a)).
Qed.

Lemma bm25_of_vector_loop id rs : forall r ds,
  bm25_of id (enumerate_loop vector_step r rs ds) = bm25_of id ds.
Proof.
  induction rs as [|a rs IH]; intros r ds; simpl; auto.
  now rewrite IH, bm25_of_vector_step.
Qed.

Lemma bm25_of_doc_scores id A B :
  bm25_of id (doc_scores_of A B) = option_map rrf (last_rank id (ids A)).
Proof.
  unfold doc_scores_of, last_rank.
  rewrite bm25_of_vector_loop, bm25_of_bm25_loop.
  now destruct (last_rank_from 1 id (ids A)).
Qed.

Lemma vector_of_doc_scores id A B :
  vector_of id (doc_scores_of A B) = option_map rrf (last_rank id (ids B)).
Proof.
  unfold doc_scores_of, last_rank.
  rewrite vector_of_vector_loop, vector_of_bm25_loop.
  now destruct (last_rank_from 1 id (ids B)).
Qed.

Lemma fused_unsorted_ids A B alpha :
  map fused_doc_id (fused_unsorted A B alpha) = first_seen (ids A ++ ids B).
Proof.
  unfold fused_unsorted. rewrite map_map, <- keys_doc_scores_of.
  unfold Dict.keys. apply map_ext. now intros [k d].
Qed.

(** What one entry of [fused] holds, before sorting moves it. *)
Lemma fused_unsorted_entry A B alpha e :
  In e (fused_unsorted A B alpha) ->
  bm25_score e = get_score (option_map rrf (last_rank (fused_doc_id e) (ids A))) /\
  vector_score e = get_score (option_map rrf (last_rank (fused_doc_id e) (ids B))) /\
  hybrid_score e = alpha * bm25_score e + (1 - alpha) * vector_score e.
Proof.
  unfold fused_unsorted. rewrite in_map_iff. intros [[id data] [He Hin]].
  subst e. simpl.
  assert (Hget : Dict.get id (doc_scores_of A B) = Some data).
  { apply In_get; auto. rewrite keys_doc_scores_of. apply NoDup_first_seen. }
  rewrite <- bm25_of_doc_scores with (B := B).
  rewrite <- vector_of_doc_scores with (A := A).
  unfold bm25_of, vector_of. rewrite Hget. auto.
Qed.

Lemma rrf_eq k : rrf k == 1 # Pos.of_nat (60 + k).
Proof.
  unfold rrf.
  assert (H : (60 + Z.of_nat k)%Z = Z.pos (Pos.of_nat (60 + k))).
  { rewrite <- (positive_nat_Z (Pos.of_nat (60 + k))), Nat2Pos.id by lia. lia. }
  rewrite H. generalize (Pos.of_nat (60 + k)). intros p.
  unfold Qeq, Qdiv, Qinv, Qmult, inject_Z. cbn [Qnum Qden]. lia.
Qed.

Lemma rrf_pos k : 0 < rrf k.
Proof.
  rewrite rrf_eq. generalize (Pos.of_nat (60 + k)). intros p.
  unfold Qlt. cbn [Qnum Qden]. lia.
Qed.

Lemma rrf_decreasing j k : (j < k)%nat -> rrf k < rrf j.
Proof.
  intros H. rewrite !rrf_eq.
  assert (Hp : (Pos.of_nat (60 + j) < Pos.of_nat (60 + k))%positive).
  { apply Pos2Nat.inj_lt. rewrite !Nat2Pos.id by lia. lia. }
  revert Hp. generalize (Pos.of_nat (60 + j)) (Pos.of_nat (60 + k)).
  intros p q Hp. unfold Qlt. cbn [Qnum Qden]. lia.
Qed.

Lemma get_score_contribution r :
  get_score (option_map rrf r) == contribution r.
Proof.
  destruct r as [k|]; unfold get_score, option_map, contribution;
    [apply rrf_eq | reflexivity].
Qed.

End FusionLoops.

(* --------------------------------------------------------------------- *)
(** ** The final sort *)
(* --------------------------------------------------------------------- *)

Section SortFacts.
Import Ranking Fusion FusionSpec.

Lemma In_insert_desc a l y : In y (insert_desc a l) <-> y = a \/ In y l.
Proof.
  induction l as [|z l IH]; simpl.
  - intuition.
  - destruct (Qle_bool (hybrid_score z) (hybrid_score a)); simpl.
    + intuition.
    + rewrite IH. intuition.
Qed.

Lemma insert_desc_perm a l : Permutation (insert_desc a l) (a :: l).
Proof.
  induction l as [|z l IH]; simpl; auto.
  destruct (Qle_bool (hybrid_score z) (hybrid_score a)); auto.
  rewrite IH. apply perm_swap.
Qed.

Lemma sort_desc_perm l : Permutation (sort_desc l) l.
Proof.
  induction l as [|a l IH]; simpl; auto.
  rewrite insert_desc_perm. now constructor.
Qed.

Lemma In_sort_desc l y : In y (sort_desc l) <-> In y l.
Proof.
  split; apply Permutation_in;
    [apply sort_desc_perm | apply Permutation_sym, sort_desc_perm].
Qed.

Lemma insert_desc_sorted a l :
  StronglySorted desc l -> StronglySorted desc (insert_desc a l).
Proof.
  induction 1 as [|z l Hs IH Hall]; simpl.
  - repeat constructor.
  - destruct (Qle_bool (hybrid_score z) (hybrid_score a)) eqn:E.
    + apply Qle_bool_iff in E. constructor.
      * now constructor.
      * constructor; [exact E |].
        rewrite Forall_forall in *. intros y Hy. unfold desc in *.
        eapply Qle_trans; [apply Hall, Hy | exact E].
    + assert (Hlt : hybrid_score a < hybrid_score z).
      { apply Qnot_le_lt. intros H. apply Qle_bool_iff in H. congruence. }
      constructor; [exact IH |].
      rewrite Forall_forall in *. intros y Hy.
      apply In_insert_desc in Hy. destruct Hy as [-> | Hy]; auto.
      unfold desc. now apply Qlt_le_weak.
Qed.

Lemma sort_desc_sorted l : StronglySorted desc (sort_desc l).
Proof.
  induction l as [|a l IH]; simpl; [constructor |].
  now apply insert_desc_sorted.
Qed.

(** Stability of one insertion: the inserted element overtakes no element
    of equal score. *)
Lemma before_insert_desc a l x y :
  before x y (insert_desc a l) ->
  hybrid_score x == hybrid_score y ->
  before x y (a :: l).
Proof.
  induction l as [|z l IH]; simpl; intros Hb Heq.
  - exact Hb.
  - destruct (Qle_bool (hybrid_score z) (hybrid_score a)) eqn:E; [exact Hb |].
    assert (Hlt : hybrid_score a < hybrid_score z).
    { apply Qnot_le_lt. intros H. apply Qle_bool_iff in H. congruence. }
    inversion Hb; subst.
    + apply In_insert_desc in H0. destruct H0 as [-> | Hy].
      * exfalso. rewrite Heq in Hlt. now apply Qlt_irrefl in Hlt.
      * apply before_later. now apply before_here.
    + specialize (IH H0 Heq). inversion IH; subst.
      * apply before_here. now right.
      * now do 2 apply before_later.
Qed.

(** Stability of the sort: entries with equal scores keep their order. *)
Lemma before_sort_desc l x y :
  before x y (sort_desc l) ->
  hybrid_score x == hybrid_score y ->
  before x y l.
Proof.
  induction l as [|a l IH]; simpl; intros Hb Heq; [exact Hb |].
  apply before_insert_desc in Hb; auto.
  inversion Hb; subst.
  - apply before_here. now apply In_sort_desc.
  - apply before_later. auto.
Qed.

Lemma sorted_of_before (l : list FusedDoc) :
  (forall x y, before x y l -> desc x y) -> StronglySorted desc l.
Proof.
  induction l as [|a l IH]; intros H; constructor.
  - apply IH. intros x y Hb. apply H. now apply before_later.
  - rewrite Forall_forall. intros y Hy. apply H. now apply before_here.
Qed.

(** A list already in descending order is left as it is. *)
Lemma sort_desc_id l : StronglySorted desc l -> sort_desc l = l.
Proof.
  induction 1 as [|a l Hs IH Hall]; simpl; auto.
  rewrite IH. destruct l as [|z l]; simpl; auto.
  inversion Hall; subst. unfold desc in H1.
  apply Qle_bool_iff in H1. now rewrite H1.
Qed.

Lemma hybrid_fusion_In A B alpha e :
  In e (hybrid_fusion A B alpha) <-> In e (fused_unsorted A B alpha).
Proof. apply In_sort_desc. Qed.

Lemma hybrid_fusion_ids_perm A B alpha :
  Permutation (map fused_doc_id (hybrid_fusion A B alpha))
              (first_seen (ids A ++ ids B)).
Proof.
  rewrite <- (fused_unsorted_ids A B alpha).
  apply Permutation_map, sort_desc_perm.
Qed.

End SortFacts.

(* --------------------------------------------------------------------- *)
(** ** Properties of [hybrid_fusion] *)
(* --------------------------------------------------------------------- *)

Section FusionProperties.
Import Ranking Fusion FusionSpec.

Lemma hybrid_fusion_entry A B alpha e :
  In e (hybrid_fusion A B alpha) ->
  bm25_score e = get_score (option_map rrf (last_rank (fused_doc_id e) (ids A))) /\
  vector_score e = get_score (option_map rrf (last_rank (fused_doc_id e) (ids B))) /\
  hybrid_score e = alpha * bm25_score e + (1 - alpha) * vector_score e.
Proof.
  intros H. apply hybrid_fusion_In in H. now apply fused_unsorted_entry.
Qed.

Lemma hybrid_fusion_NoDup A B alpha :
  NoDup (map fused_doc_id (hybrid_fusion A B alpha)).
Proof.
  eapply Permutation_NoDup.
  - apply Permutation_sym, hybrid_fusion_ids_perm.
  - apply NoDup_first_seen.
Qed.

Lemma hybrid_fusion_ids A B alpha id :
  In id (map fused_doc_id (hybrid_fusion A B alpha)) <->
  In id (ids A) \/ In id (ids B).
Proof.
  rewrite <- in_app_iff, <- (In_first_seen id (ids A ++ ids B)).
  split; apply Permutation_in;
    [apply hybrid_fusion_ids_perm | apply Permutation_sym, hybrid_fusion_ids_perm].
Qed.

Lemma score_zero_iff id l :
  get_score (option_map rrf (last_rank id l)) == 0 <-> ~ In id l.
Proof.
  unfold last_rank. split.
  - intros H Hin. destruct (last_rank_from_Some id l 1 Hin) as [k [Hk _]].
    rewrite Hk in H. simpl in H. pose proof (rrf_pos k) as Hp.
    rewrite H in Hp. now apply Qlt_irrefl in Hp.
  - intros H. rewrite last_rank_from_None by assumption. reflexivity.
Qed.

Lemma NoDup_map_eq {T U} (f : T -> U) (l : list T) x y :
  NoDup (map f l) -> In x l -> In y l -> f x = f y -> x = y.
Proof.
  induction l as [|a l IH]; simpl; intros Hn Hx Hy Hf; [contradiction |].
  inversion Hn as [|? ? Hnot Hn']; subst.
  destruct Hx as [-> | Hx], Hy as [-> | Hy]; auto.
  - exfalso. apply Hnot. rewrite Hf. now apply in_map.
  - exfalso. apply Hnot. rewrite <- Hf. now apply in_map.
Qed.

(** C2 (as amended): every identifier of the two lists has exactly one
    entry in the output, whose per-source score is [1/(60 + r)] for the
    rank [r] of the identifier's LAST occurrence in that list, and [0] when
    the list does not hold it: a later occurrence replaces the score of an
    earlier one, and nothing is summed.  No entry is scored otherwise. *)
Theorem C2_duplicates_scored_at_last_rank A B alpha :
  (forall id, In id (ids A) \/ In id (ids B) ->
     exists e,
       EntrySpec.sole_entry fused_doc_id id (hybrid_fusion A B alpha) e /\
       bm25_score e == contribution (last_rank id (ids A)) /\
       vector_score e == contribution (last_rank id (ids B))) /\
  NoDup (map fused_doc_id (hybrid_fusion A B alpha)) /\
  scored_by last_rank A B (hybrid_fusion A B alpha).
Proof.
  assert (Hscored : scored_by last_rank A B (hybrid_fusion A B alpha)).
  { intros e He. apply hybrid_fusion_entry in He.
    destruct He as [Hb [Hv _]]. rewrite Hb, Hv.
    split; apply get_score_contribution. }
  pose proof (hybrid_fusion_NoDup A B alpha) as Hn.
  split; [| split; assumption].
  intros id Hid. apply hybrid_fusion_ids with (alpha := alpha) in Hid.
  apply in_map_iff in Hid. destruct Hid as (e & Hkey & He).
  exists e. split; [split; [exact He | split; [exact Hkey |]] |].
  - intros e' He' Hkey'. apply (NoDup_map_eq fused_doc_id _ e' e Hn); congruence.
  - rewrite <- Hkey. apply Hscored, He.
Qed.

(** C2 (as stated) fails: with [x] at ranks 1 and 2 of the first list, the
    entry of [x] carries [1/62], the score of rank 2, not [1/61]. *)
Lemma C2_first_rank_counterexample :
  let A := [hit "x"; hit "x"] in
  first_rank "x" (ids A) = Some 1%nat /\
  map (fun e => (fused_doc_id e, bm25_score e)) (hybrid_fusion A [] (1#2))
    = [("x", rrf 2)] /\
  ~ scored_by first_rank A [] (hybrid_fusion A [] (1#2)).
Proof.
  split; [reflexivity |]. split; [reflexivity |].
  intros H. destruct (H (fuse_entry (1#2) ("x",
    {| data_source := [("title", "x")];
       data_bm25_score := Some (rrf 2);
       data_vector_score := None |}))) as [Hb _].
  - left. reflexivity.
  - vm_compute in Hb. discriminate.
Qed.

Lemma C2_duplicates_scored_at_last_rank_witness :
  let A := [hit "x"; hit "y"; hit "x"] in
  let B := [hit "y"] in
  map fused_doc_id (hybrid_fusion A B (1#2)) = ["y"; "x"] /\
  Forall (fun e => bm25_score e == contribution (last_rank (fused_doc_id e) (ids A)) /\
                   vector_score e == contribution (last_rank (fused_doc_id e) (ids B)))
         (hybrid_fusion A B (1#2)) /\
  last_rank "x" (ids A) = Some 3%nat /\
  (exists e,
     EntrySpec.sole_entry fused_doc_id "x" (hybrid_fusion A B (1#2)) e /\
     bm25_score e == 1 # 63 /\ vector_score e == 0).
Proof.
  intros A B.
  destruct (C2_duplicates_scored_at_last_rank A B (1#2)) as (Hex & _ & Hs).
  split; [reflexivity |]. split; [| split; [reflexivity |]].
  - apply Forall_forall. exact Hs.
  - destruct (Hex "x") as (e & He & Hb & Hv); [left; simpl; tauto |].
    exists e. split; [exact He |]. split; [exact Hb | exact Hv].
Defined.

(** C3: the identifiers of the output are those of the two inputs, each in
    exactly one entry; an entry's per-source score is non-zero exactly when
    its identifier occurs in that list. *)
Theorem C3_fused_identifiers_complete A B alpha :
  (forall id, In id (map fused_doc_id (hybrid_fusion A B alpha)) <->
              In id (ids A) \/ In id (ids B)) /\
  NoDup (map fused_doc_id (hybrid_fusion A B alpha)) /\
  (forall e, In e (hybrid_fusion A B alpha) ->
     (In (fused_doc_id e) (ids A) -> In (fused_doc_id e) (ids B) ->
        ~ bm25_score e == 0 /\ ~ vector_score e == 0) /\
     (~ In (fused_doc_id e) (ids A) -> bm25_score e = 0) /\
     (~ In (fused_doc_id e) (ids B) -> vector_score e = 0)).
Proof.
  split; [apply hybrid_fusion_ids |]. split; [apply hybrid_fusion_NoDup |].
  intros e He. apply hybrid_fusion_entry in He.
  destruct He as [Hb [Hv _]]. rewrite Hb, Hv. repeat split.
  - rewrite score_zero_iff. tauto.
  - rewrite score_zero_iff. tauto.
  - intros H. unfold last_rank. now rewrite last_rank_from_None.
  - intros H. unfold last_rank. now rewrite last_rank_from_None.
Qed.

Lemma C3_fused_identifiers_complete_witness :
  let A := [hit "doc1"; hit "doc2"] in
  let B := [hit "doc2"; hit "doc3"] in
  map fused_doc_id (hybrid_fusion A B (1#2)) = ["doc2"; "doc1"; "doc3"] /\
  Forall (fun e =>
            (In (fused_doc_id e) (ids A) -> In (fused_doc_id e) (ids B) ->
               ~ bm25_score e == 0 /\ ~ vector_score e == 0) /\
            (~ In (fused_doc_id e) (ids A) -> bm25_score e = 0) /\
            (~ In (fused_doc_id e) (ids B) -> vector_score e = 0))
         (hybrid_fusion A B (1#2)).
Proof.
  intros A B. split; [reflexivity |].
  apply Forall_forall.
  exact (proj2 (proj2 (C3_fused_identifiers_complete A B (1#2)))).
Defined.

(** The output meets the ordering contract ... *)
Lemma hybrid_fusion_tie_order A B alpha :
  tie_order (ids A ++ ids B) (hybrid_fusion A B alpha).
Proof.
  intros i j e1 e2 Hij H1 H2 Heq.
  apply before_first_seen. rewrite <- (fused_unsorted_ids A B alpha).
  apply before_map. apply before_sort_desc; auto.
  eapply before_nth; eauto.
Qed.

(** ... and the contract leaves no freedom: two arrangements of the same
    entries, both in descending order with ties in first-appearance order,
    are the same list. *)
Lemma ordering_contract_unique all (l1 : list FusedDoc) : forall l2,
  Permutation l1 l2 ->
  StronglySorted desc l1 -> StronglySorted desc l2 ->
  tie_order all l1 -> tie_order all l2 ->
  l1 = l2.
Proof.
  induction l1 as [|a l1 IH]; intros l2 Hp Hs1 Hs2 Ht1 Ht2.
  - apply Permutation_nil in Hp. now subst.
  - destruct l2 as [|b l2].
    { apply Permutation_sym, Permutation_nil in Hp. discriminate. }
    assert (Hab : a = b).
    { assert (Hb : In b (a :: l1)).
      { eapply Permutation_in; [apply Permutation_sym, Hp | now left]. }
      assert (Ha : In a (b :: l2)).
      { eapply Permutation_in; [apply Hp | now left]. }
      destruct Hb as [Hb | Hb]; auto.
      destruct Ha as [Ha | Ha]; auto.
      exfalso.
      inversion Hs1 as [|? ? _ Hall1]; subst.
      inversion Hs2 as [|? ? _ Hall2]; subst.
      rewrite Forall_forall in Hall1, Hall2.
      pose proof (Hall1 b Hb) as Hle1. pose proof (Hall2 a Ha) as Hle2.
      unfold desc in Hle1, Hle2.
      assert (Heq : hybrid_score a == hybrid_score b) by now apply Qle_antisym.
      apply In_nth_error in Hb, Ha.
      destruct Hb as [n Hn], Ha as [m Hm].
      pose proof (Ht1 0%nat (S n) a b ltac:(lia) eq_refl Hn Heq) as P1.
      pose proof (Ht2 0%nat (S m) b a ltac:(lia) eq_refl Hm
                    (Qeq_sym _ _ Heq)) as P2.
      lia. }
    subst b. f_equal. apply IH.
    + eapply Permutation_cons_inv; eauto.
    + now inversion Hs1.
    + now inversion Hs2.
    + intros i j e1 e2 Hij H1 H2. apply (Ht1 (S i) (S j)); auto. lia.
    + intros i j e1 e2 Hij H1 H2. apply (Ht2 (S i) (S j)); auto. lia.
Qed.

(** C5: the output is in descending order of combined score; entries of
    equal score stand in the order of their identifiers' first appearance
    over the first list followed by the second; and these two facts fix
    the output: any arrangement of the same entries that meets them is the
    output itself, so equal inputs give equal orderings and scores. *)
Theorem C5_sorted_stable_deterministic A B alpha :
  StronglySorted desc (hybrid_fusion A B alpha) /\
  tie_order (ids A ++ ids B) (hybrid_fusion A B alpha) /\
  (forall out,
     Permutation out (hybrid_fusion A B alpha) ->
     StronglySorted desc out ->
     tie_order (ids A ++ ids B) out ->
     out = hybrid_fusion A B alpha) /\
  (forall A' B' alpha',
     A' = A -> B' = B -> alpha' = alpha ->
     hybrid_fusion A' B' alpha' = hybrid_fusion A B alpha).
Proof.
  split; [apply sort_desc_sorted |].
  split; [apply hybrid_fusion_tie_order |].
  split.
  - intros out Hp Hs Ht.
    apply (ordering_contract_unique (ids A ++ ids B)); auto.
    + apply sort_desc_sorted.
    + apply hybrid_fusion_tie_order.
  - intros A' B' alpha' -> -> ->. reflexivity.
Qed.

Lemma C5_sorted_stable_deterministic_witness :
  let A := [hit "a"; hit "c"] in
  let B := [hit "b"; hit "c"] in
  map fused_doc_id (hybrid_fusion A B (1#2)) = ["c"; "a"; "b"] /\
  (index_of "a" (ids A ++ ids B) < index_of "b" (ids A ++ ids B))%nat /\
  (forall out, Permutation out (hybrid_fusion A B (1#2)) ->
     StronglySorted desc out -> tie_order (ids A ++ ids B) out ->
     map fused_doc_id out = ["c"; "a"; "b"]).
Proof.
  intros A B.
  destruct (C5_sorted_stable_deterministic A B (1#2)) as [_ [Ht [Hu _]]].
  split; [reflexivity |]. split.
  - apply (Ht 1%nat 2%nat
             (fuse_entry (1#2) ("a", {| data_source := [("title", "a")];
                                        data_bm25_score := Some (rrf 1);
                                        data_vector_score := None |}))
             (fuse_entry (1#2) ("b", {| data_source := [("title", "b")];
                                        data_bm25_score := None;
                                        data_vector_score := Some (rrf 1) |})));
      [lia | reflexivity | reflexivity | vm_compute; reflexivity].
  - intros out Hp Hs Hto. rewrite (Hu out Hp Hs Hto). reflexivity.
Defined.

Lemma single_list_sorted A :
  NoDup (ids A) -> StronglySorted desc (fused_unsorted A [] 1).
Proof.
  intros HA. apply sorted_of_before. intros x y Hb.
  pose proof (before_In _ _ _ Hb) as [Hx Hy].
  apply (before_map fused_doc_id) in Hb.
  rewrite fused_unsorted_ids in Hb. simpl in Hb. rewrite app_nil_r in Hb.
  pose proof (before_In _ _ _ Hb) as [Hix Hiy].
  rewrite In_first_seen in Hix, Hiy.
  apply before_first_seen in Hb.
  apply fused_unsorted_entry in Hx, Hy.
  destruct Hx as [Hbx [Hvx Hhx]], Hy as [Hby [Hvy Hhy]].
  unfold desc. rewrite Hhx, Hhy, Hbx, Hby, Hvx, Hvy.
  rewrite !(last_rank_NoDup _ _ HA). unfold first_rank.
  rewrite !first_rank_from_index by assumption.
  cbn [option_map get_score ids map last_rank last_rank_from].
  assert (Hlt : rrf (1 + index_of (fused_doc_id y) (ids A))
                < rrf (1 + index_of (fused_doc_id x) (ids A))).
  { apply rrf_decreasing. lia. }
  apply Qlt_le_weak in Hlt.
  setoid_replace (1 * rrf (1 + index_of (fused_doc_id y) (ids A)) + (1 - 1) * 0)
    with (rrf (1 + index_of (fused_doc_id y) (ids A))) by ring.
  setoid_replace (1 * rrf (1 + index_of (fused_doc_id x) (ids A)) + (1 - 1) * 0)
    with (rrf (1 + index_of (fused_doc_id x) (ids A))) by ring.
  exact Hlt.
Qed.

(** The same arithmetic in binary64: halving and adding two equal halves
    are exact, so the midpoint is the float [1/61] itself; a score of rank 3
    is below one of rank 2, itself below one of rank 1; and at weight 1 the
    second list adds nothing. *)
Example binary64_scores :
  Binary64.hybrid 0.5 (Binary64.rrf 1) (Binary64.rrf 1) = (1 / 61)%float /\
  PrimFloat.ltb (Binary64.rrf 3) (Binary64.rrf 2) = true /\
  PrimFloat.ltb (Binary64.rrf 2) (Binary64.rrf 1) = true /\
  Binary64.hybrid 1 (Binary64.rrf 3) 0 = Binary64.rrf 3.
Proof. repeat split; reflexivity. Qed.

(** C9 (as amended): fusing two empty lists gives the empty list at every
    weight; fusing a DUPLICATE-FREE list with the empty list at weight 1
    gives the identifiers in the list's own rank order, the second list
    contributing 0 to every score. *)
Theorem C9_empty_lists_and_single_list :
  (forall alpha, hybrid_fusion [] [] alpha = []) /\
  (forall A, NoDup (ids A) ->
     map fused_doc_id (hybrid_fusion A [] 1) = ids A /\
     (forall e, In e (hybrid_fusion A [] 1) ->
        vector_score e = 0 /\ hybrid_score e == bm25_score e)).
Proof.
  split; [reflexivity |].
  intros A HA. split.
  - unfold hybrid_fusion. rewrite sort_desc_id by now apply single_list_sorted.
    rewrite fused_unsorted_ids. simpl. rewrite app_nil_r.
    now apply first_seen_NoDup.
  - intros e He. apply hybrid_fusion_entry in He.
    destruct He as [_ [Hv Hh]]. simpl in Hv. split; [exact Hv |].
    rewrite Hh, Hv. ring.
Qed.

Lemma C9_empty_lists_and_single_list_witness :
  map fused_doc_id (hybrid_fusion [hit "p"; hit "q"; hit "r"] [] 1)
  = ["p"; "q"; "r"].
Proof.
  destruct C9_empty_lists_and_single_list as [_ H].
  apply (H [hit "p"; hit "q"; hit "r"]).
  repeat constructor; simpl; intuition discriminate.
Defined.

(** C9 (as stated) fails on a list that repeats an identifier: [x] is kept
    at the score of its last rank, 3, and falls behind [y]. *)
Lemma C9_rank_order_counterexample :
  let A := [hit "x"; hit "y"; hit "x"] in
  map fused_doc_id (hybrid_fusion A [] 1) = ["y"; "x"] /\
  map fused_doc_id (hybrid_fusion A [] 1) <> first_seen (ids A) /\
  map fused_doc_id (hybrid_fusion A [] 1) <> ids A.
Proof.
  split; [reflexivity |]. split; discriminate.
Qed.

End FusionProperties.


(* --------------------------------------------------------------------- *)
(** ** Activity calls and their attempts *)
(* --------------------------------------------------------------------- *)

Section AttemptFacts.
Import Py Models Temporal ResearchWorkflow WorkflowSpec.

Lemma segment_event a input t rp n evs r e :
  segment a input t rp n evs r -> In e evs ->
  ev_activity e = a /\ ev_input e = input /\ ev_timeout e = t /\
  ev_policy e = rp /\ ev_backoff e = backoff rp (ev_attempt e - 1) /\
  (n < ev_attempt e <= n + List.length evs)%nat.
Proof.
  induction 1 as [n | n v | n msg evs r Hs IH]; simpl; intros Hin.
  - contradiction.
  - destruct Hin as [<- | []]. simpl. repeat split; lia.
  - destruct Hin as [<- | Hin].
    + simpl. repeat split; lia.
    + destruct (IH Hin) as (H1 & H2 & H3 & H4 & H5 & H6).
      repeat split; auto; lia.
Qed.

(** An attempt that returned is the last of its call, and its value is what
    the call yields. *)
Lemma segment_returned a input t rp n evs r e v :
  segment a input t rp n evs r -> In e evs -> ev_result e = Returned v ->
  r = Some v /\ forall e', In e' evs -> (ev_attempt e' <= ev_attempt e)%nat.
Proof.
  induction 1 as [n | n v0 | n msg evs r Hs IH]; simpl; intros Hin Hres.
  - contradiction.
  - destruct Hin as [<- | []]. simpl in Hres. inversion Hres; subst.
    split; auto. intros e' [<- | []]. lia.
  - destruct Hin as [<- | Hin]; [discriminate |].
    destruct (IH Hin Hres) as [Hr Hlast]. split; auto.
    intros e' [<- | He']; auto. simpl.
    pose proof (segment_event _ _ _ _ _ _ _ _ Hs Hin) as (_ & _ & _ & _ & _ & Hn).
    lia.
Qed.


(** A call that yields nothing made every attempt it was allowed, and a
    call that was allowed an attempt made one. *)
Lemma attempts_segment {A} (f : A -> Result) attempt a input t rp :
  (forall k s, history (snd (attempt k s)) = history s) ->
  forall remaining n st,
  let res := attempts attempt
               (fun k o => event_of a input t rp k (attempt_map f o))
               n remaining st in
  exists evs,
    history (snd res) = history st ++ evs /\
    segment a input t rp n evs (option_map f (fst res)) /\
    (List.length evs <= remaining)%nat.
Proof.
  intros Hpres. induction remaining as [|remaining IH]; intros n st; simpl.
  - exists []. rewrite app_nil_r. split; [reflexivity|]. split; [constructor | simpl; lia].
  - pose proof (Hpres (S n) st) as Hh.
    destruct (attempt (S n) st) as [[msg | v] st1]; simpl in Hh.
    + destruct (IH (S n) (record (event_of a input t rp (S n) (Raised msg)) st1))
        as (evs & H1 & H2 & H3).
      exists (event_of a input t rp (S n) (Raised msg) :: evs).
      cbn [attempt_map]. rewrite H1. simpl. rewrite Hh, <- app_assoc. simpl.
      repeat split; [now constructor | lia].
    + exists [event_of a input t rp (S n) (Returned (f v))].
      simpl. rewrite Hh. repeat split; [constructor | lia].
Qed.

Lemma attempts_db {A} (attempt : nat -> State -> Attempt A * State) event :
  (forall k s, db (snd (attempt k s)) = db s) ->
  forall remaining n st,
  db (snd (attempts attempt event n remaining st)) = db st.
Proof.
  intros Hpres. induction remaining as [|remaining IH]; intros n st; simpl; auto.
  pose proof (Hpres (S n) st) as Hd.
  destruct (attempt (S n) st) as [[msg | v] st1]; simpl in Hd.
  - rewrite IH. simpl. exact Hd.
  - simpl. exact Hd.
Qed.

Lemma execute_activity_segment a input t rp w st :
  let res := execute_activity a input t rp w st in
  exists evs,
    history (snd res) = history st ++ evs /\
    db (snd res) = db st /\
    segment a input t rp 0 evs (option_map inl (fst res)) /\
    (List.length evs <= attempts_allowed rp w)%nat.
Proof.
  unfold execute_activity.
  destruct (attempts_segment (A := AgentOutput) inl
              (fun n st => (stage_attempt w a input n, st)) a input t rp
              (fun _ _ => eq_refl) (attempts_allowed rp w) 0%nat st)
    as (evs & H1 & H2 & H3).
  exists evs. repeat split; auto.
  now apply attempts_db.
Qed.

Lemma execute_save_segment input t rp w st :
  let res := execute_save input t rp w st in
  exists evs,
    history (snd res) = history st ++ evs /\
    segment save_research_result_activity input t rp 0 evs
            (option_map inr (fst res)) /\
    (List.length evs <= attempts_allowed rp w)%nat.
Proof.
  unfold execute_save.
  apply (attempts_segment (A := Dict.t Value) inr).
  intros k s. destruct (save_attempt w k); simpl; auto.
  now destruct (ResultSink.save_research_result_activity a input (db s)).
Qed.

End AttemptFacts.

(* --------------------------------------------------------------------- *)
(** ** The shape of a workflow run *)
(* --------------------------------------------------------------------- *)

Section WorkflowFacts.
Import Py Models Temporal ResearchWorkflow WorkflowSpec.

Lemma has_errors_iff out : has_errors out = true <-> errors out <> [].
Proof.
  unfold has_errors. destruct (errors out); split; congruence.
Qed.

(** Every run of the workflow has one of the eight shapes. *)
Lemma run_has_shape request w db0 :
  let res := run request w (start db0) in
  run_shape request db0 (fst res) (history (snd res)) (db (snd res)).
Proof.
  unfold run, bind.
  pose proof (execute_activity_segment run_query_filter_activity request 60
                retry_policy w (start db0)) as (evs1 & Hh1 & Hd1 & Hs1 & Hl1).
  destruct (execute_activity run_query_filter_activity request 60
              retry_policy w (start db0)) as [[out1|] st1];
    simpl in Hh1, Hd1, Hs1, Hl1 |- *.
  2: { rewrite Hh1, Hd1. now apply shape_stage1_exhausted. }
  destruct (has_errors out1) eqn:E1; simpl.
  { rewrite Hh1, Hd1. now apply shape_stage1_failed. }
  pose proof (execute_activity_segment run_retriever_summarizer_activity
                (agent2_input request out1) 120 retry_policy w st1)
    as (evs2 & Hh2 & Hd2 & Hs2 & Hl2).
  destruct (execute_activity run_retriever_summarizer_activity
              (agent2_input request out1) 120 retry_policy w st1)
    as [[out2|] st2]; simpl in Hh2, Hd2, Hs2, Hl2 |- *.
  2: { rewrite Hh2, Hd2, Hh1, Hd1. now apply shape_stage2_exhausted with (out1 := out1). }
  destruct (has_errors out2) eqn:E2; simpl.
  { rewrite Hh2, Hd2, Hh1, Hd1. now apply shape_stage2_failed with (out1 := out1). }
  pose proof (execute_activity_segment run_fact_check_writer_activity
                (agent3_input request out2) 120 retry_policy w st2)
    as (evs3 & Hh3 & Hd3 & Hs3 & Hl3).
  destruct (execute_activity run_fact_check_writer_activity
              (agent3_input request out2) 120 retry_policy w st2)
    as [[out3|] st3]; simpl in Hh3, Hd3, Hs3, Hl3 |- *.
  2: { rewrite Hh3, Hd3, Hh2, Hd2, Hh1, Hd1. simpl. rewrite <- app_assoc.
       now apply shape_stage3_exhausted with (out1 := out1) (out2 := out2). }
  destruct (has_errors out3) eqn:E3; simpl.
  { rewrite Hh3, Hd3, Hh2, Hd2, Hh1, Hd1. simpl. rewrite <- app_assoc.
    now apply shape_stage3_failed with (out1 := out1) (out2 := out2). }
  pose proof (execute_save_segment
                (save_input request (completed out1 out2 out3)) 30
                retry_policy w st3) as (evs4 & Hh4 & Hs4 & Hl4).
  destruct (execute_save (save_input request (completed out1 out2 out3)) 30
              retry_policy w st3) as [[ack|] st4]; simpl in Hh4, Hs4, Hl4 |- *.
  - rewrite Hh4, Hh3, Hh2, Hh1. simpl. rewrite <- !app_assoc.
    apply (shape_saved request db0 evs1 out1 evs2 out2 evs3 out3 evs4
             (Some ack)); auto.
  - rewrite Hh4, Hh3, Hh2, Hh1. simpl. rewrite <- !app_assoc.
    apply (shape_saved request db0 evs1 out1 evs2 out2 evs3 out3 evs4 None); auto.
Qed.

Ltac in_segments :=
  repeat match goal with
         | H : In _ (_ ++ _) |- _ => apply in_app_or in H; destruct H as [H | H]
         end.

Ltac segment_facts :=
  repeat match goal with
         | Hs : segment _ _ _ _ _ ?evs _, Hin : In ?e ?evs |- _ =>
             let F := fresh "F" in
             pose proof (segment_event _ _ _ _ _ _ _ _ Hs Hin) as F;
             lazymatch goal with
             | Hres : ev_result e = Returned _ |- _ =>
                 let R := fresh "R" in
                 pose proof (segment_returned _ _ _ _ _ _ _ _ _ Hs Hin Hres) as R
             | _ => idtac
             end;
             clear Hin
         end.

(** A stage that returns an output declaring errors ends the run: the
    workflow returns the failed outcome citing that stage and its errors, no
    activity further down the pipeline is attempted, and the database is as
    it was. *)
Lemma shape_failure request db0 r h d e out :
  run_shape request db0 r h d ->
  In e h -> stage_failure e out ->
  r = Some (failed (agent_label (ev_activity e)) (errors out)) /\
  d = db0 /\
  (stage_index (ev_activity e) <= 3)%nat /\
  (forall e', In e' h ->
     (stage_index (ev_activity e') <= stage_index (ev_activity e))%nat).
Proof.
  intros Hshape Hin [Hres Herr]. apply has_errors_iff in Herr.
  inversion Hshape; subst; in_segments; segment_facts;
    repeat match goal with
           | R : _ /\ _ |- _ => destruct R
           | R : None = Some _ |- _ => discriminate R
           | R : option_map _ ?x = Some _ |- _ => destruct x; discriminate R
           | R : Some (inl _) = Some (inl _) |- _ => injection R as R; subst
           end;
    try congruence;
    (split; [| split; [| split]]);
    try reflexivity;
    try (match goal with F : ev_activity e = _ |- _ => rewrite F end; reflexivity);
    try (match goal with F : ev_activity e = _ |- _ => rewrite F end; simpl; lia);
    intros e' Hin'; in_segments; segment_facts;
    repeat match goal with
           | R : _ /\ _ |- _ => destruct R
           end;
    repeat match goal with
           | F : ev_activity _ = _ |- _ => rewrite F; clear F
           end;
    simpl; lia.
Qed.



(** The persistence activity is only ever handed the completed outcome of
    the run. *)
Lemma shape_save request db0 r h d e :
  run_shape request db0 r h d ->
  In e h -> ev_activity e = save_research_result_activity ->
  exists result,
    ev_input e = save_input request result /\
    Py.get "status" VNone result = VStr COMPLETED /\
    (r = Some result \/ r = None).
Proof.
  intros Hshape Hin Hact.
  inversion Hshape; subst; in_segments; segment_facts;
    repeat match goal with
           | R : _ /\ _ |- _ => destruct R
           end;
    try congruence.
  exists (completed out1 out2 out3). repeat split; auto.
  destruct ack; auto.
Qed.

(** C1 (as amended): a stage that returns errors ends the run there: no
    activity further down the pipeline is attempted and the workflow returns
    the FAILED outcome naming the stage and its errors; that outcome is NOT
    handed to the persistence activity, and the database is left as it was.
    The persistence activity is only ever called with the COMPLETED outcome. *)
Theorem C1_failure_short_circuits_unpersisted request w db0 :
  let res := run request w (start db0) in
  (forall e out, In e (history (snd res)) -> stage_failure e out ->
     fst res = Some (failed (agent_label (ev_activity e)) (errors out)) /\
     (forall e', In e' (history (snd res)) ->
        (stage_index (ev_activity e') <= stage_index (ev_activity e))%nat) /\
     ~ invoked save_research_result_activity (history (snd res)) /\
     db (snd res) = db0) /\
  (forall e, In e (history (snd res)) ->
     ev_activity e = save_research_result_activity ->
     exists result,
       ev_input e = save_input request result /\
       Py.get "status" VNone result = VStr COMPLETED /\
       (fst res = Some result \/ fst res = None)).
Proof.
  pose proof (run_has_shape request w db0) as Hshape.
  cbv zeta in *. split.
  - intros e out Hin Hfail.
    destruct (shape_failure _ _ _ _ _ _ _ Hshape Hin Hfail)
      as (Hr & Hd & Hidx & Hle).
    repeat split; auto.
    intros (e' & Hin' & Hact). apply Hle in Hin'. rewrite Hact in Hin'.
    simpl in Hin'. lia.
  - intros e Hin Hact. eapply shape_save; eauto.
Qed.

(** C1 (as stated) fails: stage 1 returns an error, the run ends with the
    FAILED outcome, and the persistence activity is never called; the row of
    the request still reads "processing". *)
Lemma C1_failed_outcome_not_persisted :
  let res := run Scenarios.request1 Scenarios.stage1_fails (start Scenarios.db1) in
  fst res = Some [("status", VStr "failed");
                  ("error", VStr "Query+Filter Agent failed: ['boom']")] /\
  map ev_activity (history (snd res)) = [run_query_filter_activity] /\
  db (snd res) = Scenarios.db1 /\
  map status (db (snd res)) = [VStr "processing"; VStr "processing"] /\
  ~ failure_routed_to_sink (history (snd res)).
Proof.
  cbv zeta. repeat split; try reflexivity.
  intros H.
  destruct (H (event_of run_query_filter_activity Scenarios.request1 60
                 retry_policy 1
                 (Returned (inl (Scenarios.failing "QueryFilterAgent" "boom"))))
              (Scenarios.failing "QueryFilterAgent" "boom"))
    as (e & result & Hin & Hact & _).
  - left. reflexivity.
  - split; [reflexivity | discriminate].
  - destruct Hin as [<- | []]. discriminate Hact.
Qed.

Lemma C1_failure_short_circuits_unpersisted_witness :
  let res := run Scenarios.request1 Scenarios.stage2_fails (start Scenarios.db1) in
  map (fun e => (stage_index (ev_activity e), ev_attempt e)) (history (snd res))
    = [(1, 1); (2, 1); (2, 2)]%nat /\
  fst res = Some [("status", VStr "failed");
                  ("error", VStr "Retriever+Summarizer Agent failed: ['no documents']")] /\
  ~ invoked save_research_result_activity (history (snd res)) /\
  db (snd res) = Scenarios.db1.
Proof.
  cbv zeta. split; [reflexivity |].
  destruct (C1_failure_short_circuits_unpersisted
              Scenarios.request1 Scenarios.stage2_fails Scenarios.db1) as [H _].
  cbv zeta in H.
  destruct (H (event_of run_retriever_summarizer_activity
                 (agent2_input Scenarios.request1
                    (Scenarios.succeeding "QueryFilterAgent" [("expansion", VDict [])]))
                 120 retry_policy 2
                 (Returned (inl (Scenarios.failing "RetrieverSummarizerAgent"
                                   "no documents"))))
              (Scenarios.failing "RetrieverSummarizerAgent" "no documents"))
    as (Hr & _ & Hs & Hd).
  - right. right. left. reflexivity.
  - split; [reflexivity | discriminate].
  - repeat split; auto.
Defined.

(** A run in which every stage succeeds, the save activity failing once
    before it runs: the completed outcome is returned, and it is what the
    row of the request holds afterwards. *)
Example completed_run_is_persisted :
  let res := run Scenarios.request1 Scenarios.all_succeed (start Scenarios.db1) in
  Py.get "status" VNone (match fst res with Some r => r | None => [] end)
    = VStr "completed" /\
  map (fun e => (stage_index (ev_activity e), ev_attempt e)) (history (snd res))
    = [(1, 1); (2, 1); (3, 1); (4, 1); (4, 2)]%nat /\
  persisted_with_status COMPLETED (history (snd res)) /\
  map (fun row => (id row, status row, brief_data row)) (db (snd res))
    = [("r2", VStr "processing", VNone);
       ("r1", VStr "completed", VDict [("executive_brief", VStr "brief")])].
Proof.
  cbv zeta. repeat split; try reflexivity.
  eexists. eexists. split; [right; right; right; left; reflexivity |].
  repeat split; reflexivity.
Qed.

(** C6: when the Retriever+Summarizer activity returns an output that
    declares errors, no attempt of the Fact-Check+Writer activity is ever
    made, and the run ends with status "failed" and an error that names the
    Retriever+Summarizer agent and carries its errors. *)
Theorem C6_stage2_failure_skips_stage3 request w db0 e out :
  let res := run request w (start db0) in
  In e (history (snd res)) ->
  ev_activity e = run_retriever_summarizer_activity ->
  stage_failure e out ->
  ~ invoked run_fact_check_writer_activity (history (snd res)) /\
  fst res = Some [("status", VStr "failed");
                  ("error", VStr ("Retriever+Summarizer Agent failed: "
                                  ++ str_of_list (errors out))%string)].
Proof.
  cbv zeta. intros Hin Hact Hfail.
  pose proof (run_has_shape request w db0) as Hshape. cbv zeta in Hshape.
  destruct (shape_failure _ _ _ _ _ _ _ Hshape Hin Hfail) as (Hr & _ & _ & Hle).
  split.
  - intros (e' & Hin' & Hact'). apply Hle in Hin'.
    rewrite Hact, Hact' in Hin'. simpl in Hin'. lia.
  - rewrite Hr, Hact. reflexivity.
Qed.

Lemma C6_stage2_failure_skips_stage3_witness :
  let res := run Scenarios.request1 Scenarios.stage2_fails (start Scenarios.db1) in
  ~ invoked run_fact_check_writer_activity (history (snd res)) /\
  fst res = Some [("status", VStr "failed");
                  ("error", VStr "Retriever+Summarizer Agent failed: ['no documents']")].
Proof.
  cbv zeta.
  apply (C6_stage2_failure_skips_stage3
           Scenarios.request1 Scenarios.stage2_fails Scenarios.db1
           (event_of run_retriever_summarizer_activity
              (agent2_input Scenarios.request1
                 (Scenarios.succeeding "QueryFilterAgent" [("expansion", VDict [])]))
              120 retry_policy 2
              (Returned (inl (Scenarios.failing "RetrieverSummarizerAgent"
                                "no documents"))))
           (Scenarios.failing "RetrieverSummarizerAgent" "no documents")).
  - right. right. left. reflexivity.
  - reflexivity.
  - split; [reflexivity | discriminate].
Defined.

End WorkflowFacts.

(* --------------------------------------------------------------------- *)
(** ** Properties of [save_research_result_activity] *)
(* --------------------------------------------------------------------- *)

Section ResultSinkFacts.
Import Py Models ResultSink.





Lemma commit_absent request_id x db :
  first request_id db = None -> commit request_id x db = db.
Proof.
  unfold first. induction db as [|r db IH]; simpl; auto.
  destruct (matches request_id r); [discriminate |].
  intros H. f_equal. auto.
Qed.












End ResultSinkFacts.

(* --------------------------------------------------------------------- *)
(** ** Exception containment in the agents' [run] methods *)
(* --------------------------------------------------------------------- *)

Section AgentFacts.
Import Py Models Fusion Agents.
Variable lax_float : Value -> option Q.

Lemma numeric_set k v m :
  match v with VInt _ | VFloat _ => True | _ => False end ->
  numeric m -> numeric (Dict.set k v m).
Proof.
  intros Hv. unfold numeric. induction m as [|[k' v'] m IH]; simpl; intros H.
  - constructor; auto.
  - inversion H; subst. destruct (String.eqb k k'); constructor; auto.
Qed.

Lemma validate_numeric m :
  numeric m -> exists m', validate_metrics lax_float m = Some m'.
Proof.
  unfold numeric. induction 1 as [|[k v] m Hv Hm [m' IH]]; simpl.
  - now exists [].
  - rewrite IH. destruct v; simpl in Hv; try contradiction; simpl; eauto.
Qed.

Lemma writes_numbers_ret {A} (a : A) : writes_numbers (ret a).
Proof. intros m H. exact H. Qed.

Lemma writes_numbers_call {A} (o : Outcome A) : writes_numbers (call o).
Proof. intros m H. exact H. Qed.

Lemma writes_numbers_int k z : writes_numbers (set_metric k (VInt z)).
Proof. intros m H. now apply numeric_set. Qed.

Lemma writes_numbers_float k q : writes_numbers (set_metric k (VFloat q)).
Proof. intros m H. now apply numeric_set. Qed.

Lemma writes_numbers_bind {A B} (b : Body A) (k : A -> Body B) :
  writes_numbers b -> (forall a, writes_numbers (k a)) ->
  writes_numbers (bind b k).
Proof.
  intros Hb Hk m Hm. unfold bind. specialize (Hb m Hm).
  destruct (b m) as [[a | msg] m']; simpl in *; auto.
  now apply Hk.
Qed.

Ltac writes_numbers :=
  repeat first
    [ apply writes_numbers_ret
    | apply writes_numbers_call
    | apply writes_numbers_int
    | apply writes_numbers_float
    | apply writes_numbers_bind; [| intros ?] ].

Lemma query_filter_writes_numbers env topic max_sources quality_threshold
    include_gray_literature date_range mock_search_results :
  writes_numbers (query_filter_body env topic max_sources quality_threshold
                    include_gray_literature date_range mock_search_results).
Proof.
  unfold query_filter_body. writes_numbers.
  destruct mock_search_results as [[|r rs]|]; writes_numbers.
Qed.

Lemma retriever_summarizer_writes_numbers env topic expanded_queries top_k rerank_top_k :
  writes_numbers (retriever_summarizer_body env topic expanded_queries top_k rerank_top_k).
Proof.
  unfold retriever_summarizer_body. writes_numbers.
Qed.

(** A body that writes only numbers into [metrics] is contained: the
    constructor after the [try] accepts what it is given. *)
Lemma run_frame_contained name body time_ms :
  writes_numbers body -> contained body (run_frame lax_float name body time_ms).
Proof.
  intros Hb. unfold contained, run_frame.
  specialize (Hb [] (Forall_nil _)).
  destruct (body []) as [r m]. simpl in Hb |- *.
  destruct (validate_numeric m Hb) as [m' Hm'].
  unfold new_AgentOutput. rewrite Hm'.
  destruct r as [data | msg]; eexists; split; try reflexivity; simpl; auto.
Qed.

(** [QueryFilterAgent.run] never lets an exception out. *)
Lemma QueryFilterAgent_run_contained env topic max_sources quality_threshold
    include_gray_literature date_range mock_search_results :
  contained
    (query_filter_body env topic max_sources quality_threshold
       include_gray_literature date_range mock_search_results)
    (QueryFilterAgent_run lax_float env topic max_sources quality_threshold
       include_gray_literature date_range mock_search_results).
Proof. apply run_frame_contained, query_filter_writes_numbers. Qed.

(** [RetrieverSummarizerAgent.run] never lets an exception out. *)
Lemma RetrieverSummarizerAgent_run_contained env topic expanded_queries
    top_k rerank_top_k :
  contained
    (retriever_summarizer_body env topic expanded_queries top_k rerank_top_k)
    (RetrieverSummarizerAgent_run lax_float env topic expanded_queries
       top_k rerank_top_k).
Proof. apply run_frame_contained, retriever_summarizer_writes_numbers. Qed.

Lemma keeps_word_count_ret {A} (a : A) : keeps_word_count (ret a).
Proof. intros wc m H. now exists m. Qed.

Lemma keeps_word_count_call {A} (o : Outcome A) : keeps_word_count (call o).
Proof. intros wc m H. now exists m. Qed.

Lemma keeps_word_count_int k z :
  String.eqb k "word_count" = false -> keeps_word_count (set_metric k (VInt z)).
Proof.
  intros Hk wc m H. exists (Dict.set k (VInt z) m). simpl. rewrite Hk.
  split; auto. now apply numeric_set.
Qed.

Lemma keeps_word_count_bind {A B} (b : Body A) (k : A -> Body B) :
  keeps_word_count b -> (forall a, keeps_word_count (k a)) ->
  keeps_word_count (bind b k).
Proof.
  intros Hb Hk wc m Hm. unfold bind.
  destruct (Hb wc m Hm) as (m1 & H1 & Hn1).
  destruct (b (("word_count", wc) :: m)) as [[a | msg] m']; simpl in H1; subst m'.
  - now apply Hk.
  - now exists m1.
Qed.

Ltac keeps_word_count :=
  repeat first
    [ apply keeps_word_count_ret
    | apply keeps_word_count_call
    | apply keeps_word_count_int; reflexivity
    | apply keeps_word_count_bind; [| intros ?] ].

Lemma bind_call_eq {A B} (o : Outcome A) (k : A -> Body B) m :
  bind (call o) k m =
  match o with Ok a => k a m | Raise msg => (Raise msg, m) end.
Proof. unfold bind, call. now destruct o. Qed.

Lemma bind_set_metric_eq {B} key v (k : unit -> Body B) m :
  bind (set_metric key v) k m = k tt (Dict.set key v m).
Proof. reflexivity. Qed.



(** C10 fails for [FactCheckWriterAgent]: the language model answers with
    ["word_count": null]; the brief model refuses it inside the [try], the
    handler records the error, and then the [AgentOutput] constructor,
    which stands after the [try], refuses the metrics: [run] raises. *)
Theorem C10_fact_check_run_raises :
  fst (fact_check_writer_body null_word_count "topic" (VList []) (VDict []) [])
    = Raise "validation error for ResearchBrief" /\
  snd (fact_check_writer_body null_word_count "topic" (VList []) (VDict []) [])
    = [("word_count", VNone); ("claims_count", VInt 0); ("citations_count", VInt 0);
       ("risk_flags_count", VInt 0); ("traceability_entries", VInt 0)] /\
  FactCheckWriterAgent_run lax_float null_word_count "topic" (VList []) (VDict [])
    = Raise validation_error.
Proof. repeat split; reflexivity. Qed.

End AgentFacts.

(* --------------------------------------------------------------------- *)
(** ** More on [hybrid_fusion] and [rerank] *)
(* --------------------------------------------------------------------- *)

Section RetrievalProperties.
Import Ranking Fusion FusionSpec RetrievalSpec Agents.

Lemma length_first_seen l : (List.length (first_seen l) <= List.length l)%nat.
Proof.
  induction l as [|a l IH]; simpl; auto.
  pose proof (filter_length_le (fun y => negb (String.eqb y a)) (first_seen l)).
  lia.
Qed.

Lemma length_fused A B alpha :
  List.length (hybrid_fusion A B alpha)
    = List.length (first_seen (ids A ++ ids B)).
Proof.
  rewrite <- (length_map fused_doc_id).
  apply Permutation_length, hybrid_fusion_ids_perm.
Qed.

Lemma length_fused_le A B alpha :
  (List.length (hybrid_fusion A B alpha) <= List.length A + List.length B)%nat.
Proof.
  rewrite length_fused.
  pose proof (length_first_seen (ids A ++ ids B)) as Hl.
  rewrite length_app in Hl. unfold ids in Hl. rewrite !length_map in Hl.
  exact Hl.
Qed.

(** The fused list holds one entry per distinct identifier, hence never
    more entries than the two input lists have together. *)
Theorem hybrid_fusion_length A B alpha :
  List.length (hybrid_fusion A B alpha)
    = List.length (first_seen (ids A ++ ids B)) /\
  (List.length (hybrid_fusion A B alpha) <= List.length A + List.length B)%nat.
Proof.
  split; [apply length_fused | apply length_fused_le].
Qed.

Lemma source_of_set id k v ds :
  source_of id (Dict.set k v ds) =
  if String.eqb id k then Some (data_source v) else source_of id ds.
Proof.
  unfold source_of. rewrite get_set. now destruct (String.eqb id k).
Qed.

Lemma source_of_bm25_step id r a ds :
  source_of id (bm25_step r a ds) =
  match source_of id ds with
  | Some s => Some s
  | None => if String.eqb id (doc_id a) then Some (source a) else None
  end.
Proof.
  unfold bm25_step. rewrite source_of_set. unfold source_of.
  destruct (String.eqb id (doc_id a)) eqn:E.
  - apply String.eqb_eq in E. subst. now destruct (Dict.get (doc_id a) ds).
  - now destruct (Dict.get id ds).
Qed.

Lemma source_of_vector_step id r a ds :
  source_of id (vector_step r a ds) =
  match source_of id ds with
  | Some s => Some s
  | None => if String.eqb id (doc_id a) then Some (source a) else None
  end.
Proof.
  unfold vector_step. rewrite source_of_set. unfold source_of.
  destruct (String.eqb id (doc_id a)) eqn:E.
  - apply String.eqb_eq in E. subst. now destruct (Dict.get (doc_id a) ds).
  - now destruct (Dict.get id ds).
Qed.

Lemma source_of_loop step id rs :
  (forall r a ds,
     source_of id (step r a ds) =
     match source_of id ds with
     | Some s => Some s
     | None => if String.eqb id (doc_id a) then Some (source a) else None
     end) ->
  forall r ds,
  source_of id (enumerate_loop step r rs ds) =
  match source_of id ds with
  | Some s => Some s
  | None => option_map source (first_hit id rs)
  end.
Proof.
  intros Hstep. induction rs as [|a rs IH]; intros r ds; simpl.
  - now destruct (source_of id ds).
  - rewrite IH, Hstep. destruct (source_of id ds); auto.
    rewrite String.eqb_sym. now destruct (String.eqb (doc_id a) id).
Qed.

(** The payload an entry carries is the one of the identifier's first
    occurrence: in the keyword list when the identifier occurs there,
    otherwise in the vector list.  Later occurrences change the score (see
    C2) but never the payload. *)
Theorem hybrid_fusion_source A B alpha e :
  In e (hybrid_fusion A B alpha) ->
  Some (fused_source e) =
  match first_hit (fused_doc_id e) A with
  | Some r => Some (source r)
  | None => option_map source (first_hit (fused_doc_id e) B)
  end.
Proof.
  intros He. apply hybrid_fusion_In in He.
  unfold fused_unsorted in He. apply in_map_iff in He.
  destruct He as [[id data] [<- Hin]]. simpl.
  assert (Hget : Dict.get id (doc_scores_of A B) = Some data).
  { apply In_get; auto. rewrite keys_doc_scores_of. apply NoDup_first_seen. }
  assert (Hs : source_of id (doc_scores_of A B) = Some (data_source data)).
  { unfold source_of. now rewrite Hget. }
  rewrite <- Hs. unfold doc_scores_of.
  rewrite (source_of_loop vector_step id B (source_of_vector_step id)).
  rewrite (source_of_loop bm25_step id A (source_of_bm25_step id)).
  simpl. now destruct (first_hit id A).
Qed.

Lemma hybrid_fusion_source_witness :
  let A := [hit "doc1"] in
  let B := [{| doc_id := "doc1"; score := 0; source := [("title", "other")];
               retrieval_method := "vector" |}; hit "doc2"] in
  Forall (fun e => Some (fused_source e) =
                   match first_hit (fused_doc_id e) A with
                   | Some r => Some (source r)
                   | None => option_map source (first_hit (fused_doc_id e) B)
                   end)
         (hybrid_fusion A B (1#2)) /\
  map fused_source (hybrid_fusion A B (1#2))
    = [[("title", "doc1")]; [("title", "doc2")]].
Proof.
  intros A B. split; [| reflexivity].
  apply Forall_forall. intros e He.
  exact (hybrid_fusion_source A B (1#2) e He).
Defined.

Lemma slice_to_prefix {T} (n : Z) (l : list T) :
  exists dropped, l = slice_to n l ++ dropped /\
    List.length (slice_to n l) = slice_length n (List.length l).
Proof.
  unfold slice_to, slice_length. destruct (0 <=? n)%Z.
  - exists (skipn (Z.to_nat n) l). split.
    + symmetry. apply firstn_skipn.
    + apply length_firstn.
  - exists (skipn (List.length l - Z.to_nat (- n)) l). split.
    + symmetry. apply firstn_skipn.
    + rewrite length_firstn. lia.
Qed.

(** [rerank] keeps a prefix of the list it is given: its first [top_k]
    entries when [top_k] is not negative (all of them when there are fewer),
    and, for a negative [top_k], all but the last [-top_k] entries. *)
Theorem rerank_keeps_prefix results topic top_k :
  exists dropped,
    results = rerank results topic top_k ++ dropped /\
    List.length (rerank results topic top_k)
      = slice_length top_k (List.length results) /\
    ((0 <= top_k)%Z ->
       (List.length (rerank results topic top_k) <= Z.to_nat top_k)%nat) /\
    ((top_k < 0)%Z ->
       List.length dropped = Nat.min (Z.to_nat (- top_k)) (List.length results)).
Proof.
  unfold rerank. destruct (slice_to_prefix top_k results) as (dropped & Hd & Hl).
  exists dropped. split; [exact Hd |]. split; [exact Hl |].
  assert (Hlen : List.length results
                 = (List.length (slice_to top_k results) + List.length dropped)%nat).
  { rewrite Hd at 1. apply length_app. }
  rewrite Hl in *. unfold slice_length in *. split; intros H.
  - apply Z.leb_le in H. rewrite H. lia.
  - apply Z.leb_gt in H. rewrite H in Hlen. lia.
Qed.

Lemma StronglySorted_app_inv {T} (R : T -> T -> Prop) l1 l2 :
  StronglySorted R (l1 ++ l2) ->
  StronglySorted R l1 /\ StronglySorted R l2 /\
  forall x y, In x l1 -> In y l2 -> R x y.
Proof.
  induction l1 as [|a l1 IH]; simpl; intros H.
  - repeat split; [constructor | exact H | contradiction].
  - inversion H as [|? ? Hs Hall]; subst.
    destruct (IH Hs) as (H1 & H2 & H3).
    rewrite Forall_forall in Hall.
    repeat split; auto.
    + constructor; auto. rewrite Forall_forall. intros y Hy.
      apply Hall, in_or_app. now left.
    + intros x y [<- | Hx] Hy; auto.
      apply Hall, in_or_app. now right.
Qed.

(** What the agent hands on after fusion and [rerank]: documents with
    distinct identifiers, in descending order of combined score, and none
    of the documents left out scores higher than one that is kept. *)
Theorem rerank_keeps_the_best A B alpha topic top_k :
  let fused := hybrid_fusion A B alpha in
  let kept := rerank fused topic top_k in
  StronglySorted desc kept /\
  NoDup (map fused_doc_id kept) /\
  (forall e, In e kept -> In e fused) /\
  (forall e e', In e kept -> In e' fused -> ~ In e' kept ->
     hybrid_score e' <= hybrid_score e).
Proof.
  cbv zeta. unfold rerank.
  destruct (slice_to_prefix top_k (hybrid_fusion A B alpha))
    as (dropped & Hd & _).
  pose proof (sort_desc_sorted (fused_unsorted A B alpha)) as Hs.
  fold (hybrid_fusion A B alpha) in Hs.
  pose proof (hybrid_fusion_NoDup A B alpha) as Hn.
  rewrite Hd in Hs, Hn. rewrite map_app in Hn.
  destruct (StronglySorted_app_inv _ _ _ Hs) as (H1 & _ & H3).
  split; [exact H1 |]. split; [eapply NoDup_app_remove_r; eauto |]. split.
  - intros e He. rewrite Hd. apply in_or_app. now left.
  - intros e e' He He' Hne. rewrite Hd in He'.
    apply in_app_or in He'. destruct He' as [He' | He']; [contradiction |].
    now apply (H3 e e').
Qed.

Lemma retriever_run_inv lax_float env topic queries top_k rerank_top_k out :
  RetrieverSummarizerAgent_run lax_float env topic queries top_k rerank_top_k
    = Ok out ->
  Models.errors out = [] ->
  exists bm25 vec summary,
    bm25_search env queries top_k = Ok bm25 /\
    vector_search env queries top_k = Ok vec /\
    let fused := hybrid_fusion bm25 vec (1 # 2) in
    let reranked := rerank fused topic rerank_top_k in
    hierarchical_summarize env topic reranked = Ok summary /\
    Models.output_data out =
      [("retrieved_documents", Py.VList (map fused_value reranked));
       ("summary", summary); ("topic", Py.VStr topic)] /\
    Models.metrics out =
      [("bm25_results_count", inject_Z (len bm25));
       ("vector_results_count", inject_Z (len vec));
       ("fused_results_count", inject_Z (len fused));
       ("final_results_count", inject_Z (len reranked))].
Proof.
  unfold RetrieverSummarizerAgent_run, run_frame, retriever_summarizer_body.
  rewrite bind_call_eq.
  destruct (bm25_search env queries top_k) as [bm25 | msg] eqn:E1.
  2: { cbn. intros H; inversion H; subst. discriminate. }
  cbv beta iota. rewrite bind_set_metric_eq, bind_call_eq.
  destruct (vector_search env queries top_k) as [vec | msg] eqn:E2.
  2: { cbn. intros H; inversion H; subst. discriminate. }
  cbv beta iota zeta. rewrite !bind_set_metric_eq, bind_call_eq.
  destruct (hierarchical_summarize env topic
              (rerank (hybrid_fusion bm25 vec (1 # 2)) topic rerank_top_k))
    as [summary | msg] eqn:E3.
  2: { cbn. intros H; inversion H; subst. discriminate. }
  cbn. intros H _. inversion H; subst; clear H. cbn.
  exists bm25, vec, summary. repeat split; auto.
Qed.

(** A run of [RetrieverSummarizerAgent] that reports no error: both
    searches and the summary returned; the lists were fused at weight 0.5;
    the documents returned are the fused list cut by [rerank], and they are
    the documents the summary was made from; the four counts are in
    [metrics], and the counts can only go down from step to step. *)
Theorem RetrieverSummarizerAgent_run_success lax_float env topic queries
    top_k rerank_top_k out :
  RetrieverSummarizerAgent_run lax_float env topic queries top_k rerank_top_k
    = Ok out ->
  Models.errors out = [] ->
  exists bm25 vec summary,
    bm25_search env queries top_k = Ok bm25 /\
    vector_search env queries top_k = Ok vec /\
    let fused := hybrid_fusion bm25 vec (1 # 2) in
    let reranked := rerank fused topic rerank_top_k in
    hierarchical_summarize env topic reranked = Ok summary /\
    Models.output_data out =
      [("retrieved_documents", Py.VList (map fused_value reranked));
       ("summary", summary); ("topic", Py.VStr topic)] /\
    Models.metrics out =
      [("bm25_results_count", inject_Z (len bm25));
       ("vector_results_count", inject_Z (len vec));
       ("fused_results_count", inject_Z (len fused));
       ("final_results_count", inject_Z (len reranked))] /\
    (len reranked <= len fused <= len bm25 + len vec)%Z.
Proof.
  intros Hrun Herr.
  destruct (retriever_run_inv _ _ _ _ _ _ _ Hrun Herr)
    as (bm25 & vec & summary & H1 & H2 & H3 & H4 & H5).
  exists bm25, vec, summary. cbv zeta in *.
  split; [exact H1 |]. split; [exact H2 |]. split; [exact H3 |].
  split; [exact H4 |]. split; [exact H5 |]. split.
  - unfold rerank.
    destruct (slice_to_prefix rerank_top_k (hybrid_fusion bm25 vec (1#2)))
      as (dropped & Hd & _).
    unfold len. apply inj_le. rewrite Hd at 2. rewrite length_app. lia.
  - pose proof (length_fused_le bm25 vec (1#2)) as Hl.
    unfold len. lia.
Qed.

Lemma RetrieverSummarizerAgent_run_success_witness :
  let env := AgentScenarios.retrieval_succeeds in
  exists out,
    RetrieverSummarizerAgent_run AgentScenarios.no_lax env "diabetes"
      (Py.VList [Py.VStr "diabetes"]) 20 2 = Ok out /\
    Models.errors out = [] /\
    Models.metrics out =
      [("bm25_results_count", 2); ("vector_results_count", 2);
       ("fused_results_count", 3); ("final_results_count", 2)] /\
    exists bm25 vec summary,
      bm25_search env (Py.VList [Py.VStr "diabetes"]) 20 = Ok bm25 /\
      vector_search env (Py.VList [Py.VStr "diabetes"]) 20 = Ok vec /\
      let fused := hybrid_fusion bm25 vec (1 # 2) in
      let reranked := rerank fused "diabetes" 2 in
      hierarchical_summarize env "diabetes" reranked = Ok summary /\
      Models.output_data out =
        [("retrieved_documents", Py.VList (map fused_value reranked));
         ("summary", summary); ("topic", Py.VStr "diabetes")] /\
      Models.metrics out =
        [("bm25_results_count", inject_Z (len bm25));
         ("vector_results_count", inject_Z (len vec));
         ("fused_results_count", inject_Z (len fused));
         ("final_results_count", inject_Z (len reranked))] /\
      (len reranked <= len fused <= len bm25 + len vec)%Z.
Proof.
  intros env. eexists.
  split; [reflexivity |]. split; [reflexivity |]. split; [reflexivity |].
  apply (RetrieverSummarizerAgent_run_success AgentScenarios.no_lax env
           "diabetes" (Py.VList [Py.VStr "diabetes"]) 20 2); reflexivity.
Defined.

End RetrievalProperties.

(* --------------------------------------------------------------------- *)
(** ** [QueryFilterAgent]: vetting in chunks *)
(* --------------------------------------------------------------------- *)

Section VettingProperties.
Import Py Agents Vetting.

Lemma firstn_add {T} (n m : nat) (l : list T) :
  firstn (n + m) l = firstn n l ++ firstn m (skipn n l).
Proof.
  revert l. induction n as [|n IH]; intros l; simpl; auto.
  destruct l as [|a l]; simpl.
  - now rewrite firstn_nil.
  - now rewrite IH.
Qed.

Lemma concat_slices {T} (s : nat) (l : list T) : forall k a,
  List.concat (map (fun i => firstn s (skipn i l))
              (map (fun j => (j * s)%nat) (seq a k)))
  = firstn (k * s) (skipn (a * s) l).
Proof.
  induction k as [|k IH]; intros a; [reflexivity |].
  cbn [seq map List.concat]. rewrite IH.
  replace (S k * s)%nat with (s + k * s)%nat by lia.
  rewrite firstn_add, skipn_skipn.
  now replace (s + a * s)%nat with (S a * s)%nat by lia.
Qed.

Lemma ceil_div_bounds n s :
  (0 < s)%nat ->
  (n <= ((n + s - 1) / s) * s)%nat /\
  (n = 0 \/ ((n + s - 1) / s - 1) * s < n)%nat.
Proof.
  intros Hs.
  pose proof (Nat.div_mod_eq (n + s - 1) s) as Hdm.
  pose proof (Nat.mod_upper_bound (n + s - 1) s ltac:(lia)) as Hmod.
  split; [nia |].
  destruct n as [|n]; [now left | right]. nia.
Qed.

(** Vetting sends every search result to the language model exactly once:
    the chunks, in order, make up the list again; each holds between one
    and ten results; there are as many chunks (hence calls) as tens, rounded
    up, and none at all for an empty list. *)
Theorem chunks_cover {T} (l : list T) :
  List.concat (chunks l) = l /\
  Forall (fun c => (1 <= List.length c <= 10)%nat) (chunks l) /\
  List.length (chunks l) = ((List.length l + 9) / 10)%nat.
Proof.
  unfold chunks, range_step, chunk_size.
  replace (List.length l + 10 - 1)%nat with (List.length l + 9)%nat by lia.
  pose proof (ceil_div_bounds (List.length l) 10 ltac:(lia)) as [Hup Hlow].
  replace (List.length l + 10 - 1)%nat with (List.length l + 9)%nat in * by lia.
  split; [| split].
  - rewrite concat_slices. simpl skipn. apply firstn_all2. exact Hup.
  - rewrite Forall_forall. intros c Hc.
    apply in_map_iff in Hc. destruct Hc as (i & <- & Hi).
    apply in_map_iff in Hi. destruct Hi as (k & <- & Hk).
    apply in_seq in Hk. rewrite length_firstn, length_skipn.
    destruct Hlow as [H0 | Hlow].
    + rewrite H0 in Hk. simpl in Hk. lia.
    + assert (k * 10 <= ((List.length l + 9) / 10 - 1) * 10)%nat by nia.
      lia.
  - now rewrite !length_map, length_seq.
Qed.

Lemma kept_passes threshold r :
  kept threshold r = Ok true -> passes threshold r.
Proof.
  unfold kept, passes. destruct r; simpl; try discriminate.
  destruct (truthy (Py.get "keep" (VBool false) d)) eqn:K; [| discriminate].
  unfold mean_score.
  destruct (number (Py.get "relevance_score" (VInt 0) d)) as [x|] eqn:X.
  - destruct (number (Py.get "credibility_score" (VInt 0) d)) as [y|] eqn:Y.
    + intros H. injection H as Hle. apply Qle_bool_iff in Hle.
      exists d, x, y. auto.
    + destruct (Py.get "relevance_score" (VInt 0) d),
               (Py.get "credibility_score" (VInt 0) d); discriminate.
  - destruct (Py.get "relevance_score" (VInt 0) d),
             (Py.get "credibility_score" (VInt 0) d); discriminate.
Qed.

Lemma kept_threshold t1 t2 r b1 :
  kept t1 r = Ok b1 -> t1 <= t2 ->
  exists b2, kept t2 r = Ok b2 /\ (b2 = true -> b1 = true).
Proof.
  unfold kept. destruct (py_get r "keep" (VBool false)) as [keep|]; [| discriminate].
  destruct (truthy keep); [| intros H _; exists false; split; [auto | discriminate]].
  destruct (py_get r "relevance_score" (VInt 0)) as [a|]; [| discriminate].
  destruct (py_get r "credibility_score" (VInt 0)) as [b|]; [| discriminate].
  destruct (mean_score a b) as [m|]; [| discriminate].
  intros H Hle. injection H as <-. eexists. split; [reflexivity |].
  intros H2. apply Qle_bool_iff in H2. apply Qle_bool_iff.
  eapply Qle_trans; eauto.
Qed.

Lemma filter_kept_passes threshold l : forall filtered,
  filter_kept threshold l = Ok filtered ->
  Forall (passes threshold) filtered /\ incl filtered l.
Proof.
  induction l as [|r l IH]; simpl; intros filtered H.
  - inversion H. split; [constructor | apply incl_refl].
  - destruct (kept threshold r) as [b|] eqn:K; [| discriminate].
    destruct (filter_kept threshold l) as [rest|]; [| discriminate].
    destruct (IH rest eq_refl) as [Hp Hi]. inversion H; subst.
    destruct b.
    + split; [constructor; auto; now apply kept_passes |].
      intros x [<- | Hx]; [now left | right; auto].
    + split; auto. intros x Hx. right. auto.
Qed.

Lemma filter_kept_threshold t1 t2 l : forall f1,
  filter_kept t1 l = Ok f1 -> t1 <= t2 ->
  exists f2, filter_kept t2 l = Ok f2 /\ incl f2 f1.
Proof.
  induction l as [|r l IH]; simpl; intros f1 H Hle.
  - inversion H. exists []. split; [auto | apply incl_refl].
  - destruct (kept t1 r) as [b1|] eqn:K; [| discriminate].
    destruct (filter_kept t1 l) as [rest1|]; [| discriminate].
    destruct (kept_threshold _ _ _ _ K Hle) as (b2 & K2 & Hb).
    destruct (IH rest1 eq_refl Hle) as (rest2 & H2 & Hi).
    rewrite K2, H2. inversion H; subst. eexists. split; [reflexivity |].
    destruct b2.
    + rewrite Hb by reflexivity.
      intros x [<- | Hx]; [now left | right; auto].
    + destruct b1; [apply incl_tl |]; assumption.
Qed.

Lemma vet_results_passes vet topic search_results threshold filtered :
  vet_results vet topic search_results threshold = Ok filtered ->
  Forall (passes threshold) filtered.
Proof.
  unfold vet_results.
  destruct (vet_chunks (vet topic) (chunks search_results) []) as [vetted_all|];
    [| discriminate].
  intros H. now apply (filter_kept_passes threshold vetted_all).
Qed.

(** What vetting lets through: every result returned is a dictionary the
    language model flagged to keep, whose two scores are numbers with a mean
    at or above the threshold.  Raising the threshold never lets in a result
    that the lower threshold kept out, and never turns a vetting that
    succeeded into one that raises. *)
Theorem vet_results_sound vet topic search_results threshold filtered :
  vet_results vet topic search_results threshold = Ok filtered ->
  Forall (passes threshold) filtered /\
  (forall stricter, threshold <= stricter ->
     exists fewer,
       vet_results vet topic search_results stricter = Ok fewer /\
       incl fewer filtered).
Proof.
  unfold vet_results.
  destruct (vet_chunks (vet topic) (chunks search_results) []) as [vetted_all|];
    [| discriminate].
  intros H. split.
  - now apply (filter_kept_passes threshold vetted_all).
  - intros stricter Hle. now apply (filter_kept_threshold threshold).
Qed.

Lemma vet_results_sound_witness :
  let results := map VInt [1; 2; 3; 4; 5; 6; 7; 8; 9; 10; 11; 12]%Z in
  List.length (chunks results) = 2%nat /\
  (exists filtered,
     vet_results (vets_all (9 # 10) (7 # 10)) "topic" results (7 # 10) = Ok filtered /\
     List.length filtered = 12%nat /\
     Forall (passes (7 # 10)) filtered) /\
  vet_results (vets_all (9 # 10) (7 # 10)) "topic" results (9 # 10) = Ok [].
Proof.
  intros results. split; [reflexivity |]. split; [| reflexivity].
  eexists. split; [reflexivity |]. split; [reflexivity |].
  eapply (proj1 (vet_results_sound (vets_all (9 # 10) (7 # 10)) "topic"
                   results (7 # 10) _ _)).
  Unshelve. reflexivity.
Defined.

End VettingProperties.

(* --------------------------------------------------------------------- *)
(** ** The agents' successful runs and the hand-over between stages *)
(* --------------------------------------------------------------------- *)

Section HandOver.
Import Py Models Fusion Agents Vetting Activities.
Variable lax_float : Value -> option Q.

Ltac caught :=
  cbn; let H := fresh in intros H; injection H as <-; cbn; discriminate.

Lemma slice_to_incl {T} (n : Z) (l : list T) : incl (slice_to n l) l.
Proof.
  destruct (slice_to_prefix n l) as (dropped & Hd & _).
  intros x Hx. rewrite Hd. apply in_or_app. now left.
Qed.

Lemma slice_to_length {T} (n : Z) (l : list T) :
  (0 <= n)%Z -> (Z.of_nat (List.length (slice_to n l)) <= n)%Z.
Proof.
  intros Hn. destruct (slice_to_prefix n l) as (dropped & _ & Hl).
  rewrite Hl. unfold RetrievalSpec.slice_length.
  apply Z.leb_le in Hn. rewrite Hn. apply Z.leb_le in Hn. lia.
Qed.

Lemma query_filter_run_inv env topic max_sources quality_threshold
    include_gray_literature date_range mock_search_results out :
  QueryFilterAgent_run lax_float env topic max_sources quality_threshold
    include_gray_literature date_range mock_search_results = Ok out ->
  errors out = [] ->
  exists d vetted,
    expand_query env topic date_range include_gray_literature = Ok (VDict d) /\
    match mock_search_results with
    | Some (r :: rs) =>
        Agents.vet_results env topic (r :: rs) quality_threshold = Ok vetted
    | _ => vetted = []
    end /\
    output_data out =
      [("expansion", VDict d);
       ("vetted_results", VList (slice_to max_sources vetted));
       ("topic", VStr topic)].
Proof.
  unfold QueryFilterAgent_run, run_frame, query_filter_body.
  rewrite bind_call_eq.
  destruct (expand_query env topic date_range include_gray_literature)
    as [expansion | msg] eqn:E1; [| caught].
  cbv beta iota. rewrite bind_call_eq.
  destruct expansion as [| b | z | q | s | l | d]; try caught.
  cbv beta iota delta [py_get]. rewrite bind_call_eq.
  destruct (py_len (Py.get "expanded_queries" (VList []) d)) as [n1 | msg];
    [| caught].
  cbv beta iota. rewrite bind_set_metric_eq, !bind_call_eq.
  cbv beta iota.
  destruct (py_len (Py.get "mesh_terms" (VList []) d)) as [n2 | msg];
    [| caught].
  cbv beta iota. rewrite bind_set_metric_eq.
  destruct mock_search_results as [[|r rs]|].
  - cbn. intros H _. injection H as H. subst out. cbn.
    exists d, []. auto.
  - cbv zeta. unfold bind at 1. rewrite bind_call_eq.
    destruct (Agents.vet_results env topic (r :: rs) quality_threshold)
      as [vetted | msg] eqn:V; [| caught].
    cbn. intros H _. injection H as H. subst out. cbn.
    exists d, vetted. auto.
  - cbn. intros H _. injection H as H. subst out. cbn.
    exists d, []. auto.
Qed.

(** A run of [QueryFilterAgent] that reports no error: the language model's
    expansion is a dictionary and is returned as it came; the vetted results
    returned all pass the quality threshold and are no more than
    [max_sources] (when that is not negative); without search results to
    vet there are none. *)
Theorem QueryFilterAgent_run_success expand vet time_ms topic max_sources
    quality_threshold include_gray_literature date_range mock_search_results out :
  QueryFilterAgent_run lax_float (query_filter_env expand vet time_ms)
    topic max_sources quality_threshold include_gray_literature date_range
    mock_search_results = Ok out ->
  errors out = [] ->
  exists d vetted,
    expand topic date_range include_gray_literature = Ok (VDict d) /\
    output_data out =
      [("expansion", VDict d); ("vetted_results", VList vetted);
       ("topic", VStr topic)] /\
    Forall (passes quality_threshold) vetted /\
    ((0 <= max_sources)%Z -> (len vetted <= max_sources)%Z) /\
    (mock_search_results = None \/ mock_search_results = Some [] -> vetted = []).
Proof.
  intros Hrun Herr.
  destruct (query_filter_run_inv _ _ _ _ _ _ _ _ Hrun Herr)
    as (d & vetted & He & Hv & Ho).
  cbn [expand_query Agents.vet_results query_filter_env] in He, Hv.
  exists d, (slice_to max_sources vetted).
  split; [exact He |]. split; [exact Ho |].
  assert (Hp : Forall (passes quality_threshold) vetted).
  { destruct mock_search_results as [[|r rs]|];
      [subst; constructor | | subst; constructor].
    now apply (vet_results_passes vet topic (r :: rs)). }
  split; [| split].
  - rewrite Forall_forall in *. intros x Hx. apply Hp.
    now apply (slice_to_incl max_sources).
  - apply slice_to_length.
  - assert (E : slice_to max_sources (@nil Value) = []).
    { apply incl_l_nil, slice_to_incl. }
    intros [-> | ->]; subst vetted; exact E.
Qed.

Lemma retriever_summarizer_args_ok request d :
  retriever_summarizer_args
    [("topic", Py.get "topic" VNone request);
     ("expansion", VDict d);
     ("top_k", Py.get "max_sources" (VInt 15) request)] =
  Ok (Py.get "topic" VNone request,
      Py.get "expanded_queries" (VList [Py.get "topic" VNone request]) d,
      Py.get "max_sources" (VInt 15) request).
Proof. reflexivity. Qed.

(** From stage 1 to stage 2.  When [QueryFilterAgent.run] reported no
    error, the input the workflow builds for stage 2 holds the request's
    topic, the language model's expansion and, as [top_k], the request's
    [max_sources] (15 when the request has none); the vetted results are not
    part of it.  On that input the stage-2 activity reads its arguments
    without raising: it searches for the expansion's ["expanded_queries"],
    or for the topic alone when the expansion has none, and its own default
    of 20 for [top_k] is never used. *)
Theorem stage1_hands_over request env topic max_sources quality_threshold
    include_gray_literature date_range mock_search_results out :
  QueryFilterAgent_run lax_float env topic max_sources quality_threshold
    include_gray_literature date_range mock_search_results = Ok out ->
  errors out = [] ->
  exists d,
    expand_query env topic date_range include_gray_literature = Ok (VDict d) /\
    ResearchWorkflow.agent2_input request out =
      [("topic", Py.get "topic" VNone request);
       ("expansion", VDict d);
       ("top_k", Py.get "max_sources" (VInt 15) request)] /\
    retriever_summarizer_args (ResearchWorkflow.agent2_input request out) =
      Ok (Py.get "topic" VNone request,
          Py.get "expanded_queries" (VList [Py.get "topic" VNone request]) d,
          Py.get "max_sources" (VInt 15) request).
Proof.
  intros Hrun Herr.
  destruct (query_filter_run_inv _ _ _ _ _ _ _ _ Hrun Herr)
    as (d & vetted & He & _ & Ho).
  exists d. split; [exact He |].
  assert (Hin : ResearchWorkflow.agent2_input request out =
                [("topic", Py.get "topic" VNone request);
                 ("expansion", VDict d);
                 ("top_k", Py.get "max_sources" (VInt 15) request)]).
  { unfold ResearchWorkflow.agent2_input. now rewrite Ho. }
  split; [exact Hin |]. rewrite Hin. apply retriever_summarizer_args_ok.
Qed.

(** From stage 2 to stage 3.  When [RetrieverSummarizerAgent.run] reported
    no error, the stage-3 activity calls [FactCheckWriterAgent.run] with the
    request's topic, with the fused documents that [rerank] kept, in their
    order, and with the summary that was made from those same documents. *)
Theorem stage2_hands_over request env topic queries top_k rerank_top_k out :
  RetrieverSummarizerAgent_run lax_float env topic queries top_k rerank_top_k
    = Ok out ->
  errors out = [] ->
  exists bm25 vec summary,
    bm25_search env queries top_k = Ok bm25 /\
    vector_search env queries top_k = Ok vec /\
    let docs := rerank (hybrid_fusion bm25 vec (1 # 2)) topic rerank_top_k in
    hierarchical_summarize env topic docs = Ok summary /\
    fact_check_writer_args (ResearchWorkflow.agent3_input request out) =
      (Py.get "topic" VNone request, VList (map fused_value docs), summary).
Proof.
  intros Hrun Herr.
  destruct (retriever_run_inv _ _ _ _ _ _ _ Hrun Herr)
    as (bm25 & vec & summary & H1 & H2 & H3 & H4 & _).
  exists bm25, vec, summary. cbv zeta in *.
  split; [exact H1 |]. split; [exact H2 |]. split; [exact H3 |].
  unfold fact_check_writer_args, ResearchWorkflow.agent3_input.
  rewrite H4. reflexivity.
Qed.

End HandOver.

Section HandOverScenarios.
Import Py Models Fusion Agents Vetting Activities.

Lemma QueryFilterAgent_run_success_witness :
  let env := query_filter_env expands (vets_all (9 # 10) (7 # 10)) 12 in
  let found := Some (map VInt [1; 2; 3; 4; 5; 6; 7; 8; 9; 10; 11; 12]%Z) in
  exists out,
    QueryFilterAgent_run AgentScenarios.no_lax env "diabetes" 5 (7 # 10) false None
      found = Ok out /\
    errors out = [] /\
    metrics out =
      [("expanded_queries_count", 2); ("mesh_terms_count", 1);
       ("results_before_vetting", 12); ("results_after_vetting", 12);
       ("vetting_filter_rate", 1 - 12 / 12)] /\
    exists d vetted,
      expands "diabetes" None false = Ok (VDict d) /\
      output_data out =
        [("expansion", VDict d); ("vetted_results", VList vetted);
         ("topic", VStr "diabetes")] /\
      Forall (passes (7 # 10)) vetted /\
      ((0 <= 5)%Z -> (len vetted <= 5)%Z) /\
      (found = None \/ found = Some [] -> vetted = []).
Proof.
  intros env found. eexists.
  split; [reflexivity |]. split; [reflexivity |]. split; [reflexivity |].
  apply (QueryFilterAgent_run_success AgentScenarios.no_lax expands
           (vets_all (9 # 10) (7 # 10)) 12 "diabetes" 5 (7 # 10) false None found);
    reflexivity.
Defined.

Lemma stage1_hands_over_witness :
  let env := query_filter_env expands (vets_all (9 # 10) (7 # 10)) 12 in
  let request := Scenarios.request1 in
  exists out,
    QueryFilterAgent_run AgentScenarios.no_lax env
      "diabetes management in elderly patients" 15 (7 # 10) false None None
      = Ok out /\
    errors out = [] /\
    retriever_summarizer_args (ResearchWorkflow.agent2_input request out) =
      Ok (VStr "diabetes management in elderly patients",
          VList [VStr "diabetes management in elderly patients management";
                 VStr "diabetes management in elderly patients treatment"],
          VInt 15) /\
    exists d,
      expand_query env "diabetes management in elderly patients" None false
        = Ok (VDict d) /\
      ResearchWorkflow.agent2_input request out =
        [("topic", Py.get "topic" VNone request);
         ("expansion", VDict d);
         ("top_k", Py.get "max_sources" (VInt 15) request)] /\
      retriever_summarizer_args (ResearchWorkflow.agent2_input request out) =
        Ok (Py.get "topic" VNone request,
            Py.get "expanded_queries" (VList [Py.get "topic" VNone request]) d,
            Py.get "max_sources" (VInt 15) request).
Proof.
  intros env request. eexists.
  split; [reflexivity |]. split; [reflexivity |]. split; [reflexivity |].
  apply (stage1_hands_over AgentScenarios.no_lax request env
           "diabetes management in elderly patients" 15 (7 # 10) false None None);
    reflexivity.
Defined.

Lemma stage2_hands_over_witness :
  let env := AgentScenarios.retrieval_succeeds in
  let request := Scenarios.request1 in
  exists out,
    RetrieverSummarizerAgent_run AgentScenarios.no_lax env "diabetes"
      (VList [VStr "diabetes"]) 15 2 = Ok out /\
    errors out = [] /\
    exists bm25 vec summary,
      bm25_search env (VList [VStr "diabetes"]) 15 = Ok bm25 /\
      vector_search env (VList [VStr "diabetes"]) 15 = Ok vec /\
      let docs := rerank (hybrid_fusion bm25 vec (1 # 2)) "diabetes" 2 in
      hierarchical_summarize env "diabetes" docs = Ok summary /\
      fact_check_writer_args (ResearchWorkflow.agent3_input request out) =
        (Py.get "topic" VNone request, VList (map fused_value docs), summary).
Proof.
  intros env request. eexists.
  split; [reflexivity |]. split; [reflexivity |].
  apply (stage2_hands_over AgentScenarios.no_lax request env "diabetes"
           (VList [VStr "diabetes"]) 15 2); reflexivity.
Defined.

End HandOverScenarios.

(* --------------------------------------------------------------------- *)
(** ** The pipeline as a whole *)
(* --------------------------------------------------------------------- *)

Section PipelineProperties.
Import Py Models Temporal ResearchWorkflow WorkflowSpec PipelineSpec.

Lemma segment_yields a input t rp n evs v :
  segment a input t rp n evs (Some v) ->
  exists e, In e evs /\ ev_result e = Returned v.
Proof.
  intros H. remember (Some v) as r eqn:Hr.
  induction H as [n | n v0 | n msg evs r Hs IH].
  - discriminate.
  - injection Hr as ->. eexists. split; [left; reflexivity | reflexivity].
  - destruct (IH Hr) as (e & Hin & He). exists e. split; [right |]; auto.
Qed.

Lemma segment_succeeded a input t rp evs out h :
  segment a input t rp 0 evs (Some (inl out)) ->
  has_errors out = false ->
  incl evs h ->
  succeeded a out h.
Proof.
  intros Hs Herr Hincl.
  destruct (segment_yields _ _ _ _ _ _ _ Hs) as (e & Hin & He).
  pose proof (segment_event _ _ _ _ _ _ _ _ Hs Hin) as (Ha & _).
  exists e. repeat split; auto.
  unfold has_errors in Herr. now destruct (errors out).
Qed.

Lemma segment_acknowledged input t rp evs ack h :
  segment save_research_result_activity input t rp 0 evs (Some (inr ack)) ->
  incl evs h ->
  acknowledged input ack h.
Proof.
  intros Hs Hincl.
  destruct (segment_yields _ _ _ _ _ _ _ Hs) as (e & Hin & He).
  pose proof (segment_event _ _ _ _ _ _ _ _ Hs Hin) as (Ha & Hi & _).
  exists e. repeat split; auto.
Qed.

(** An attempt that raised, in a call that yields a value, is not the
    call's last attempt. *)
Lemma segment_raised_lt a input t rp n evs v e msg :
  segment a input t rp n evs (Some v) -> In e evs ->
  ev_result e = Raised msg ->
  (ev_attempt e < n + List.length evs)%nat.
Proof.
  intros H. remember (Some v) as r eqn:Hr.
  induction H as [n | n v0 | n msg0 evs r Hs IH]; intros Hin Hres.
  - contradiction.
  - destruct Hin as [<- | []]. discriminate Hres.
  - subst r. destruct Hin as [<- | Hin].
    + simpl. destruct (segment_yields _ _ _ _ _ _ _ Hs) as (e0 & Hin0 & _).
      destruct evs; [contradiction | simpl; lia].
    + specialize (IH eq_refl Hin Hres). simpl. lia.
Qed.

Ltac in_history :=
  let x := fresh in let Hx := fresh in
  intros x Hx; rewrite ?in_app_iff; tauto.

Ltac split_history :=
  repeat match goal with
         | H : In _ (_ ++ _) |- _ => apply in_app_or in H; destruct H as [H | H]
         end.

Ltac stage_succeeded :=
  match goal with
  | Hs : segment ?a _ _ _ _ ?evs (Some (inl ?out)), He : has_errors ?out = false
    |- succeeded ?a ?out _ =>
      apply (segment_succeeded _ _ _ _ _ _ _ Hs He); in_history
  end.

Lemma shape_threads request db0 r h d e :
  run_shape request db0 r h d -> In e h ->
  fed_by_earlier_stages request h e.
Proof.
  intros Hshape Hin. unfold fed_by_earlier_stages.
  inversion Hshape; subst; split_history;
    match goal with
    | Hs : segment _ _ _ _ _ ?evs _, Hi : In e ?evs |- _ =>
        pose proof (segment_event _ _ _ _ _ _ _ _ Hs Hi) as (Fa & Fi & _);
        rewrite Fa, Fi
    end;
    first
      [ reflexivity
      | eexists; split; [| reflexivity]; stage_succeeded
      | do 3 eexists; split; [| split; [| split; [| reflexivity]]];
        stage_succeeded ].
Qed.

(** Every attempt of every activity runs on what the code builds for it:
    stage 1 on the request; stage 2 on the input made from an output that
    stage 1 returned without errors; stage 3 likewise from stage 2; and the
    save activity on the completed result made of the three error-free
    outputs.  No activity ever runs on the output of a stage that failed or
    did not return. *)
Theorem workflow_threads_outputs request w db0 e :
  let res := run request w (start db0) in
  In e (history (snd res)) ->
  fed_by_earlier_stages request (history (snd res)) e.
Proof.
  cbv zeta. intros Hin.
  pose proof (run_has_shape request w db0) as Hshape. cbv zeta in Hshape.
  eapply shape_threads; eauto.
Qed.

Lemma workflow_threads_outputs_witness :
  let res := run Scenarios.request1 Scenarios.all_succeed (start Scenarios.db1) in
  map (fun e => (stage_index (ev_activity e), ev_attempt e)) (history (snd res))
    = [(1, 1); (2, 1); (3, 1); (4, 1); (4, 2)]%nat /\
  Forall (fed_by_earlier_stages Scenarios.request1 (history (snd res)))
         (history (snd res)).
Proof.
  cbv zeta. split; [reflexivity |].
  apply Forall_forall. intros e Hin.
  exact (workflow_threads_outputs Scenarios.request1 Scenarios.all_succeed
           Scenarios.db1 e Hin).
Defined.

Lemma shape_outcome request db0 h d result :
  run_shape request db0 (Some result) h d ->
  failed_outcome h result \/ completed_outcome request h result.
Proof.
  intros Hshape.
  inversion Hshape; subst;
    try match goal with
        | Hs : segment ?a _ _ _ _ ?evs (Some (inl ?out)),
          He : has_errors ?out = true |- _ =>
            left;
            destruct (segment_yields _ _ _ _ _ _ _ Hs) as (e & Hin & Hres);
            pose proof (segment_event _ _ _ _ _ _ _ _ Hs Hin) as (Fa & _);
            exists e, out; rewrite Fa;
            split; [rewrite ?in_app_iff; tauto |];
            split; [split; [exact Hres | now apply has_errors_iff] | reflexivity]
        end.
  destruct ack as [ack|]; [| discriminate].
  match goal with H : Some _ = Some result |- _ => injection H as <- end.
  right. exists out1, out2, out3, ack.
  split; [stage_succeeded |]. split; [stage_succeeded |].
  split; [stage_succeeded |]. split; [reflexivity |].
  match goal with
  | Hs : segment save_research_result_activity _ _ _ _ _ _ |- _ =>
      apply (segment_acknowledged _ _ _ _ _ _ Hs); in_history
  end.
Qed.

(** What a run returns, when it returns: either the failed outcome that
    cites a stage whose attempt returned errors, or the completed outcome
    made of three outputs returned without errors, and then only after an
    attempt of the save activity on that outcome returned.  What the save
    activity acknowledged plays no part: the outcome is "completed" also when
    the acknowledgement says that nothing was saved. *)
Theorem workflow_outcome request w db0 result :
  let res := run request w (start db0) in
  fst res = Some result ->
  failed_outcome (history (snd res)) result \/
  completed_outcome request (history (snd res)) result.
Proof.
  cbv zeta. intros Hres.
  pose proof (run_has_shape request w db0) as Hshape. cbv zeta in Hshape.
  rewrite Hres in Hshape. eapply shape_outcome; eauto.
Qed.

Lemma workflow_outcome_witness :
  let res := run Scenarios.request1 PipelineScenarios.save_faults
               (start Scenarios.db1) in
  exists result,
    fst res = Some result /\
    Py.get "status" VNone result = VStr "completed" /\
    acknowledged (save_input Scenarios.request1 result)
      [("success", VBool false); ("error", VStr "connection refused")]
      (history (snd res)) /\
    map status (db (snd res)) = [VStr "processing"; VStr "processing"] /\
    (failed_outcome (history (snd res)) result \/
     completed_outcome Scenarios.request1 (history (snd res)) result).
Proof.
  cbv zeta. eexists. split; [reflexivity |]. split; [reflexivity |].
  split.
  { eexists. split; [right; right; right; left; reflexivity |].
    repeat split; reflexivity. }
  split; [reflexivity |].
  apply (workflow_outcome Scenarios.request1 PipelineScenarios.save_faults
           Scenarios.db1). reflexivity.
Defined.

Lemma history_record e st : history (record e st) = history st ++ [e].
Proof. reflexivity. Qed.

(** A call under the workflow's policy that yields nothing has added the
    three raised attempts to the history. *)
Lemma attempts_exhausted {A} (f : A -> Result) attempt a input t st :
  (forall k s, history (snd (attempt k s)) = history s) ->
  let res := attempts attempt
               (fun k o => event_of a input t retry_policy k (attempt_map f o))
               0 3 st in
  fst res = None ->
  exists m1 m2 m3,
    history (snd res) =
      history st ++ [event_of a input t retry_policy 1 (Raised m1);
                     event_of a input t retry_policy 2 (Raised m2);
                     event_of a input t retry_policy 3 (Raised m3)].
Proof.
  intros Hpres. cbv zeta. cbn [attempts].
  pose proof (Hpres 1%nat st) as H1.
  destruct (attempt 1%nat st) as [[m1 | v1] s1]; [| discriminate].
  cbn [snd] in H1.
  pose proof (Hpres 2%nat (record (event_of a input t retry_policy 1
                                     (attempt_map f (Raised m1))) s1)) as H2.
  destruct (attempt 2%nat _) as [[m2 | v2] s2]; [| discriminate].
  cbn [snd] in H2.
  pose proof (Hpres 3%nat (record (event_of a input t retry_policy 2
                                     (attempt_map f (Raised m2))) s2)) as H3.
  destruct (attempt 3%nat _) as [[m3 | v3] s3]; [| discriminate].
  cbn [snd] in H3. intros _. exists m1, m2, m3.
  cbn [snd attempt_map]. rewrite history_record, H3, history_record, H2,
    history_record, H1.
  now rewrite <- !app_assoc.
Qed.

Lemma execute_activity_exhausted a input t w st :
  fst (execute_activity a input t retry_policy w st) = None ->
  ends_exhausted (history (snd (execute_activity a input t retry_policy w st))).
Proof.
  unfold execute_activity. cbn [attempts_allowed retry_policy maximum_attempts].
  intros H.
  destruct (attempts_exhausted (A := AgentOutput) inl
              (fun n st => (stage_attempt w a input n, st)) a input t st
              (fun _ _ => eq_refl) H) as (m1 & m2 & m3 & Hh).
  exists a, input, t, m1, m2, m3, (history st). exact Hh.
Qed.

Lemma execute_save_exhausted input t w st :
  fst (execute_save input t retry_policy w st) = None ->
  ends_exhausted (history (snd (execute_save input t retry_policy w st))).
Proof.
  unfold execute_save. cbn [attempts_allowed retry_policy maximum_attempts].
  intros H.
  eassert (Hpres : forall k s, history (snd (_ k s)) = history s);
    [| destruct (attempts_exhausted (A := Dict.t Value) inr _
                   save_research_result_activity input t st Hpres H)
         as (m1 & m2 & m3 & Hh);
       exists save_research_result_activity, input, t, m1, m2, m3, (history st);
       exact Hh ].
  intros k s. cbv beta. destruct (save_attempt w k); simpl; auto.
  now destruct (ResultSink.save_research_result_activity a input (db s)).
Qed.

Lemma run_exhausted request w db0 :
  fst (run request w (start db0)) = None ->
  ends_exhausted (history (snd (run request w (start db0)))).
Proof.
  unfold run, bind.
  pose proof (execute_activity_exhausted run_query_filter_activity request 60
                w (start db0)) as X1.
  destruct (execute_activity run_query_filter_activity request 60
              retry_policy w (start db0)) as [[out1|] st1]; [| intros _; now apply X1].
  destruct (has_errors out1); [discriminate |].
  pose proof (execute_activity_exhausted run_retriever_summarizer_activity
                (agent2_input request out1) 120 w st1) as X2.
  destruct (execute_activity run_retriever_summarizer_activity
              (agent2_input request out1) 120 retry_policy w st1)
    as [[out2|] st2]; [| intros _; now apply X2].
  destruct (has_errors out2); [discriminate |].
  pose proof (execute_activity_exhausted run_fact_check_writer_activity
                (agent3_input request out2) 120 w st2) as X3.
  destruct (execute_activity run_fact_check_writer_activity
              (agent3_input request out2) 120 retry_policy w st2)
    as [[out3|] st3]; [| intros _; now apply X3].
  destruct (has_errors out3); [discriminate |].
  pose proof (execute_save_exhausted
                (save_input request (completed out1 out2 out3)) 30 w st3) as X4.
  destruct (execute_save (save_input request (completed out1 out2 out3)) 30
              retry_policy w st3) as [[ack|] st4]; [discriminate | intros _; now apply X4].
Qed.

Lemma shape_not_exhausted request db0 h d result e :
  run_shape request db0 (Some result) h d -> In e h -> ~ out_of_attempts e.
Proof.
  intros Hshape Hin [H3 [msg Hres]].
  inversion Hshape; subst;
    try match goal with
        | H : match ?ack with Some _ => _ | None => _ end = Some _ |- _ =>
            destruct ack; [| discriminate H]
        end;
    split_history;
    match goal with
    | Hs : segment _ _ _ _ _ ?evs _, Hi : In e ?evs |- _ =>
        pose proof (segment_raised_lt _ _ _ _ _ _ _ _ _ Hs Hi Hres)
    end;
    lia.
Qed.

(** The workflow itself fails (no result, the activity error reaches the
    caller) exactly when the third attempt of some activity call raised; the
    history then ends with the three raised attempts of that call.  Errors
    that an agent returns never have this effect. *)
Theorem workflow_fails_iff_out_of_attempts request w db0 :
  let res := run request w (start db0) in
  (fst res = None <-> Exists out_of_attempts (history (snd res))) /\
  (fst res = None -> ends_exhausted (history (snd res))).
Proof.
  cbv zeta. split; [split |].
  - intros H. destruct (run_exhausted _ _ _ H)
      as (a & input & t & m1 & m2 & m3 & before & Hh).
    rewrite Hh. apply Exists_exists.
    exists (event_of a input t retry_policy 3 (Raised m3)).
    split; [rewrite in_app_iff; right; simpl; tauto |].
    split; [reflexivity | now exists m3].
  - intros H. apply Exists_exists in H. destruct H as (e & Hin & Hout).
    pose proof (run_has_shape request w db0) as Hshape. cbv zeta in Hshape.
    destruct (fst (run request w (start db0))) as [result|]; [| reflexivity].
    now destruct (shape_not_exhausted _ _ _ _ _ _ Hshape Hin).
  - apply run_exhausted.
Qed.

Lemma workflow_fails_iff_out_of_attempts_witness :
  let res := run Scenarios.request1 PipelineScenarios.stage2_times_out
               (start Scenarios.db1) in
  fst res = None /\
  map (fun e => (stage_index (ev_activity e), ev_attempt e)) (history (snd res))
    = [(1, 1); (2, 1); (2, 2); (2, 3)]%nat /\
  Exists out_of_attempts (history (snd res)) /\
  ends_exhausted (history (snd res)).
Proof.
  cbv zeta.
  destruct (workflow_fails_iff_out_of_attempts Scenarios.request1
              PipelineScenarios.stage2_times_out Scenarios.db1) as [Hiff Hend].
  cbv zeta in Hiff, Hend.
  split; [reflexivity |]. split; [reflexivity |]. split.
  - apply Hiff. reflexivity.
  - apply Hend. reflexivity.
Defined.

Lemma kept_refl request_id row : kept request_id row row.
Proof. unfold kept. auto. Qed.

Lemma kept_trans request_id a b c :
  kept request_id a b -> kept request_id b c -> kept request_id a c.
Proof.
  unfold kept. intros (Hi & Ht & Hc & He & Hs) (Hi' & Ht' & Hc' & He' & Hs').
  repeat split; try congruence.
  intros Hm. rewrite Hs', Hs; auto.
  rewrite Hs by assumption. exact Hm.
Qed.

Lemma Forall2_kept_refl request_id db : Forall2 (kept request_id) db db.
Proof. induction db; constructor; auto using kept_refl. Qed.

Lemma Forall2_kept_trans request_id a b c :
  Forall2 (kept request_id) a b -> Forall2 (kept request_id) b c ->
  Forall2 (kept request_id) a c.
Proof.
  intros H. revert c. induction H as [|x y a b Hxy Hab IH]; intros c Hbc.
  - inversion Hbc. constructor.
  - inversion Hbc; subst. constructor; eauto using kept_trans.
Qed.

(** [commit] rewrites the first row that matches, where it stands. *)
Lemma commit_first request_id new_row db row :
  ResultSink.first request_id db = Some row ->
  exists before after,
    db = before ++ row :: after /\
    Forall (fun r => ResultSink.matches request_id r = false) before /\
    ResultSink.matches request_id row = true /\
    ResultSink.commit request_id new_row db = before ++ new_row :: after.
Proof.
  unfold ResultSink.first.
  induction db as [|r db IH]; simpl; [discriminate |].
  destruct (ResultSink.matches request_id r) eqn:E.
  - intros H. injection H as <-. exists [], db. auto.
  - intros H. destruct (IH H) as (before & after & Hd & Hb & Hm & Hc).
    exists (r :: before), after. rewrite Hc. subst db.
    repeat split; auto.
Qed.

Lemma kept_updated request_id run result row :
  ResultSink.matches request_id row = true ->
  kept request_id row (ResultSink.updated run result row).
Proof.
  intros Hm. unfold kept. simpl. repeat split. congruence.
Qed.

(** What one call of [save_research_result_activity] does to the table: it
    rewrites at most one row, where it stands, the first one stored under
    the request identifier; of that row only the status, the brief, the
    completion time and the processing time change.  Every other row, the
    number of rows and their order stay.  A call that does not acknowledge
    success has changed nothing. *)
Theorem save_rewrites_one_row run data db :
  let request_id := Py.get "request_id" VNone data in
  let res := ResultSink.save_research_result_activity run data db in
  Forall2 (kept request_id) db (fst res) /\
  (fst res = db \/
   exists before row after result,
     db = before ++ row :: after /\
     Forall (fun r => ResultSink.matches request_id r = false) before /\
     ResultSink.matches request_id row = true /\
     ResultSink.result_of data = Some result /\
     ResultSink.db_fault run = None /\
     fst res = before ++ ResultSink.updated run result row :: after /\
     snd res = ResultSink.ack_success) /\
  (snd res <> ResultSink.ack_success -> fst res = db).
Proof.
  cbv zeta. unfold ResultSink.save_research_result_activity.
  destruct (ResultSink.db_fault run) as [msg|] eqn:F.
  { cbn [fst snd]. auto using Forall2_kept_refl. }
  destruct (ResultSink.first (Py.get "request_id" VNone data) db)
    as [row|] eqn:R.
  2: { cbn [fst snd]. auto using Forall2_kept_refl. }
  destruct (ResultSink.result_of data) as [result|] eqn:D.
  2: { cbn [fst snd]. auto using Forall2_kept_refl. }
  cbn [fst snd].
  destruct (commit_first _ (ResultSink.updated run result row) _ _ R)
    as (before & after & Hd & Hb & Hm & Hc).
  rewrite Hc. split; [| split].
  - rewrite Hd at 1. apply Forall2_app; [apply Forall2_kept_refl |].
    constructor; [now apply kept_updated | apply Forall2_kept_refl].
  - right. exists before, row, after, result. auto 10.
  - intros H. now contradiction H.
Qed.

Lemma save_kept run data db :
  Forall2 (kept (Py.get "request_id" VNone data)) db
          (fst (ResultSink.save_research_result_activity run data db)).
Proof.
  unfold ResultSink.save_research_result_activity.
  destruct (ResultSink.db_fault run); [apply Forall2_kept_refl |].
  destruct (ResultSink.first (Py.get "request_id" VNone data) db)
    as [row|] eqn:R; [| apply Forall2_kept_refl].
  destruct (ResultSink.result_of data) as [result|];
    [| apply Forall2_kept_refl].
  cbn [fst].
  destruct (commit_first _ (ResultSink.updated run result row) _ _ R)
    as (before & after & Hd & Hb & Hm & Hc).
  rewrite Hc. rewrite Hd at 1. apply Forall2_app; [apply Forall2_kept_refl |].
  constructor; [now apply kept_updated | apply Forall2_kept_refl].
Qed.

Lemma attempts_db_invariant {A} (P : ResultSink.Table -> Prop)
    (attempt : nat -> State -> Attempt A * State) event :
  (forall k s, P (db s) -> P (db (snd (attempt k s)))) ->
  forall remaining n st,
  P (db st) -> P (db (snd (attempts attempt event n remaining st))).
Proof.
  intros Hpres. induction remaining as [|remaining IH]; intros n st Hst; simpl; auto.
  pose proof (Hpres (S n) st Hst) as Hd.
  destruct (attempt (S n) st) as [[msg | v] st1]; simpl in Hd.
  - apply IH. exact Hd.
  - exact Hd.
Qed.

Lemma execute_save_kept request result t rp w st db0 :
  let request_id := Py.get "request_id" VNone request in
  Forall2 (kept request_id) db0 (db st) ->
  Forall2 (kept request_id) db0
    (db (snd (execute_save (save_input request result) t rp w st))).
Proof.
  cbv zeta. unfold execute_save.
  apply (attempts_db_invariant
           (fun table => Forall2 (kept (Py.get "request_id" VNone request)) db0 table)).
  intros k s Hs. destruct (save_attempt w k) as [msg | r]; [exact Hs |].
  pose proof (save_kept r (save_input request result) (db s)) as Hk.
  destruct (ResultSink.save_research_result_activity r
              (save_input request result) (db s)) as [db' ack].
  cbn [fst snd db] in *. eapply Forall2_kept_trans; eauto.
Qed.

(** Whatever happens in a run (retries, failed stages, database faults),
    the table it leaves has the rows it found, in their order: no row is
    added or removed, no row loses its identifier, topic, creation time or
    error text, and the rows of other requests are exactly as they were. *)
Theorem workflow_keeps_rows request w db0 :
  let res := run request w (start db0) in
  Forall2 (kept (Py.get "request_id" VNone request)) db0 (db (snd res)).
Proof.
  cbv zeta. unfold run, bind.
  pose proof (execute_activity_segment run_query_filter_activity request 60
                retry_policy w (start db0)) as (evs1 & _ & Hd1 & _).
  destruct (execute_activity run_query_filter_activity request 60
              retry_policy w (start db0)) as [[out1|] st1]; cbn [snd fst] in *.
  2: { rewrite Hd1. apply Forall2_kept_refl. }
  destruct (has_errors out1); cbn [ret snd].
  { rewrite Hd1. apply Forall2_kept_refl. }
  pose proof (execute_activity_segment run_retriever_summarizer_activity
                (agent2_input request out1) 120 retry_policy w st1)
    as (evs2 & _ & Hd2 & _).
  destruct (execute_activity run_retriever_summarizer_activity
              (agent2_input request out1) 120 retry_policy w st1)
    as [[out2|] st2]; cbn [snd fst] in *.
  2: { rewrite Hd2, Hd1. apply Forall2_kept_refl. }
  destruct (has_errors out2); cbn [ret snd].
  { rewrite Hd2, Hd1. apply Forall2_kept_refl. }
  pose proof (execute_activity_segment run_fact_check_writer_activity
                (agent3_input request out2) 120 retry_policy w st2)
    as (evs3 & _ & Hd3 & _).
  destruct (execute_activity run_fact_check_writer_activity
              (agent3_input request out2) 120 retry_policy w st2)
    as [[out3|] st3]; cbn [snd fst] in *.
  2: { rewrite Hd3, Hd2, Hd1. apply Forall2_kept_refl. }
  destruct (has_errors out3); cbn [ret snd].
  { rewrite Hd3, Hd2, Hd1. apply Forall2_kept_refl. }
  assert (H3 : Forall2 (kept (Py.get "request_id" VNone request)) db0 (db st3)).
  { rewrite Hd3, Hd2, Hd1. apply Forall2_kept_refl. }
  pose proof (execute_save_kept request (completed out1 out2 out3) 30
                retry_policy w st3 db0 H3) as H4.
  cbv zeta in H4.
  destruct (execute_save (save_input request (completed out1 out2 out3)) 30
              retry_policy w st3) as [[ack|] st4]; exact H4.
Qed.

End PipelineProperties.

(* --------------------------------------------------------------------- *)
(** ** Stage 1 as the pipeline calls it *)
(* --------------------------------------------------------------------- *)

Section StageOneCall.
Import Py Models Agents Activities ActivityCalls.
Variable lax_float : Value -> option Q.

Lemma slice_to_nil {T} (n : Z) : slice_to n (@nil T) = [].
Proof. unfold slice_to. destruct (0 <=? n)%Z; apply firstn_nil. Qed.

(** Without results to vet, neither [max_sources] nor the quality threshold
    has any part in what the body computes. *)
Lemma query_filter_body_unvetted env topic max_sources max_sources'
    quality_threshold quality_threshold' include_gray_literature date_range m :
  query_filter_body env topic max_sources quality_threshold
    include_gray_literature date_range None m =
  query_filter_body env topic max_sources' quality_threshold'
    include_gray_literature date_range None m.
Proof.
  unfold query_filter_body. rewrite !bind_call_eq.
  destruct (expand_query env topic date_range include_gray_literature)
    as [expansion | msg]; [| reflexivity].
  cbv beta iota. rewrite !bind_call_eq.
  destruct (py_get expansion "expanded_queries" (VList [])) as [queries | msg];
    [| reflexivity].
  cbv beta iota. rewrite !bind_call_eq.
  destruct (py_len queries) as [n | msg]; [| reflexivity].
  cbv beta iota. rewrite !bind_set_metric_eq, !bind_call_eq.
  destruct (py_get expansion "mesh_terms" (VList [])) as [terms | msg];
    [| reflexivity].
  cbv beta iota. rewrite !bind_call_eq.
  destruct (py_len terms) as [n' | msg]; [| reflexivity].
  cbv beta iota. rewrite !bind_set_metric_eq.
  cbn. now rewrite !slice_to_nil.
Qed.

Lemma get_set_other_key k k' v (request : Dict.t Value) default :
  String.eqb k' k = false ->
  Py.get k' default (Dict.set k v request) = Py.get k' default request.
Proof.
  intros Hk. unfold Py.get. induction request as [|[k0 v0] request IH]; simpl.
  - now rewrite Hk.
  - destruct (String.eqb k k0) eqn:E; simpl.
    + apply String.eqb_eq in E. subst k0. now rewrite Hk.
    + destruct (String.eqb k' k0); auto.
Qed.

Lemma get_set_this_key k v (request : Dict.t Value) default :
  Py.get k default (Dict.set k v request) = v.
Proof.
  unfold Py.get. induction request as [|[k0 v0] request IH]; simpl.
  - now rewrite String.eqb_refl.
  - destruct (String.eqb k k0) eqn:E; simpl; rewrite E; auto.
Qed.

(** In the pipeline, stage 1 never vets anything.  The activity calls
    [QueryFilterAgent.run] without search results, so for a request with
    fields of the annotated types: a run that reports no error returns an
    empty list of vetted results and records the two expansion counts only;
    and giving the request another [max_sources] and another
    [quality_threshold] changes nothing in what the activity returns. *)
Theorem stage1_never_vets env request topic max_sources quality_threshold
    include_gray_literature date_range :
  typed_query_filter_args (query_filter_args request) =
    Some (topic, max_sources, quality_threshold, include_gray_literature,
          date_range) ->
  (forall out,
     run_query_filter_activity lax_float env request = Some (Ok out) ->
     errors out = [] ->
     Py.get "vetted_results" VNone (output_data out) = VList [] /\
     map fst (metrics out) = ["expanded_queries_count"; "mesh_terms_count"]) /\
  (forall max_sources' quality_threshold',
     run_query_filter_activity lax_float env
       (Dict.set "quality_threshold" (VFloat quality_threshold')
          (Dict.set "max_sources" (VInt max_sources') request))
     = run_query_filter_activity lax_float env request).
Proof.
  intros Hargs. split.
  - intros out. unfold run_query_filter_activity. rewrite Hargs.
    intros Hrun. injection Hrun as Hrun.
    revert Hrun. unfold QueryFilterAgent_run, run_frame, query_filter_body.
    rewrite bind_call_eq.
    destruct (expand_query env topic date_range include_gray_literature)
      as [expansion | msg];
      [| cbn; intros H; injection H as <-; cbn; discriminate].
    cbv beta iota. rewrite bind_call_eq.
    destruct expansion as [| b | z | q | s | l | d];
      try (cbn; intros H; injection H as <-; cbn; discriminate).
    cbv beta iota delta [py_get]. rewrite bind_call_eq.
    destruct (py_len (Py.get "expanded_queries" (VList []) d)) as [n1 | msg];
      [| cbn; intros H; injection H as <-; cbn; discriminate].
    cbv beta iota. rewrite bind_set_metric_eq, !bind_call_eq.
    cbv beta iota.
    destruct (py_len (Py.get "mesh_terms" (VList []) d)) as [n2 | msg];
      [| cbn; intros H; injection H as <-; cbn; discriminate].
    cbv beta iota. rewrite bind_set_metric_eq.
    cbn. intros H _. injection H as <-. cbn.
    now rewrite slice_to_nil.
  - intros max_sources' quality_threshold'.
    unfold run_query_filter_activity.
    assert (Hargs' :
      typed_query_filter_args
        (query_filter_args
           (Dict.set "quality_threshold" (VFloat quality_threshold')
              (Dict.set "max_sources" (VInt max_sources') request))) =
      Some (topic, max_sources', quality_threshold', include_gray_literature,
            date_range)).
    { revert Hargs. unfold query_filter_args.
      rewrite get_set_this_key.
      rewrite !(get_set_other_key "quality_threshold") by reflexivity.
      rewrite get_set_this_key.
      rewrite !(get_set_other_key "max_sources") by reflexivity.
      unfold typed_query_filter_args.
      destruct (Py.get "topic" VNone request); try discriminate.
      destruct (Py.get "max_sources" (VInt 15) request); try discriminate.
      destruct (Py.get "quality_threshold" (VFloat (7 # 10)) request);
        try discriminate;
        (destruct (Py.get "include_gray_literature" (VBool false) request);
         try discriminate);
        intros H; injection H as <- _ _ <- <-; reflexivity. }
    rewrite Hargs, Hargs'. f_equal.
    unfold QueryFilterAgent_run, run_frame.
    now rewrite (query_filter_body_unvetted env topic max_sources' max_sources
                   quality_threshold' quality_threshold).
Qed.

End StageOneCall.

Section StageOneScenario.
Import Py Models Agents Activities ActivityCalls.

Lemma stage1_never_vets_witness :
  let env := query_filter_env expands (Vetting.vets_all (9 # 10) (7 # 10)) 12 in
  typed_query_filter_args (query_filter_args api_request) =
    Some ("diabetes management in elderly patients", 15%Z, 7 # 10, false, None) /\
  (exists out,
     run_query_filter_activity AgentScenarios.no_lax env api_request
       = Some (Ok out) /\
     errors out = [] /\
     Py.get "vetted_results" VNone (output_data out) = VList [] /\
     map fst (metrics out) = ["expanded_queries_count"; "mesh_terms_count"]) /\
  run_query_filter_activity AgentScenarios.no_lax env
    (Dict.set "quality_threshold" (VFloat 1)
       (Dict.set "max_sources" (VInt 50) api_request))
  = run_query_filter_activity AgentScenarios.no_lax env api_request.
Proof.
  intros env.
  destruct (stage1_never_vets AgentScenarios.no_lax env api_request
              "diabetes management in elderly patients" 15 (7 # 10) false None
              eq_refl) as [Hout Hsame].
  split; [reflexivity |]. split.
  - eexists. split; [reflexivity |]. split; [reflexivity |].
    apply Hout; reflexivity.
  - apply Hsame.
Defined.

End StageOneScenario.

(* --------------------------------------------------------------------- *)
(** ** Fusion works on ranks alone *)
(* --------------------------------------------------------------------- *)

Section RankProperties.
Import Ranking Fusion FusionSpec RankSpec.

Lemma bm25_step_same r a a' ds :
  same_hit a a' -> bm25_step r a ds = bm25_step r a' ds.
Proof. intros [Hi Hs]. unfold bm25_step. now rewrite Hi, Hs. Qed.

Lemma vector_step_same r a a' ds :
  same_hit a a' -> vector_step r a ds = vector_step r a' ds.
Proof. intros [Hi Hs]. unfold vector_step. now rewrite Hi, Hs. Qed.

Lemma enumerate_loop_same step A A' :
  (forall r a a' ds, same_hit a a' -> step r a ds = step r a' ds) ->
  same_ranking A A' ->
  forall r ds, enumerate_loop step r A ds = enumerate_loop step r A' ds.
Proof.
  intros Hstep H. induction H as [|a a' A A' Ha HA IH]; intros r ds; simpl.
  - reflexivity.
  - now rewrite (Hstep r a a' ds Ha), IH.
Qed.

(** Fusion reads the order of the hits, their identifiers and their
    payloads, and nothing else: the scores the two searches computed and
    the retrieval method they recorded have no influence on the fused
    list. *)
Theorem hybrid_fusion_reads_ranks_only A A' B B' alpha :
  same_ranking A A' -> same_ranking B B' ->
  hybrid_fusion A B alpha = hybrid_fusion A' B' alpha.
Proof.
  intros HA HB. unfold hybrid_fusion, fused_unsorted, doc_scores_of.
  rewrite (enumerate_loop_same bm25_step A A' bm25_step_same HA).
  now rewrite (enumerate_loop_same vector_step B B' vector_step_same HB).
Qed.

Lemma hybrid_fusion_reads_ranks_only_witness :
  let A := [hit "doc1"; hit "doc2"] in
  let B := [hit "doc2"; hit "doc3"] in
  let A' := [rescored 3 "bm25" (hit "doc1"); rescored 9 "bm25" (hit "doc2")] in
  let B' := [rescored (1 # 9) "vector" (hit "doc2");
             rescored (1 # 2) "vector" (hit "doc3")] in
  same_ranking A A' /\ same_ranking B B' /\
  hybrid_fusion A B (1 # 2) = hybrid_fusion A' B' (1 # 2).
Proof.
  intros A B A' B'.
  assert (HA : same_ranking A A') by (repeat constructor).
  assert (HB : same_ranking B B') by (repeat constructor).
  split; [exact HA |]. split; [exact HB |].
  exact (hybrid_fusion_reads_ranks_only A A' B B' (1 # 2) HA HB).
Defined.

Lemma before_index x y l :
  NoDup l -> before x y l -> (index_of x l < index_of y l)%nat.
Proof.
  intros Hn Hb. apply before_first_seen. now rewrite first_seen_NoDup.
Qed.

Lemma last_rank_index x l :
  NoDup l -> In x l -> last_rank x l = Some (1 + index_of x l)%nat.
Proof.
  intros Hn Hin. rewrite last_rank_NoDup by assumption.
  unfold first_rank. now apply first_rank_from_index.
Qed.

Lemma sorted_before (l : list FusedDoc) a b :
  StronglySorted desc l -> In a l -> In b l ->
  hybrid_score b < hybrid_score a -> before a b l.
Proof.
  intros Hs. induction Hs as [|c l Hs IH Hall]; intros Ha Hb Hlt.
  - contradiction.
  - rewrite Forall_forall in Hall.
    destruct Ha as [Ha | Ha].
    + subst c. constructor. destruct Hb as [Hb | Hb]; [| exact Hb].
      exfalso. subst b. now apply (Qlt_irrefl (hybrid_score a)).
    + destruct Hb as [Hb | Hb].
      * exfalso. subst c. specialize (Hall a Ha). unfold desc in Hall.
        apply (Qlt_irrefl (hybrid_score a)).
        eapply Qle_lt_trans; eauto.
      * apply before_later. auto.
Qed.

Lemma weighted_mean_strict alpha b1 v1 b2 v2 :
  0 <= alpha <= 1 -> b2 < b1 -> v2 < v1 ->
  alpha * b2 + (1 - alpha) * v2 < alpha * b1 + (1 - alpha) * v1.
Proof.
  intros [Ha0 Ha1] Hb Hv.
  assert (H1a : 0 <= 1 - alpha).
  { setoid_replace 0 with (alpha - alpha) by ring.
    apply Qplus_le_compat; [exact Ha1 | apply Qle_refl]. }
  destruct (Qlt_le_dec 0 alpha) as [Hpos | Hzero].
  - apply Qplus_lt_le_compat.
    + rewrite (Qmult_comm alpha b2), (Qmult_comm alpha b1).
      now apply Qmult_lt_compat_r.
    + rewrite (Qmult_comm (1 - alpha) v2), (Qmult_comm (1 - alpha) v1).
      apply Qmult_le_compat_r; [now apply Qlt_le_weak | exact H1a].
  - assert (E : alpha == 0) by (apply Qle_antisym; assumption).
    rewrite E. setoid_replace (0 * b2 + (1 - 0) * v2) with v2 by ring.
    now setoid_replace (0 * b1 + (1 - 0) * v1) with v1 by ring.
Qed.

(** Fusion respects what the two rankings agree on: when both lists, free
    of repeated identifiers, rank a document above another one, the fused
    list does so as well, for every weight between 0 and 1. *)
Theorem hybrid_fusion_respects_agreement A B alpha x y :
  NoDup (ids A) -> NoDup (ids B) -> 0 <= alpha <= 1 ->
  before x y (ids A) -> before x y (ids B) ->
  before x y (map fused_doc_id (hybrid_fusion A B alpha)).
Proof.
  intros HnA HnB Halpha HbA HbB.
  destruct (before_In _ _ _ HbA) as [HxA HyA].
  destruct (before_In _ _ _ HbB) as [HxB HyB].
  assert (Hx : In x (map fused_doc_id (hybrid_fusion A B alpha))).
  { apply hybrid_fusion_ids. now left. }
  assert (Hy : In y (map fused_doc_id (hybrid_fusion A B alpha))).
  { apply hybrid_fusion_ids. now left. }
  apply in_map_iff in Hx, Hy.
  destruct Hx as (ex & <- & Hex), Hy as (ey & <- & Hey).
  apply before_map. apply sorted_before; auto.
  { unfold hybrid_fusion. apply sort_desc_sorted. }
  destruct (hybrid_fusion_entry _ _ _ _ Hex) as (Hbx & Hvx & Hhx).
  destruct (hybrid_fusion_entry _ _ _ _ Hey) as (Hby & Hvy & Hhy).
  rewrite Hhx, Hhy. apply weighted_mean_strict; auto.
  - rewrite Hbx, Hby, !last_rank_index by assumption. simpl.
    apply rrf_decreasing. pose proof (before_index _ _ _ HnA HbA). lia.
  - rewrite Hvx, Hvy, !last_rank_index by assumption. simpl.
    apply rrf_decreasing. pose proof (before_index _ _ _ HnB HbB). lia.
Qed.

Lemma hybrid_fusion_respects_agreement_witness :
  let A := [hit "doc1"; hit "doc2"; hit "doc3"] in
  let B := [hit "doc4"; hit "doc2"; hit "doc3"] in
  map fused_doc_id (hybrid_fusion A B (1 # 3)) = ["doc2"; "doc3"; "doc4"; "doc1"] /\
  before "doc2" "doc3" (map fused_doc_id (hybrid_fusion A B (1 # 3))).
Proof.
  intros A B. split; [reflexivity |].
  apply (hybrid_fusion_respects_agreement A B (1 # 3) "doc2" "doc3").
  - repeat constructor; simpl; intuition discriminate.
  - repeat constructor; simpl; intuition discriminate.
  - split; discriminate.
  - apply before_later, before_here. simpl. tauto.
  - apply before_later, before_here. simpl. tauto.
Defined.

End RankProperties.

(* --------------------------------------------------------------------- *)
(** ** Stage 3: the brief and what is stored of it *)
(* --------------------------------------------------------------------- *)

Section StageThree.
Import Py Models Agents.
Variable lax_float : Value -> option Q.

Lemma run_frame_ok name body time_ms out :
  run_frame lax_float name body time_ms = Ok out ->
  errors out = [] ->
  exists data, fst (body []) = Ok data /\ output_data out = data.
Proof.
  unfold run_frame, new_AgentOutput.
  destruct (body []) as [[data | msg] m]; cbn [fst];
    destruct (validate_metrics lax_float m); try discriminate;
    intros H; injection H as <-; cbn [errors output_data]; intros He.
  - now exists data.
  - discriminate He.
Qed.

Lemma bind_call_ok {A B} (o : Outcome A) (k : A -> Body B) m x :
  fst (bind (call o) k m) = Ok x ->
  exists a, o = Ok a /\ fst (k a m) = Ok x.
Proof.
  unfold bind, call. destruct o as [a | msg]; [| discriminate].
  intros H. now exists a.
Qed.

Lemma bind_set_metric_ok {B} key v (k : unit -> Body B) m x :
  fst (bind (set_metric key v) k m) = Ok x ->
  fst (k tt (Dict.set key v m)) = Ok x.
Proof. unfold bind, set_metric. auto. Qed.

Lemma py_get_ok v k default x :
  py_get v k default = Ok x -> exists d, v = VDict d /\ x = Py.get k default d.
Proof.
  destruct v; try discriminate. intros H. injection H as <-. now eexists.
Qed.

Tactic Notation "called" hyp(H) "as" ident(a) ident(E) :=
  apply bind_call_ok in H; destruct H as (a & E & H).

Ltac metric_set H := apply bind_set_metric_ok in H.

Lemma fact_check_run_inv env topic retrieved_docs summary_data out :
  FactCheckWriterAgent_run lax_float env topic retrieved_docs summary_data
    = Ok out ->
  errors out = [] ->
  exists d sd words sources citations risk_flags_data flags traceability brief,
    write_brief env topic summary_data = Ok (VDict d) /\
    summary_data = VDict sd /\
    let brief_text := Py.get "brief_text" (VStr EmptyString) d in
    py_split_len brief_text = Ok words /\
    sources_metadata env retrieved_docs = Ok sources /\
    extract_citations_from_brief env brief_text retrieved_docs = Ok citations /\
    assess_risks env topic retrieved_docs
      (Py.get "contradictions" (VList []) sd) = Ok risk_flags_data /\
    risk_flags env risk_flags_data = Ok flags /\
    build_traceability env (Py.get "claims" (VList []) d) retrieved_docs
      = Ok traceability /\
    research_brief env brief_text (Py.get "word_count" (VInt words) d)
      sources citations flags traceability
      [("topic", VStr topic);
       ("contradictions", Py.get "contradictions" (VList []) sd);
       ("overall_quality", Py.get "overall_quality" (VStr "unknown") sd)]
      = Ok brief /\
    output_data out = [("research_brief", brief); ("topic", VStr topic)].
Proof.
  intros Hrun Herr. unfold FactCheckWriterAgent_run in Hrun.
  destruct (run_frame_ok _ _ _ _ Hrun Herr) as (data & H & Hout).
  unfold fact_check_writer_body in H.
  called H as brief_data Ewrite.
  called H as brief_text E. apply py_get_ok in E. destruct E as (d & -> & ->).
  called H as words Ewords.
  called H as word_count E. injection E as <-.
  called H as claims E. injection E as <-.
  metric_set H.
  called H as n E. clear E. metric_set H.
  called H as sources Esources.
  called H as citations Ecitations.
  metric_set H.
  called H as contradictions E. apply py_get_ok in E. destruct E as (sd & -> & ->).
  called H as risk_flags_data Erisks.
  called H as flags Eflags.
  metric_set H.
  called H as traceability Etrace.
  metric_set H.
  called H as quality E. injection E as <-.
  called H as brief Ebrief.
  cbn in H. injection H as <-.
  exists d, sd, words, sources, citations, risk_flags_data, flags,
    traceability, brief.
  cbv zeta. auto 12.
Qed.

(** A run of [FactCheckWriterAgent] that reports no error: the language
    model's answer and the summary are dictionaries and the brief text is a
    string; the brief is put together from the text, from the word count the
    model stated (the number of words of the text when it stated none), and
    from the sources, citations, risk flags and traceability computed from
    the documents the agent was given; the run returns that brief and the
    topic. *)
Theorem FactCheckWriterAgent_run_success env topic retrieved_docs summary_data out :
  FactCheckWriterAgent_run lax_float env topic retrieved_docs summary_data
    = Ok out ->
  errors out = [] ->
  exists d sd words sources citations risk_flags_data flags traceability brief,
    write_brief env topic summary_data = Ok (VDict d) /\
    summary_data = VDict sd /\
    let brief_text := Py.get "brief_text" (VStr EmptyString) d in
    py_split_len brief_text = Ok words /\
    sources_metadata env retrieved_docs = Ok sources /\
    extract_citations_from_brief env brief_text retrieved_docs = Ok citations /\
    assess_risks env topic retrieved_docs
      (Py.get "contradictions" (VList []) sd) = Ok risk_flags_data /\
    risk_flags env risk_flags_data = Ok flags /\
    build_traceability env (Py.get "claims" (VList []) d) retrieved_docs
      = Ok traceability /\
    research_brief env brief_text (Py.get "word_count" (VInt words) d)
      sources citations flags traceability
      [("topic", VStr topic);
       ("contradictions", Py.get "contradictions" (VList []) sd);
       ("overall_quality", Py.get "overall_quality" (VStr "unknown") sd)]
      = Ok brief /\
    output_data out = [("research_brief", brief); ("topic", VStr topic)] /\
    (exists s, brief_text = VStr s /\
       words = count_words false (Text.code_points s)).
Proof.
  intros Hrun Herr.
  destruct (fact_check_run_inv _ _ _ _ _ Hrun Herr)
    as (d & sd & words & sources & citations & risk_flags_data & flags &
        traceability & brief & H1 & H2 & H3 & H4 & H5 & H6 & H7 & H8 & H9 & H10).
  exists d, sd, words, sources, citations, risk_flags_data, flags,
    traceability, brief.
  cbv zeta in *. repeat (split; [assumption |]).
  destruct (Py.get "brief_text" (VStr EmptyString) d); try discriminate H3.
  injection H3 as <-. now eexists.
Qed.

(** From stage 3 to the database.  The brief of an error-free run of
    [FactCheckWriterAgent] is the ["brief"] of the workflow's completed
    result, whatever the first two stages returned, and it is what the save
    activity writes into the row it updates, with the status "completed". *)
Theorem stage3_brief_is_stored env topic retrieved_docs summary_data out3 :
  FactCheckWriterAgent_run lax_float env topic retrieved_docs summary_data
    = Ok out3 ->
  errors out3 = [] ->
  exists brief,
    output_data out3 = [("research_brief", brief); ("topic", VStr topic)] /\
    forall request out1 out2 run row,
      let result := ResearchWorkflow.completed out1 out2 out3 in
      Py.get "brief" VNone result = brief /\
      ResultSink.result_of (ResearchWorkflow.save_input request result)
        = Some result /\
      status (ResultSink.updated run result row) = VStr COMPLETED /\
      brief_data (ResultSink.updated run result row) = brief.
Proof.
  intros Hrun Herr.
  destruct (fact_check_run_inv _ _ _ _ _ Hrun Herr)
    as (d & sd & words & sources & citations & risk_flags_data & flags &
        traceability & brief & _ & _ & _ & _ & _ & _ & _ & _ & _ & Hout).
  exists brief. split; [exact Hout |].
  intros request out1 out2 run row. cbv zeta.
  unfold ResearchWorkflow.completed. rewrite Hout. cbn.
  repeat split.
Qed.

End StageThree.

Section StageThreeScenario.
Import Py Models Agents StageThreeScenarios.

Lemma FactCheckWriterAgent_run_success_witness :
  let env := brief_succeeds in
  exists out,
    FactCheckWriterAgent_run AgentScenarios.no_lax env "topic" (VList []) (VDict [])
      = Ok out /\
    errors out = [] /\
    output_data out =
      [("research_brief",
        VDict [("executive_brief", VStr "Evidence shows benefits [1].");
               ("word_count", VInt 4)]);
       ("topic", VStr "topic")] /\
    exists d sd words sources citations risk_flags_data flags traceability brief,
      write_brief env "topic" (VDict []) = Ok (VDict d) /\
      VDict [] = VDict sd /\
      let brief_text := Py.get "brief_text" (VStr EmptyString) d in
      py_split_len brief_text = Ok words /\
      sources_metadata env (VList []) = Ok sources /\
      extract_citations_from_brief env brief_text (VList []) = Ok citations /\
      assess_risks env "topic" (VList [])
        (Py.get "contradictions" (VList []) sd) = Ok risk_flags_data /\
      risk_flags env risk_flags_data = Ok flags /\
      build_traceability env (Py.get "claims" (VList []) d) (VList [])
        = Ok traceability /\
      research_brief env brief_text (Py.get "word_count" (VInt words) d)
        sources citations flags traceability
        [("topic", VStr "topic");
         ("contradictions", Py.get "contradictions" (VList []) sd);
         ("overall_quality", Py.get "overall_quality" (VStr "unknown") sd)]
        = Ok brief /\
      output_data out = [("research_brief", brief); ("topic", VStr "topic")] /\
      (exists s, brief_text = VStr s /\
       words = count_words false (Text.code_points s)).
Proof.
  intros env. eexists.
  split; [reflexivity |]. split; [reflexivity |]. split; [reflexivity |].
  apply (FactCheckWriterAgent_run_success AgentScenarios.no_lax env "topic"
           (VList []) (VDict [])); reflexivity.
Defined.

Lemma stage3_brief_is_stored_witness :
  let env := brief_succeeds in
  exists out3,
    FactCheckWriterAgent_run AgentScenarios.no_lax env "topic" (VList []) (VDict [])
      = Ok out3 /\
    errors out3 = [] /\
    brief_data
      (ResultSink.updated Scenarios.clock
         (ResearchWorkflow.completed out3 out3 out3) Scenarios.row1)
      = VDict [("executive_brief", VStr "Evidence shows benefits [1].");
               ("word_count", VInt 4)] /\
    exists brief,
      output_data out3 = [("research_brief", brief); ("topic", VStr "topic")] /\
      forall request out1 out2 run row,
        let result := ResearchWorkflow.completed out1 out2 out3 in
        Py.get "brief" VNone result = brief /\
        ResultSink.result_of (ResearchWorkflow.save_input request result)
          = Some result /\
        status (ResultSink.updated run result row) = VStr COMPLETED /\
        brief_data (ResultSink.updated run result row) = brief.
Proof.
  intros env. eexists.
  split; [reflexivity |]. split; [reflexivity |]. split; [reflexivity |].
  apply (stage3_brief_is_stored AgentScenarios.no_lax env "topic"
           (VList []) (VDict [])); reflexivity.
Defined.

End StageThreeScenario.

(* --------------------------------------------------------------------- *)
(** ** Order of the history, and what a completed run stores *)
(* --------------------------------------------------------------------- *)

Section HistoryProperties.
Import Py Models Temporal ResearchWorkflow WorkflowSpec PipelineSpec HistorySpec.

Lemma segment_sorted a input t rp n evs r :
  segment a input t rp n evs r -> StronglySorted earlier evs.
Proof.
  induction 1 as [n | n v | n msg evs r Hs IH].
  - constructor.
  - repeat constructor.
  - constructor; [exact IH |].
    apply Forall_forall. intros e He.
    pose proof (segment_event _ _ _ _ _ _ _ _ Hs He) as (Ha & _ & _ & _ & _ & Hn).
    right. simpl. split; [now rewrite Ha | lia].
Qed.

Lemma StronglySorted_app {T} (R : T -> T -> Prop) l1 l2 :
  StronglySorted R l1 -> StronglySorted R l2 ->
  (forall x y, In x l1 -> In y l2 -> R x y) ->
  StronglySorted R (l1 ++ l2).
Proof.
  intros H1 H2 H. induction H1 as [|a l1 H1 IH Ha]; simpl; [exact H2 |].
  constructor.
  - apply IH. intros x y Hx Hy. apply H; [now right | exact Hy].
  - apply Forall_app. split; [exact Ha |].
    apply Forall_forall. intros y Hy. apply H; [now left | exact Hy].
Qed.

Lemma segments_ordered a input t rp n evs r a' input' t' rp' n' evs' r' :
  segment a input t rp n evs r ->
  segment a' input' t' rp' n' evs' r' ->
  (stage_index a < stage_index a')%nat ->
  forall x y, In x evs -> In y evs' -> earlier x y.
Proof.
  intros Hs Hs' Hlt x y Hx Hy.
  pose proof (segment_event _ _ _ _ _ _ _ _ Hs Hx) as (Ha & _).
  pose proof (segment_event _ _ _ _ _ _ _ _ Hs' Hy) as (Ha' & _).
  left. now rewrite Ha, Ha'.
Qed.

Ltac sorted_history :=
  repeat first
    [ eapply segment_sorted; eassumption
    | apply StronglySorted_app;
      [ | | let x := fresh in let y := fresh in
            let Hx := fresh in let Hy := fresh in
            intros x y Hx Hy;
            repeat match goal with
                   | H : In _ (_ ++ _) |- _ =>
                       apply in_app_or in H; destruct H as [H | H]
                   end;
            match goal with
            | Hs : segment _ _ _ _ _ ?l1 _, Hs' : segment _ _ _ _ _ ?l2 _,
              H1 : In x ?l1, H2 : In y ?l2 |- _ =>
                apply (segments_ordered _ _ _ _ _ _ _ _ _ _ _ _ _ _ Hs Hs');
                [simpl; lia | exact H1 | exact H2]
            end ] ].

Lemma shape_ordered request db0 r h d :
  run_shape request db0 r h d -> StronglySorted earlier h.
Proof.
  intros Hshape. inversion Hshape; subst; sorted_history.
Qed.

(** The history of every run is in the order of the pipeline: the attempts
    of the query stage, then those of the retrieval stage, of the writing
    stage and of the save activity, the attempts of each in the order of
    their numbers.  So no activity is ever run again once a later one has
    started, and no attempt number occurs twice for an activity. *)
Theorem workflow_history_ordered request w db0 :
  let h := history (snd (run request w (start db0))) in
  StronglySorted earlier h /\
  (forall e e', In e h -> In e' h ->
     ev_activity e = ev_activity e' -> ev_attempt e = ev_attempt e' -> e = e').
Proof.
  cbv zeta.
  pose proof (run_has_shape request w db0) as Hshape. cbv zeta in Hshape.
  pose proof (shape_ordered _ _ _ _ _ Hshape) as Hs.
  split; [exact Hs |].
  intros e e'. generalize dependent (history (snd (run request w (start db0)))).
  intros h _ Hs. induction Hs as [|a l Hs IH Hall]; [contradiction |].
  rewrite Forall_forall in Hall.
  intros [<- | He] [<- | He'] Hact Hatt; auto.
  - destruct (Hall e' He') as [H | [_ H]]; [rewrite Hact in H |]; lia.
  - destruct (Hall e He) as [H | [_ H]]; [rewrite Hact in H |]; lia.
Qed.




End HistoryProperties.

(* --------------------------------------------------------------------- *)
(** ** The scores in binary64 *)
(* --------------------------------------------------------------------- *)

Section Binary64Scores.
Import Ranking Fusion EntrySpec.




















End Binary64Scores.

(* --------------------------------------------------------------------- *)
(** ** Retries: every raise, and nothing but a raise *)
(* --------------------------------------------------------------------- *)

Section RetryProperties.
Import Py Models Agents Temporal ResearchWorkflow WorkflowSpec RetrySpec.









(** C7 (as stated) fails.  In the first run every remote call answers and
    no attempt times out; the language model's brief has a null word count,
    [FactCheckWriterAgent.run] raises the validation error of its output
    model, the activity has no [try], and the attempt is made three times:
    a failure of the logic is retried, and the workflow ends with the
    activity error instead of a failed stage result.  In the second run the
    language model cannot be reached; [run] catches the error and returns
    it, and the attempt is not repeated. *)
Lemma C7_validation_error_is_retried :
  let request := Scenarios.request1 in
  let invalid := RetryScenarios.stage3_world null_word_count in
  let res := run request invalid (start Scenarios.db1) in
  let down := RetryScenarios.stage3_world RetryScenarios.connection_lost in
  let res' := run request down (start Scenarios.db1) in
  (forall topic summary_data,
     exists brief, write_brief null_word_count topic summary_data = Ok brief) /\
  map (fun e => (ev_activity e, ev_attempt e, RetryScenarios.kind_in null_word_count e))
      (history (snd res))
    = [(run_query_filter_activity, 1%nat, None);
       (run_retriever_summarizer_activity, 1%nat, None);
       (run_fact_check_writer_activity, 1%nat, Some SEMANTIC);
       (run_fact_check_writer_activity, 2%nat, Some SEMANTIC);
       (run_fact_check_writer_activity, 3%nat, Some SEMANTIC)] /\
  map ev_result (skipn 2 (history (snd res)))
    = [Raised validation_error; Raised validation_error; Raised validation_error] /\
  fst res = None /\
  ~ retries_only_transient (RetryScenarios.kind_in null_word_count)
      (history (snd res)) /\
  map (fun e => (ev_activity e, ev_attempt e,
                 RetryScenarios.kind_in RetryScenarios.connection_lost e))
      (history (snd res'))
    = [(run_query_filter_activity, 1%nat, None);
       (run_retriever_summarizer_activity, 1%nat, None);
       (run_fact_check_writer_activity, 1%nat, Some TRANSIENT)] /\
  fst res' = Some [("status", VStr "failed");
                   ("error", VStr "Fact-Check+Writer Agent failed: ['Connection error.']")].
Proof.
  cbv zeta.
  split; [intros; eexists; reflexivity |].
  assert (Hmap :
    map (fun e => (ev_activity e, ev_attempt e,
                   RetryScenarios.kind_in null_word_count e))
        (history (snd (run Scenarios.request1
                         (RetryScenarios.stage3_world null_word_count)
                         (start Scenarios.db1))))
    = [(run_query_filter_activity, 1%nat, None);
       (run_retriever_summarizer_activity, 1%nat, None);
       (run_fact_check_writer_activity, 1%nat, Some SEMANTIC);
       (run_fact_check_writer_activity, 2%nat, Some SEMANTIC);
       (run_fact_check_writer_activity, 3%nat, Some SEMANTIC)])
    by reflexivity.
  split; [exact Hmap |]. split; [reflexivity |]. split; [reflexivity |].
  split; [| split; reflexivity].
  intros H.
  destruct (history (snd (run Scenarios.request1
                            (RetryScenarios.stage3_world null_word_count)
                            (start Scenarios.db1))))
    as [|e1 [|e2 [|e3 [|e4 l]]]]; try discriminate Hmap.
  cbn [map] in Hmap.
  injection Hmap as _ _ _ _ _ _ Ha3 Hn3 Hk3 Ha4 Hn4 _ _.
  assert (Hk : RetryScenarios.kind_in null_word_count e3 = Some TRANSIENT).
  { apply H; [simpl; tauto |].
    exists e4. split; [simpl; tauto |]. split; congruence. }
  rewrite Hk3 in Hk. discriminate Hk.
Qed.

End RetryProperties.
